(** * fetch_qrz_data.py: the reconciliation engine, embedded and verified

    The script reconciles a table of amateur-radio operators with the
    records of an external lookup service.  This development embeds the
    decision logic of [src/fetch_qrz_data.py] as Rocq functions and states
    the properties of the specification over them.

    Conventions of the embedding.
    - A Python [str] is a [string]; the text handled here is 7-bit ASCII
      (callsigns, names, dates, XML markup).  Characters above 127 are kept
      as they are and have neither case nor a whitespace or digit class.
    - A first name may hold any character.  The two forms of a first name
      are therefore also given over code points ([Uni]), with the character
      database that [str.split] and [str.title] consult as an argument, and
      with the database of CPython on Latin-1 text as an instance.  On an
      ASCII name both models give the same forms
      ([storage_first_name_agrees], [normalize_first_name_agrees]).
    - [None] is [None]: a value that may be absent is an [option string].
    - An index is a [Z], as [str.find] returns -1 and slices accept any
      integer.
    - The database table [tbl_Operator] is a finite map keyed by its [Call]
      column: a statement with [WHERE Call=?] addresses the row whose key
      is the parameter, and what a connection executes reaches the table
      when the connection commits.
    - The lookup service, the clock and the failures of the database driver
      are inputs of a run ([Env]); one reading of the clock serves a call.
      Appending to a log file and closing a connection do not fail. *)

From Stdlib Require Import ZArith NArith Ascii String List Bool Lia.
From stdpp Require Import gmap strings.

Local Open Scope Z_scope.

(** ** Python's string methods *)

Module Py.

Definition code (c : ascii) : N := N_of_ascii c.

Definition is_upper (c : ascii) : bool := ((65 <=? code c) && (code c <=? 90))%N.
Definition is_lower (c : ascii) : bool := ((97 <=? code c) && (code c <=? 122))%N.
(** A cased character: the ASCII letters. *)
Definition is_cased (c : ascii) : bool := is_upper c || is_lower c.
(** [\d] of the [re] module, on ASCII text. *)
Definition is_digit (c : ascii) : bool := ((48 <=? code c) && (code c <=? 57))%N.
(** [str.isspace] on one character: TAB, LF, VT, FF, CR, FS, GS, RS, US, SPACE. *)
Definition is_space (c : ascii) : bool :=
  (((9 <=? code c) && (code c <=? 13)) || ((28 <=? code c) && (code c <=? 32)))%N.

Definition to_upper (c : ascii) : ascii :=
  if is_lower c then ascii_of_N (code c - 32) else c.
Definition to_lower (c : ascii) : ascii :=
  if is_upper c then ascii_of_N (code c + 32) else c.

(** [len(s)] *)
Definition len (s : string) : nat := String.length s.

(** [s.upper()], [s.lower()] *)
Fixpoint upper (s : string) : string :=
  match s with
  | EmptyString => EmptyString
  | String c r => String (to_upper c) (upper r)
  end.

Fixpoint lower (s : string) : string :=
  match s with
  | EmptyString => EmptyString
  | String c r => String (to_lower c) (lower r)
  end.

(** [s.title()]: a cased character that follows a cased one is lowered, any
    other cased character is raised.  [prev] tells whether the previous
    character was cased. *)
Fixpoint title_from (prev : bool) (s : string) : string :=
  match s with
  | EmptyString => EmptyString
  | String c r =>
      String (if prev then to_lower c else to_upper c) (title_from (is_cased c) r)
  end.

Definition title (s : string) : string := title_from false s.

(** [s.startswith(p)] *)
Fixpoint startswith (p s : string) : bool :=
  match p, s with
  | EmptyString, _ => true
  | String a p', String b s' => if Ascii.eqb a b then startswith p' s' else false
  | String _ _, EmptyString => false
  end.

(** [s.find(sub)]: the lowest index at which [sub] starts, -1 when there is none. *)
Fixpoint find_from (i : Z) (sub s : string) : Z :=
  if startswith sub s then i
  else match s with
       | EmptyString => -1
       | String _ r => find_from (i + 1) sub r
       end.

Definition find (s sub : string) : Z := find_from 0 sub s.

(** [sub in s] *)
Definition contains (sub s : string) : bool := negb (find s sub =? -1).

(** [s[start:stop]] with Python's treatment of negative and out-of-range bounds. *)
Definition slice (s : string) (start stop : Z) : string :=
  let n := Z.of_nat (len s) in
  let clamp i := if i <? 0 then Z.max 0 (i + n) else Z.min i n in
  let a := clamp start in
  let b := clamp stop in
  String.substring (Z.to_nat a) (Z.to_nat (b - a)) s.

(** The pieces of [s] between the characters that satisfy [sep]; empty pieces
    are kept, so the result is never empty. *)
Fixpoint pieces (sep : ascii -> bool) (s : string) : list string :=
  match s with
  | EmptyString => [EmptyString]
  | String c r =>
      if sep c then EmptyString :: pieces sep r
      else match pieces sep r with
           | w :: ws => String c w :: ws
           | [] => [String c EmptyString]
           end
  end.

Definition nonempty (s : string) : bool :=
  match s with EmptyString => false | String _ _ => true end.

(** [s.split(ch)] for a one-character separator *)
Definition split_on (ch : ascii) (s : string) : list string :=
  pieces (Ascii.eqb ch) s.

(** [s.split()]: runs of whitespace separate, no empty word is returned. *)
Definition split (s : string) : list string :=
  List.filter nonempty (pieces is_space s).

(** [sep.join(ws)] *)
Fixpoint join (sep : string) (ws : list string) : string :=
  match ws with
  | [] => EmptyString
  | [w] => w
  | w :: rest => w +:+ sep +:+ join sep rest
  end.

Fixpoint lstrip_by (p : ascii -> bool) (s : string) : string :=
  match s with
  | EmptyString => EmptyString
  | String c r => if p c then lstrip_by p r else s
  end.

Fixpoint rstrip_by (p : ascii -> bool) (s : string) : string :=
  match s with
  | EmptyString => EmptyString
  | String c r =>
      match rstrip_by p r with
      | EmptyString => if p c then EmptyString else String c EmptyString
      | r' => String c r'
      end
  end.

(** [s.strip()] *)
Definition strip (s : string) : string := rstrip_by is_space (lstrip_by is_space s).

(** [s.rstrip(ch)] for a one-character argument *)
Definition rstrip_char (ch : ascii) (s : string) : string := rstrip_by (Ascii.eqb ch) s.

(** [xs[0]] of a list that [split] returned (never empty for [split_on]). *)
Definition first (ws : list string) : string :=
  match ws with w :: _ => w | [] => EmptyString end.

(** Truthiness of an optional string: [None] and [''] are false. *)
Definition truthy (o : option string) : bool :=
  match o with Some s => nonempty s | None => false end.

(** [str(x)] / the rendering of [x] in an f-string, for an optional string. *)
Definition render (o : option string) : string :=
  match o with Some s => s | None => "None" end.

End Py.

(** ** Field extraction *)

(** [extract_xml_value(xml_data, field)] *)
Definition extract_xml_value (xml_data field : string) : option string :=
  let start := Py.find xml_data ("<" +:+ field +:+ ">")
               + Z.of_nat (Py.len ("<" +:+ field +:+ ">")) in
  let end_ := Py.find xml_data ("</" +:+ field +:+ ">") in
  if negb (start =? -1) && negb (end_ =? -1)
  then Some (Py.slice xml_data start end_)
  else None.

(** ** License class *)

(** The dictionary literal of [map_license_class]. *)
Definition class_map : gmap string string :=
  <["E" := "Extra"]> (<["G" := "General"]> (<["T" := "Technician"]>
  (<["A" := "Advanced"]> (<["C" := "Club"]> ∅)))).

(** [d.get(key, default)], for a key that may be [None] *)
Definition dict_get (d : gmap string string) (key : option string)
    (default : string) : string :=
  match key with
  | Some k => match d !! k with Some v => v | None => default end
  | None => default
  end.

(** [map_license_class(class_code)] *)
Definition map_license_class (class_code : option string) : string :=
  dict_get class_map class_code "Unknown Class".

(** ** Identifier cleaning *)

(** [re.sub(r'/SK\d+', '', s)]: scanning from the left, every occurrence of
    [/SK] followed by at least one digit is deleted together with all the
    digits that follow it; the scan resumes behind the deleted text.
    [in_digits] holds while the digits of a match are being consumed. *)
Fixpoint re_sub_sk_from (in_digits : bool) (s : string) : string :=
  match s with
  | EmptyString => EmptyString
  | String c r =>
      if in_digits && Py.is_digit c then re_sub_sk_from true r
      else
        match s with
        | String "/" (String "S" (String "K" (String d r'))) =>
            if Py.is_digit d then re_sub_sk_from true r'
            else String c (re_sub_sk_from false r)
        | _ => String c (re_sub_sk_from false r)
        end
  end.

Definition re_sub_sk (s : string) : string := re_sub_sk_from false s.

(** The first statement of [process_callsign]. *)
Definition clean_callsign (callsign : string) : string :=
  re_sub_sk (Py.upper callsign).

(** ** Name normalisation *)

(** [normalize_first_name(name)]: the comparison form of a first name. *)
Definition normalize_first_name (name : string) : string :=
  let name := Py.title (Py.join " " (Py.split name)) in
  let parts := Py.split_on " " name in
  if (1 <? length parts)%nat && (Py.len (Py.first parts) =? 1)%nat
  then Py.join " " (tl parts)
  else name.

(** [normalize_name(name)] *)
Definition normalize_name (name : string) : string :=
  Py.first (Py.split_on " " (Py.join " " (Py.split name))).

(** The storage form of a first name that is present: lines 132 and 136-138
    of [parse_callsign_data]. *)
Definition storage_first_name (first_name : string) : string :=
  let first_name := Py.title first_name in
  let words := Py.split first_name in
  match words with
  | w0 :: rest => Py.join " " (w0 :: List.filter (fun w => (1 <? Py.len w)%nat) rest)
  | [] => first_name
  end.

(** ** Exceptions *)

Inductive Exn : Type :=
| PyodbcError (msg : string)     (* pyodbc.Error, raised by the database driver *)
| RequestError (msg : string)    (* requests.exceptions.RequestException *)
| LookupFailure (msg : string)   (* Exception(f'Error: ...') of get_callsign_data *)
| AttributeError (msg : string)
| TypeError (msg : string)
| ValueError (msg : string).

(** [str(e)] *)
Definition str_exn (e : Exn) : string :=
  match e with
  | PyodbcError m | RequestError m | LookupFailure m
  | AttributeError m | TypeError m | ValueError m => m
  end.

Inductive Result (A : Type) : Type :=
| Ok (a : A)
| Raise (e : Exn).
Arguments Ok {A} a.
Arguments Raise {A} e.

(** ** The record built from a lookup *)

(** [class Callsign].  After [parse_callsign_data] the two names are strings;
    every other extracted field may be [None]. *)
Record Callsign : Type := mkCallsign {
  call : option string;
  xref : option string;
  first_name : string;
  last_name : string;
  address : option string;
  town : option string;
  state : option string;
  zip_code : option string;
  country : option string;
  license_start : option string;
  license_end : option string;
  license_class : string;
  email : option string;
  status : string
}.

(** [callsign.call = cleaned] *)
Definition set_call (k : string) (c : Callsign) : Callsign :=
  mkCallsign (Some k) (xref c) (first_name c) (last_name c) (address c) (town c)
    (state c) (zip_code c) (country c) (license_start c) (license_end c)
    (license_class c) (email c) (status c).

(** [v.split(' ')[0]] when [v] is truthy, [v] otherwise (lines 146-150). *)
Definition date_part (v : option string) : option string :=
  match v with
  | Some s => if Py.nonempty s then Some (Py.first (Py.split_on " " s)) else v
  | None => None
  end.

(** [parse_callsign_data(xml_data)] *)
Definition parse_callsign_data (xml_data : string) : Result Callsign :=
  let call := extract_xml_value xml_data "call" in
  let xref := extract_xml_value xml_data "xref" in
  let first_name := extract_xml_value xml_data "fname" in
  let last_name := extract_xml_value xml_data "name" in
  let last_name :=
    match last_name with
    | Some l => if Py.nonempty l then Some (Py.strip (Py.first (Py.split_on "," l)))
                else last_name
    | None => None
    end in
  let names : Result (string * string) :=
    if negb (Py.truthy first_name) then
      match last_name with
      | None => Raise (AttributeError "'NoneType' object has no attribute 'split'")
      | Some l =>
          let name_parts := Py.split_on " " l in
          Ok (Py.first name_parts,
              if (1 <? length name_parts)%nat then Py.join " " (tl name_parts)
              else Py.first name_parts)
      end
    else
      match first_name, last_name with
      | Some f, Some l => Ok (storage_first_name f, Py.title l)
      | _, _ => Raise (AttributeError "'NoneType' object has no attribute 'title'")
      end in
  match names with
  | Raise e => Raise e
  | Ok (first_name, last_name) =>
      let addr1 := extract_xml_value xml_data "addr1" in
      let town := extract_xml_value xml_data "addr2" in
      let state := extract_xml_value xml_data "state" in
      let zip_code := extract_xml_value xml_data "zip" in
      let country := extract_xml_value xml_data "country" in
      let license_start := date_part (extract_xml_value xml_data "efdate") in
      let license_end := date_part (extract_xml_value xml_data "expdate") in
      let license_class := map_license_class (extract_xml_value xml_data "class") in
      let email := extract_xml_value xml_data "email" in
      Ok (mkCallsign call xref first_name last_name addr1 town state zip_code
            country license_start license_end license_class email "Active")
  end.

(** ** Dates *)

Record Date : Type := mkDate { year : Z; month : Z; day : Z }.

(** [datetime.now()]: the calendar date and the microseconds since midnight. *)
Record Clock : Type := mkClock { today : Date; since_midnight : Z }.

Definition digit_val (c : ascii) : Z := Z.of_N (Py.code c) - 48.

Definition in_range (lo hi : ascii) (c : ascii) : bool :=
  ((Py.code lo <=? Py.code c) && (Py.code c <=? Py.code hi))%N.

(** The alternatives of the directive [%m], [1[0-2]|0[1-9]|[1-9]], in the
    order the regular expression tries them: the value and the rest of the
    text for each alternative that matches at the head of [s]. *)
Definition month_alts (s : string) : list (Z * string) :=
  match s with
  | String a r =>
      (match r with
       | String b r' =>
           (if Ascii.eqb a "1" && in_range "0" "2" b then [(10 + digit_val b, r')] else [])
           ++ (if Ascii.eqb a "0" && in_range "1" "9" b then [(digit_val b, r')] else [])
       | EmptyString => []
       end)
      ++ (if in_range "1" "9" a then [(digit_val a, r)] else [])
  | EmptyString => []
  end.

(** The alternatives of [%d], [3[0-1]|[1-2]\d|0[1-9]|[1-9]| [1-9]]. *)
Definition day_alts (s : string) : list (Z * string) :=
  match s with
  | String a r =>
      (match r with
       | String b r' =>
           (if Ascii.eqb a "3" && in_range "0" "1" b then [(30 + digit_val b, r')] else [])
           ++ (if in_range "1" "2" a && Py.is_digit b
               then [(10 * digit_val a + digit_val b, r')] else [])
           ++ (if Ascii.eqb a "0" && in_range "1" "9" b then [(digit_val b, r')] else [])
       | EmptyString => []
       end)
      ++ (if in_range "1" "9" a then [(digit_val a, r)] else [])
      ++ (match r with
          | String b r' =>
              if Ascii.eqb a " " && in_range "1" "9" b then [(digit_val b, r')] else []
          | EmptyString => []
          end)
  | EmptyString => []
  end.

(** The first alternative for which the rest of the pattern succeeds. *)
Fixpoint first_success {A B : Type} (k : A -> option B) (alts : list A) : option B :=
  match alts with
  | [] => None
  | a :: rest => match k a with Some b => Some b | None => first_success k rest end
  end.

(** The match of the pattern of ['%Y-%m-%d'] at the start of [s]: year, month,
    day and the text left over. *)
Definition match_ymd (s : string) : option (Z * Z * Z * string) :=
  match s with
  | String y1 (String y2 (String y3 (String y4 (String "-" r)))) =>
      if Py.is_digit y1 && Py.is_digit y2 && Py.is_digit y3 && Py.is_digit y4 then
        let y := 1000 * digit_val y1 + 100 * digit_val y2 + 10 * digit_val y3 + digit_val y4 in
        first_success
          (fun '(m, r1) =>
             match r1 with
             | String "-" r2 =>
                 first_success (fun '(d, r3) => Some (y, m, d, r3)) (day_alts r2)
             | _ => None
             end)
          (month_alts r)
      else None
  | _ => None
  end.

Definition is_leap (y : Z) : bool :=
  ((y mod 4 =? 0) && negb (y mod 100 =? 0)) || (y mod 400 =? 0).

Definition days_in_month (y m : Z) : Z :=
  if m =? 2 then (if is_leap y then 29 else 28)
  else if (m =? 4) || (m =? 6) || (m =? 9) || (m =? 11) then 30
  else 31.

(** [datetime.strptime(value, '%Y-%m-%d')], the messages as CPython words
    them (the quoted text is shown without the escapes of [repr]). *)
Definition strptime (value : option string) : Result Date :=
  match value with
  | None => Raise (TypeError "strptime() argument 1 must be str, not None")
  | Some s =>
      match match_ymd s with
      | None =>
          Raise (ValueError ("time data '" +:+ s +:+ "' does not match format '%Y-%m-%d'"))
      | Some (y, m, d, rest) =>
          if Py.nonempty rest then
            Raise (ValueError ("unconverted data remains: " +:+ rest))
          else if y <? 1 then Raise (ValueError "year 0 is out of range")
          else if days_in_month y m <? d then
            Raise (ValueError "day is out of range for month")
          else Ok (mkDate y m d)
      end
  end.

(** [license_end_date < datetime.now()], the left side being a midnight. *)
Definition before_now (d : Date) (now : Clock) : bool :=
  let t := today now in
  (year d <? year t)
  || ((year d =? year t)
      && ((month d <? month t)
          || ((month d =? month t)
              && ((day d <? day t)
                  || ((day d =? day t) && (0 <? since_midnight now)))))).

Definition digit_char (n : Z) : ascii := ascii_of_N (Z.to_N (48 + n mod 10)).

Definition two_digits (n : Z) : string :=
  String (digit_char (n / 10)) (String (digit_char n) EmptyString).

Definition four_digits (n : Z) : string :=
  String (digit_char (n / 1000)) (String (digit_char (n / 100)) (two_digits n)).

(** [datetime.now().strftime('%Y-%m-%d')] *)
Definition strftime_ymd (now : Clock) : string :=
  let t := today now in
  four_digits (year t) +:+ "-" +:+ two_digits (month t) +:+ "-" +:+ two_digits (day t).

(** ** The persistence store and the other collaborators *)

(** One row of [tbl_Operator] without its key column [Call]: the columns the
    engine reads and writes.  A column may hold NULL. *)
Record Row : Type := mkRow {
  col_FirstName : option string;
  col_LastName : option string;
  col_Address_1 : option string;
  col_City : option string;
  col_State : option string;
  col_Zip : option string;
  col_Lic_issued : option string;
  col_Lic_exp : option string;
  col_Class : option string;
  col_E_Mail : option string;
  col_Status : option string;
  col_Updated : option string
}.

(** What the script prints: a message whose text is modelled, or a debug
    trace whose rendering (SQL text, tuples, [vars]) is not. *)
Inductive Output : Type :=
| Print (text : string)
| Trace (what : string).

(** Everything a run can change: the committed table, the console, and the
    two log files (the entries appended so far). *)
Record World : Type := mkWorld {
  db : gmap string Row;
  stdout : list Output;
  mismatch_file : list string;
  status_file : list string
}.

Definition set_db (t : gmap string Row) (w : World) : World :=
  mkWorld t (stdout w) (mismatch_file w) (status_file w).
Definition print (text : string) (w : World) : World :=
  mkWorld (db w) (stdout w ++ [Print text]) (mismatch_file w) (status_file w).
Definition trace (what : string) (w : World) : World :=
  mkWorld (db w) (stdout w ++ [Trace what]) (mismatch_file w) (status_file w).
Definition append_mismatch (entry : string) (w : World) : World :=
  mkWorld (db w) (stdout w) (mismatch_file w ++ [entry]) (status_file w).
Definition append_status (entry : string) (w : World) : World :=
  mkWorld (db w) (stdout w) (mismatch_file w) (status_file w ++ [entry]).

(** The function that opened the connection. *)
Inductive Site : Type := InInsertOrUpdate | InDeactivate | InCheckStatus.

(** The calls into the driver that can raise [pyodbc.Error]. *)
Inductive DbOp : Type := Connect | Select | Execute | Commit.

(** The surroundings of a run: the lookup service, the clock, the failures of
    the database driver (for the function, the identifier and the call at
    hand: [Some msg] raises [pyodbc.Error] with [str(e) = msg]), and the
    configured list [NON_UPDATE_STATUSES]. *)
Record Env : Type := mkEnv {
  http_get : string -> Result string;
  now : Clock;
  fault : Site -> string -> DbOp -> option string;
  NON_UPDATE_STATUSES : list string
}.

(** The fallback of [config.get('non_update_statuses', ...)]. *)
Definition default_non_update_statuses : list string := ["SK"; "SILENT KEY"].

Definition nl : string := String (ascii_of_N 10) EmptyString.

(** [x in xs] on a list of strings *)
Definition in_list (x : string) (xs : list string) : bool :=
  existsb (String.eqb x) xs.

(** [db_status in NON_UPDATE_STATUSES]; NULL is in no list of strings. *)
Definition protected (env : Env) (db_status : option string) : bool :=
  match db_status with
  | Some s => in_list s (NON_UPDATE_STATUSES env)
  | None => false
  end.

(** A call into the driver: the exception it raises, if any. *)
Definition driver (env : Env) (site : Site) (key : string) (op : DbOp) : option Exn :=
  match fault env site key op with
  | Some msg => Some (PyodbcError msg)
  | None => None
  end.

(** [except pyodbc.Error as e: print(report(e))]; any other exception passes. *)
Definition except_pyodbc (report : string -> string)
    (r : World * option Exn) : World * option Exn :=
  match r with
  | (w, Some (PyodbcError msg)) => (print (report msg) w, None)
  | _ => r
  end.

(** ** The lookup *)

(** [get_callsign_data(session_key, callsign)] *)
Definition get_callsign_data (env : Env) (session_key callsign : string) : Result string :=
  let url := "https://xmldata.qrz.com/xml/current/?s=" +:+ session_key
             +:+ ";callsign=" +:+ callsign in
  match http_get env url with
  | Raise e => Raise e
  | Ok xml_data =>
      if Py.contains "<Error>" xml_data
      then Raise (LookupFailure ("Error: " +:+ Py.render (extract_xml_value xml_data "Error")))
      else Ok xml_data
  end.

(** ** The match engine *)

(** The values bound to the columns by the UPDATE and the INSERT statements. *)
Definition row_of (c : Callsign) (status today_date : string) : Row :=
  mkRow (Some (first_name c)) (Some (last_name c)) (address c) (town c) (state c)
    (zip_code c) (license_start c) (license_end c) (Some (license_class c))
    (email c) (Some status) (Some today_date).

(** Lines 250-254: the mismatch message.  [db_last_name.lower()] raises on NULL. *)
Definition mismatch_message (c : Callsign) (db_first_name : string)
    (db_last_name : option string) : Result string :=
  let m := "No update performed for callsign " +:+ Py.render (call c)
           +:+ " due to mismatch in first or last name." +:+ nl in
  let m :=
    if negb (String.eqb (normalize_name (Py.lower db_first_name))
                        (normalize_name (Py.lower (first_name c))))
    then m +:+ "First name mismatch: DB = " +:+ db_first_name +:+ ", QRZ = "
           +:+ first_name c +:+ nl
    else m in
  match db_last_name with
  | None => Raise (AttributeError "'NoneType' object has no attribute 'lower'")
  | Some l =>
      Ok (if negb (String.eqb (Py.lower l) (Py.lower (last_name c)))
          then m +:+ "Last name mismatch: DB = " +:+ l +:+ ", QRZ = "
                 +:+ last_name c +:+ nl
          else m)
  end.

(** Line 228: the test that lets an update through.  The second comparison is
    evaluated only when the first holds. *)
Definition names_match (c : Callsign) (db_first_name : string)
    (db_last_name : option string) : Result bool :=
  if String.eqb (normalize_first_name db_first_name) (normalize_first_name (first_name c))
  then match db_last_name with
       | None => Raise (AttributeError "'NoneType' object has no attribute 'lower'")
       | Some l => Ok (String.eqb (Py.lower l) (Py.lower (last_name c)))
       end
  else Ok false.

(** [conn.commit()] of the statements executed on the connection: [staged] is
    the table as the open transaction sees it. *)
Definition commit (env : Env) (site : Site) (key : string)
    (staged : gmap string Row) (w : World) : World * option Exn :=
  match driver env site key Commit with
  | Some e => (w, Some e)
  | None => (set_db staged w, None)
  end.

Definition when_debug (debug : bool) (f : World -> World) (w : World) : World :=
  if debug then f w else w.

(** The [try] block of [insert_or_update_callsign_in_db]: the world it leaves
    and the exception that leaves it, if any.  Nothing is visible in the table
    before [commit]. *)
Definition insert_or_update_try (env : Env) (c : Callsign) (debug : bool)
    (w : World) : World * option Exn :=
  let key := Py.render (call c) in
  match driver env InInsertOrUpdate key Connect with
  | Some e => (w, Some e)
  | None =>
  match strptime (license_end c) with
  | Raise _ => (w, None)
  | Ok license_end_date =>
  let status :=
    if before_now license_end_date (now env) then "License Expired" else status c in
  match driver env InInsertOrUpdate key Select with
  | Some e => (w, Some e)
  | None =>
  let row := match call c with Some k => db w !! k | None => None end in
  let today_date := strftime_ymd (now env) in
  match row with
  | Some r =>
      match col_FirstName r with
      | None => (w, Some (AttributeError "'NoneType' object has no attribute 'rstrip'"))
      | Some f =>
      let db_first_name := Py.rstrip_char "," f in
      let db_last_name := col_LastName r in
      let db_status := col_Status r in
      match names_match c db_first_name db_last_name with
      | Raise e => (w, Some e)
      | Ok true =>
          if negb (protected env db_status) then
            let w := when_debug debug (fun w => trace "Parameters" (trace "Executing SQL" w)) w in
            match driver env InInsertOrUpdate key Execute with
            | Some e => (w, Some e)
            | None =>
                let staged :=
                  match call c with
                  | Some k => <[k := row_of c status today_date]> (db w)
                  | None => db w
                  end in
                let w := when_debug debug
                           (print ("Updated " +:+ key +:+ " in the database.")) w in
                commit env InInsertOrUpdate key staged w
            end
          else commit env InInsertOrUpdate key (db w) w
      | Ok false =>
          match mismatch_message c db_first_name db_last_name with
          | Raise e => (w, Some e)
          | Ok m =>
              let w := append_mismatch m (print m w) in
              commit env InInsertOrUpdate key (db w) w
          end
      end
      end
  | None =>
      let status := "New" in
      let w := when_debug debug (fun w => trace "Parameters" (trace "Executing SQL" w)) w in
      match driver env InInsertOrUpdate key Execute with
      | Some e => (w, Some e)
      | None =>
          match call c with
          | None => (w, Some (PyodbcError "NULL is not a value of the key column Call"))
          | Some k =>
              let staged := <[k := row_of c status today_date]> (db w) in
              let w := when_debug debug
                         (print ("Inserted " +:+ key +:+ " into the database.")) w in
              commit env InInsertOrUpdate key staged w
          end
      end
  end
  end
  end
  end.

(** [insert_or_update_callsign_in_db(callsign, debug, mismatch_log)] *)
Definition insert_or_update_callsign_in_db (env : Env) (c : Callsign) (debug : bool)
    (w : World) : World * option Exn :=
  except_pyodbc
    (fun e => "Error inserting or updating callsign " +:+ Py.render (call c)
              +:+ " in database: " +:+ e)
    (insert_or_update_try env c debug w).

(** The row with [Status] and [Updated] set by the UPDATE of the deactivation. *)
Definition set_inactive (today_date : string) (r : Row) : Row :=
  mkRow (col_FirstName r) (col_LastName r) (col_Address_1 r) (col_City r)
    (col_State r) (col_Zip r) (col_Lic_issued r) (col_Lic_exp r) (col_Class r)
    (col_E_Mail r) (Some "Inactive") (Some today_date).

Definition update_to_inactive_try (env : Env) (callsign : string) (debug : bool)
    (w : World) : World * option Exn :=
  match driver env InDeactivate callsign Connect with
  | Some e => (w, Some e)
  | None =>
  match driver env InDeactivate callsign Select with
  | Some e => (w, Some e)
  | None =>
  match db w !! callsign with
  | Some r =>
      if negb (protected env (col_Status r)) then
        let w := when_debug debug (fun w => trace "Parameters" (trace "Executing SQL" w)) w in
        match driver env InDeactivate callsign Execute with
        | Some e => (w, Some e)
        | None =>
            match commit env InDeactivate callsign
                    (<[callsign := set_inactive (strftime_ymd (now env)) r]> (db w)) w with
            | (w, Some e) => (w, Some e)
            | (w, None) =>
                (when_debug debug
                   (print ("Callsign " +:+ callsign +:+ " status updated to Inactive.")) w,
                 None)
            end
        end
      else (w, None)
  | None => (w, None)
  end
  end
  end.

(** [update_callsign_status_to_inactive_if_needed(callsign, debug)] *)
Definition update_callsign_status_to_inactive_if_needed (env : Env)
    (callsign : string) (debug : bool) (w : World) : World * option Exn :=
  except_pyodbc (fun e => "Error updating callsign status in database: " +:+ e)
    (update_to_inactive_try env callsign debug w).

Definition check_status_try (env : Env) (callsign : string) (parsed_data : Callsign)
    (update debug : bool) (w : World) : World * option Exn :=
  match driver env InCheckStatus callsign Connect with
  | Some e => (w, Some e)
  | None =>
  match driver env InCheckStatus callsign Select with
  | Some e => (w, Some e)
  | None =>
  match db w !! callsign with
  | Some r =>
      let db_status := col_Status r in
      match strptime (license_end parsed_data) with
      | Raise e => (w, Some e)
      | Ok d =>
          let expected_status :=
            if before_now d (now env) then "License Expired" else "Active" in
          if negb (match db_status with
                   | Some s => String.eqb s expected_status
                   | None => false
                   end) then
            let line := callsign +:+ ": Expected status " +:+ expected_status
                        +:+ ", found " +:+ Py.render db_status in
            let w := append_status (line +:+ nl) w in
            let w := when_debug debug (print line) w in
            if update && negb (protected env db_status)
            then insert_or_update_callsign_in_db env parsed_data debug w
            else (w, None)
          else (w, None)
      end
  | None => (w, None)
  end
  end
  end.

(** [check_callsign_status(callsign, parsed_data, update, debug, mismatch_log, status_file)] *)
Definition check_callsign_status (env : Env) (callsign : string)
    (parsed_data : Callsign) (update debug : bool) (w : World) : World * option Exn :=
  except_pyodbc (fun e => "Error checking callsign status in database: " +:+ e)
    (check_status_try env callsign parsed_data update debug w).

(** ** The reconciler *)

(** The [try] block of [process_callsign]. *)
Definition process_try (env : Env) (session_key cleaned_callsign : string)
    (update checkstatus debug : bool) (w : World) : World * option Exn :=
  match get_callsign_data env session_key cleaned_callsign with
  | Raise e => (w, Some e)
  | Ok callsign_data =>
  match parse_callsign_data callsign_data with
  | Raise e => (w, Some e)
  | Ok parsed_data =>
      let parsed_data := set_call cleaned_callsign parsed_data in
      let w := when_debug debug (trace "Fetched data") w in
      match (if checkstatus
             then check_callsign_status env cleaned_callsign parsed_data update debug w
             else (w, None)) with
      | (w, Some e) => (w, Some e)
      | (w, None) =>
          if update then insert_or_update_callsign_in_db env parsed_data debug w
          else (w, None)
      end
  end
  end.

(** [process_callsign(session_key, callsign, update, checkstatus, debug,
    mismatch_log, status_file)]; the function catches every exception. *)
Definition process_callsign (env : Env) (session_key callsign : string)
    (update checkstatus debug : bool) (w : World) : World :=
  let cleaned_callsign := clean_callsign callsign in
  match process_try env session_key cleaned_callsign update checkstatus debug w with
  | (w, None) => w
  | (w, Some e) =>
      if Py.contains "Not found" (str_exn e) then
        match update_callsign_status_to_inactive_if_needed env cleaned_callsign debug w with
        | (w, _) => w
        end
      else print ("Error fetching data for " +:+ cleaned_callsign +:+ ": " +:+ str_exn e) w
  end.

(** The loops of [refresh_database] and [main]: one call per identifier, in order. *)
Definition process_all (env : Env) (session_key : string) (callsigns : list string)
    (update checkstatus debug : bool) (w : World) : World :=
  fold_left (fun w c => process_callsign env session_key c update checkstatus debug w)
    callsigns w.

(** ** The callers *)

(** [get_qrz_session_key(username, password, agent)]: the content of the
    [Key] element, [None] when the reply has none. *)
Definition get_qrz_session_key (env : Env) (username password agent : string)
    : Result (option string) :=
  let url := "https://xmldata.qrz.com/xml/current/?username=" +:+ username
             +:+ ";password=" +:+ password +:+ ";agent=" +:+ agent in
  match http_get env url with
  | Raise e => Raise e
  | Ok xml_data =>
      if Py.contains "<Error>" xml_data
      then Raise (LookupFailure ("Error: " +:+ Py.render (extract_xml_value xml_data "Error")))
      else Ok (extract_xml_value xml_data "Key")
  end.

(** [refresh_database(update, checkstatus, debug, mismatch_log, status_file)].
    The credentials of the configuration are arguments.  [refresh_fault]
    gives the failures of the driver on the connection of this function, and
    [fetchall] the identifiers that [SELECT Call FROM tbl_Operator] returns
    for a table, in the order the database returns them.  An exception of the
    session request is no [pyodbc.Error] and leaves the function. *)
Definition refresh_database (env : Env) (username password agent : string)
    (refresh_fault : DbOp -> option string)
    (fetchall : gmap string Row -> list string)
    (update checkstatus debug : bool) (w : World) : World * option Exn :=
  except_pyodbc (fun e => "Error refreshing database: " +:+ e)
    match get_qrz_session_key env username password agent with
    | Raise e => (w, Some e)
    | Ok session_key =>
        match refresh_fault Connect with
        | Some msg => (w, Some (PyodbcError msg))
        | None =>
            match refresh_fault Select with
            | Some msg => (w, Some (PyodbcError msg))
            | None =>
                let callsigns := fetchall (db w) in
                let w := when_debug debug (trace "Total records to process") w in
                (process_all env (Py.render session_key) callsigns
                   update checkstatus debug w, None)
            end
        end
    end.

(** Line 438 of [main]: the identifiers of a file, from its lines. *)
Definition file_callsigns (lines : list string) : list string :=
  map (fun callsign => Py.upper (Py.strip callsign))
      (List.filter (fun callsign => Py.nonempty (Py.strip callsign)) lines).

(** ** Names as Unicode text *)

(** The two normalisations of a first name over Python's own text: a [str]
    is a list of code points, [len] counts code points, and the classes and
    case mappings of the characters come from the character database of the
    interpreter, which is an argument here.  [str.title] maps every
    character to its title-case or lower-case form, which may be longer
    than one character. *)
Module Uni.

(** The part of the character database that [str.split] and [str.title]
    read.  [is_space c]: [c] is whitespace.  [is_cased c]: [c] is a cased
    character.  [to_title c]: the title-case form of [c].  [lower_at s i c]:
    the lower-case form of the character [c] at index [i] of [s] (the form of
    a capital sigma depends on its neighbours). *)
Record CharDb : Type := mkCharDb {
  is_space : N -> bool;
  is_cased : N -> bool;
  to_title : N -> list N;
  lower_at : list N -> nat -> N -> list N
}.

(** [s.title()]: the scan of [rest], which starts at index [i] of [whole];
    [prev] tells whether the previous character was cased. *)
Fixpoint title_go (db : CharDb) (whole : list N) (i : nat) (prev : bool)
    (rest : list N) : list N :=
  match rest with
  | [] => []
  | c :: r =>
      (if prev then lower_at db whole i c else to_title db c)
      ++ title_go db whole (S i) (is_cased db c) r
  end.

Definition title (db : CharDb) (s : list N) : list N := title_go db s 0 false s.

(** The pieces of [s] between the characters that satisfy [sep]. *)
Fixpoint pieces (sep : N -> bool) (s : list N) : list (list N) :=
  match s with
  | [] => [[]]
  | c :: r =>
      if sep c then [] :: pieces sep r
      else match pieces sep r with
           | w :: ws => (c :: w) :: ws
           | [] => [[c]]
           end
  end.

Definition nonempty (s : list N) : bool :=
  match s with [] => false | _ :: _ => true end.

(** [s.split()] *)
Definition split (db : CharDb) (s : list N) : list (list N) :=
  List.filter nonempty (pieces (is_space db) s).

(** [s.split(" ")] *)
Definition split_on_space (s : list N) : list (list N) := pieces (N.eqb 32%N) s.

(** [" ".join(ws)] *)
Fixpoint join (ws : list (list N)) : list N :=
  match ws with
  | [] => []
  | [w] => w
  | w :: rest => w ++ 32%N :: join rest
  end.

(** [normalize_first_name(name)] *)
Definition normalize_first_name (db : CharDb) (name : list N) : list N :=
  let name := title db (join (split db name)) in
  let parts := split_on_space name in
  if (1 <? length parts)%nat && (length (hd [] parts) =? 1)%nat
  then join (tl parts)
  else name.

(** The storage form of a first name that is present: lines 132 and 136-138
    of [parse_callsign_data]. *)
Definition storage_first_name (db : CharDb) (first_name : list N) : list N :=
  let first_name := title db first_name in
  let words := split db first_name in
  match words with
  | w0 :: rest => join (w0 :: List.filter (fun w => (1 <? length w)%nat) rest)
  | [] => first_name
  end.

(** What the statements about these functions need of a character database:
    the space is whitespace; the case forms of a whitespace character are the
    character itself; the case forms of any other character are not empty
    and hold no whitespace. *)
Record lawful (db : CharDb) : Prop := mkLawful {
  space_is_space : is_space db 32%N = true;
  title_of_space : forall c, is_space db c = true -> to_title db c = [c];
  lower_of_space : forall s i c, is_space db c = true -> lower_at db s i c = [c];
  title_of_letter : forall c, is_space db c = false ->
    to_title db c <> [] /\ Forall (fun x => is_space db x = false) (to_title db c);
  lower_of_letter : forall s i c, is_space db c = false ->
    lower_at db s i c <> [] /\ Forall (fun x => is_space db x = false) (lower_at db s i c)
}.

(** The case forms of [c] are one character long, as for every ASCII
    character. *)
Definition plain (db : CharDb) (c : N) : Prop :=
  length (to_title db c) = 1%nat
  /\ (forall s i, length (lower_at db s i c) = 1%nat).

(** One character of the database of CPython. *)
Record Entry : Type := mkEntry {
  e_space : bool;
  e_cased : bool;
  e_title : list N;
  e_lower : list N
}.

(** The characters U+0000 to U+00FF that are whitespace or cased, as CPython
    3 gives them ([isspace], [islower]/[isupper], [title], [lower]). *)
Definition latin1_table : list (N * Entry) :=
  ([(9, mkEntry true false [9] [9]);
   (10, mkEntry true false [10] [10]);
   (11, mkEntry true false [11] [11]);
   (12, mkEntry true false [12] [12]);
   (13, mkEntry true false [13] [13]);
   (28, mkEntry true false [28] [28]);
   (29, mkEntry true false [29] [29]);
   (30, mkEntry true false [30] [30]);
   (31, mkEntry true false [31] [31]);
   (32, mkEntry true false [32] [32]);
   (65, mkEntry false true [65] [97]);
   (66, mkEntry false true [66] [98]);
   (67, mkEntry false true [67] [99]);
   (68, mkEntry false true [68] [100]);
   (69, mkEntry false true [69] [101]);
   (70, mkEntry false true [70] [102]);
   (71, mkEntry false true [71] [103]);
   (72, mkEntry false true [72] [104]);
   (73, mkEntry false true [73] [105]);
   (74, mkEntry false true [74] [106]);
   (75, mkEntry false true [75] [107]);
   (76, mkEntry false true [76] [108]);
   (77, mkEntry false true [77] [109]);
   (78, mkEntry false true [78] [110]);
   (79, mkEntry false true [79] [111]);
   (80, mkEntry false true [80] [112]);
   (81, mkEntry false true [81] [113]);
   (82, mkEntry false true [82] [114]);
   (83, mkEntry false true [83] [115]);
   (84, mkEntry false true [84] [116]);
   (85, mkEntry false true [85] [117]);
   (86, mkEntry false true [86] [118]);
   (87, mkEntry false true [87] [119]);
   (88, mkEntry false true [88] [120]);
   (89, mkEntry false true [89] [121]);
   (90, mkEntry false true [90] [122]);
   (97, mkEntry false true [65] [97]);
   (98, mkEntry false true [66] [98]);
   (99, mkEntry false true [67] [99]);
   (100, mkEntry false true [68] [100]);
   (101, mkEntry false true [69] [101]);
   (102, mkEntry false true [70] [102]);
   (103, mkEntry false true [71] [103]);
   (104, mkEntry false true [72] [104]);
   (105, mkEntry false true [73] [105]);
   (106, mkEntry false true [74] [106]);
   (107, mkEntry false true [75] [107]);
   (108, mkEntry false true [76] [108]);
   (109, mkEntry false true [77] [109]);
   (110, mkEntry false true [78] [110]);
   (111, mkEntry false true [79] [111]);
   (112, mkEntry false true [80] [112]);
   (113, mkEntry false true [81] [113]);
   (114, mkEntry false true [82] [114]);
   (115, mkEntry false true [83] [115]);
   (116, mkEntry false true [84] [116]);
   (117, mkEntry false true [85] [117]);
   (118, mkEntry false true [86] [118]);
   (119, mkEntry false true [87] [119]);
   (120, mkEntry false true [88] [120]);
   (121, mkEntry false true [89] [121]);
   (122, mkEntry false true [90] [122]);
   (133, mkEntry true false [133] [133]);
   (160, mkEntry true false [160] [160]);
   (170, mkEntry false true [170] [170]);
   (181, mkEntry false true [924] [181]);
   (186, mkEntry false true [186] [186]);
   (192, mkEntry false true [192] [224]);
   (193, mkEntry false true [193] [225]);
   (194, mkEntry false true [194] [226]);
   (195, mkEntry false true [195] [227]);
   (196, mkEntry false true [196] [228]);
   (197, mkEntry false true [197] [229]);
   (198, mkEntry false true [198] [230]);
   (199, mkEntry false true [199] [231]);
   (200, mkEntry false true [200] [232]);
   (201, mkEntry false true [201] [233]);
   (202, mkEntry false true [202] [234]);
   (203, mkEntry false true [203] [235]);
   (204, mkEntry false true [204] [236]);
   (205, mkEntry false true [205] [237]);
   (206, mkEntry false true [206] [238]);
   (207, mkEntry false true [207] [239]);
   (208, mkEntry false true [208] [240]);
   (209, mkEntry false true [209] [241]);
   (210, mkEntry false true [210] [242]);
   (211, mkEntry false true [211] [243]);
   (212, mkEntry false true [212] [244]);
   (213, mkEntry false true [213] [245]);
   (214, mkEntry false true [214] [246]);
   (216, mkEntry false true [216] [248]);
   (217, mkEntry false true [217] [249]);
   (218, mkEntry false true [218] [250]);
   (219, mkEntry false true [219] [251]);
   (220, mkEntry false true [220] [252]);
   (221, mkEntry false true [221] [253]);
   (222, mkEntry false true [222] [254]);
   (223, mkEntry false true [83; 115] [223]);
   (224, mkEntry false true [192] [224]);
   (225, mkEntry false true [193] [225]);
   (226, mkEntry false true [194] [226]);
   (227, mkEntry false true [195] [227]);
   (228, mkEntry false true [196] [228]);
   (229, mkEntry false true [197] [229]);
   (230, mkEntry false true [198] [230]);
   (231, mkEntry false true [199] [231]);
   (232, mkEntry false true [200] [232]);
   (233, mkEntry false true [201] [233]);
   (234, mkEntry false true [202] [234]);
   (235, mkEntry false true [203] [235]);
   (236, mkEntry false true [204] [236]);
   (237, mkEntry false true [205] [237]);
   (238, mkEntry false true [206] [238]);
   (239, mkEntry false true [207] [239]);
   (240, mkEntry false true [208] [240]);
   (241, mkEntry false true [209] [241]);
   (242, mkEntry false true [210] [242]);
   (243, mkEntry false true [211] [243]);
   (244, mkEntry false true [212] [244]);
   (245, mkEntry false true [213] [245]);
   (246, mkEntry false true [214] [246]);
   (248, mkEntry false true [216] [248]);
   (249, mkEntry false true [217] [249]);
   (250, mkEntry false true [218] [250]);
   (251, mkEntry false true [219] [251]);
   (252, mkEntry false true [220] [252]);
   (253, mkEntry false true [221] [253]);
   (254, mkEntry false true [222] [254]);
   (255, mkEntry false true [376] [255])])%N.

Fixpoint lookup (c : N) (table : list (N * Entry)) : option Entry :=
  match table with
  | [] => None
  | (k, e) :: rest => if N.eqb k c then Some e else lookup c rest
  end.

(** A character that is not in the table has no class and no case. *)
Definition entry_of (c : N) : Entry :=
  match lookup c latin1_table with
  | Some e => e
  | None => mkEntry false false [c] [c]
  end.

(** The database on Latin-1 text: exact for the characters up to U+00FF and
    for what their case forms hold. *)
Definition latin1 : CharDb :=
  mkCharDb (fun c => e_space (entry_of c)) (fun c => e_cased (entry_of c))
    (fun c => e_title (entry_of c)) (fun _ _ c => e_lower (entry_of c)).

(** The case forms of the characters of [rest], one text for each. *)
Fixpoint title_blocks (db : CharDb) (whole : list N) (i : nat) (prev : bool)
    (rest : list N) : list (list N) :=
  match rest with
  | [] => []
  | c :: r =>
      (if prev then lower_at db whole i c else to_title db c)
      :: title_blocks db whole (S i) (is_cased db c) r
  end.

(** The text [b] can stand for the character [c] in a text that is cut at
    [sep]: a separator stands for itself, any other character is replaced by
    a text that is not empty and holds no separator; a character that
    satisfies [one] is replaced by one character. *)
Definition block_ok (sep : N -> bool) (one : N -> Prop) (c : N) (b : list N) : Prop :=
  (if sep c then b = [c] else b <> [] /\ Forall (fun x => sep x = false) b)
  /\ (one c -> length b = 1%nat).

(** The word [t] stands for the word [w]: it holds no separator, is empty
    only if [w] is, is not shorter than [w], and is as long as [w] when
    every character of [w] satisfies [one]. *)
Definition word_ok (sep : N -> bool) (one : N -> Prop) (w t : list N) : Prop :=
  Forall (fun x => sep x = false) t
  /\ nonempty w = nonempty t
  /\ (length w <= length t)%nat
  /\ (Forall one w -> length t = length w).

(** The laws of a database, on one row of the table. *)
Definition row_lawful (row : N * Entry) : bool :=
  let (k, e) := row in
  let free := forallb (fun x => negb (e_space (entry_of x))) in
  if e_space e
  then match e_title e, e_lower e with
       | [x], [y] => N.eqb x k && N.eqb y k
       | _, _ => false
       end
  else nonempty (e_title e) && free (e_title e)
       && nonempty (e_lower e) && free (e_lower e).

(** The code points of a text whose bytes are read as Latin-1. *)
Fixpoint codes (s : string) : list N :=
  match s with
  | EmptyString => []
  | String c r => N_of_ascii c :: codes r
  end.

End Uni.

(** The claim's reading of the identifier rule, for comparison with
    [clean_callsign]: the text without its trailing [/SK<digits>], when it
    ends in one. *)
Fixpoint rev_onto (acc s : string) : string :=
  match s with
  | EmptyString => acc
  | String c r => rev_onto (String c acc) r
  end.

Definition without_trailing_suffix (s : string) : string :=
  let r := rev_onto EmptyString s in
  let r' := Py.lstrip_by Py.is_digit r in
  match r' with
  | String "K" (String "S" (String "/" p)) =>
      if (Py.len r' <? Py.len r)%nat then rev_onto EmptyString p else s
  | _ => s
  end.

(** Notions used in the statements below. *)

(** Every character of [s] satisfies [p]. *)
Fixpoint all_chars (p : ascii -> bool) (s : string) : bool :=
  match s with
  | EmptyString => true
  | String c r => p c && all_chars p r
  end.

(** [s] starts with [/SK] and a digit: the text behind that digit. *)
Definition sk_match (s : string) : option string :=
  match s with
  | String "/" (String "S" (String "K" (String d r'))) =>
      if Py.is_digit d then Some r' else None
  | _ => None
  end.

(** The rows with a protected status are in [w'] what they were in [w]. *)
Definition keeps_protected (env : Env) (w w' : World) : Prop :=
  forall (k : string) (r : Row),
    db w !! k = Some r -> protected env (col_Status r) = true -> db w' !! k = Some r.

(** Sample surroundings for the closed statements: a clock, a driver that
    never fails, a lookup service with one fixed reply, a record and a row
    for the identifier W1AW. *)
Definition sample_now : Clock := mkClock (mkDate 2026 11 3) 43200000000.

Definition quiet_env (reply : Result string) : Env :=
  mkEnv (fun _ => reply) sample_now (fun _ _ _ => None) default_non_update_statuses.

Definition sample_record (first last : string) (license_end : option string) : Callsign :=
  mkCallsign (Some "W1AW") None first last None None None None None None
    license_end "Extra" None "Active".

Definition sample_row (first last status : string) : Row :=
  mkRow (Some first) (Some last) None None None None None None None None
    (Some status) None.

Definition world_of (table : gmap string Row) : World := mkWorld table [] [] [].

Definition sample_xml : string :=
  "<QRZDatabase><Callsign><call>W1AW</call><fname>Hiram</fname><name>Maxim</name><efdate>2020-01-15 00:00:00</efdate><expdate>2030-01-02 00:00:00</expdate><class>E</class></Callsign></QRZDatabase>".

(** The same reply without the [expdate] element. *)
Definition undated_xml : string :=
  "<QRZDatabase><Callsign><call>W1AW</call><fname>Hiram</fname><name>Maxim</name><class>E</class></Callsign></QRZDatabase>".

(** The same reply with the license end the service gives when it has none. *)
Definition zero_date_xml : string :=
  "<QRZDatabase><Callsign><call>W1AW</call><fname>Hiram</fname><name>Maxim</name><expdate>0000-00-00</expdate><class>E</class></Callsign></QRZDatabase>".

(** A driver whose call [op] fails with [msg] in the function [site]. *)
Definition failing_env (site : Site) (op : DbOp) (msg : string)
    (reply : Result string) : Env :=
  mkEnv (fun _ => reply) sample_now
    (fun s _ o =>
       match s, site, o, op with
       | InInsertOrUpdate, InInsertOrUpdate, Connect, Connect
       | InInsertOrUpdate, InInsertOrUpdate, Select, Select
       | InInsertOrUpdate, InInsertOrUpdate, Execute, Execute
       | InInsertOrUpdate, InInsertOrUpdate, Commit, Commit
       | InDeactivate, InDeactivate, Connect, Connect
       | InDeactivate, InDeactivate, Select, Select
       | InDeactivate, InDeactivate, Execute, Execute
       | InDeactivate, InDeactivate, Commit, Commit
       | InCheckStatus, InCheckStatus, Connect, Connect
       | InCheckStatus, InCheckStatus, Select, Select
       | InCheckStatus, InCheckStatus, Execute, Execute
       | InCheckStatus, InCheckStatus, Commit, Commit => Some msg
       | _, _, _, _ => None
       end)
    default_non_update_statuses.

Definition not_found_xml : string :=
  "<QRZDatabase><Session><Error>Not found: W1AW</Error></Session></QRZDatabase>".

(** Between [w] and [w'] no row but that of [k] has changed, and no row has
    disappeared. *)
Definition writes_at_most (k : string) (w w' : World) : Prop :=
  forall k' : string,
    (k' <> k -> db w' !! k' = db w !! k')
    /\ (is_Some (db w !! k') -> is_Some (db w' !! k')).

(** The table and the two log files are the same in [w] and [w']. *)
Definition same_store (w w' : World) : Prop :=
  db w' = db w /\ mismatch_file w' = mismatch_file w /\ status_file w' = status_file w.

(** The status the date implies (line 210). *)
Definition natural_status (env : Env) (c : Callsign) (d : Date) : string :=
  if before_now d (now env) then "License Expired" else status c.

(** A listing of the stored identifiers, for [refresh_database]. *)
Definition stored_keys (t : gmap string Row) : list string := map fst (map_to_list t).

(** The text holds 7-bit characters only. *)
Fixpoint is_ascii (s : string) : bool :=
  match s with
  | EmptyString => true
  | String c r => (N_of_ascii c <? 128)%N && is_ascii r
  end.

(** The first names [é john q], [anna ß] and [ß john]. *)
Definition sample_accented_name : list N := 233%N :: Uni.codes " john q".
Definition sample_sharp_s_last : list N := Uni.codes "anna " ++ [223%N].
Definition sample_sharp_s_first : list N := 223%N :: Uni.codes " john".

(** * Properties *)

(** ** The embedding on sample inputs *)

Example ex_extract_1 : extract_xml_value "<a><call>W1AW</call></a>" "call" = Some "W1AW".
Proof. reflexivity. Qed.
Example ex_extract_2 : extract_xml_value "hello world</call>" "call" = Some " world".
Proof. reflexivity. Qed.
Example ex_clean_1 : clean_callsign "kb7ouu/sk2025" = "KB7OUU".
Proof. reflexivity. Qed.
Example ex_clean_2 : clean_callsign "ab/sk1cd" = "ABCD".
Proof. reflexivity. Qed.
Example ex_clean_3 : clean_callsign "/s/sk1k2" = "/SK2".
Proof. reflexivity. Qed.
Example ex_title : Py.title "o'neil mc1a  j" = "O'Neil Mc1A  J".
Proof. reflexivity. Qed.
Example ex_split : Py.split "  a  bc d " = ["a"; "bc"; "d"].
Proof. reflexivity. Qed.
Example ex_split2 : Py.split_on " " " a  b" = [""; "a"; ""; "b"].
Proof. reflexivity. Qed.
Example ex_strip : Py.strip "  a b  " = "a b" /\ Py.rstrip_char "," "Bob,," = "Bob".
Proof. split; reflexivity. Qed.
Example ex_class : map_license_class (Some "G") = "General" /\ map_license_class None = "Unknown Class".
Proof. split; reflexivity. Qed.
Example ex_nfn : normalize_first_name " j  john  paul " = "John Paul".
Proof. reflexivity. Qed.
Example ex_sfn : storage_first_name "john q public x" = "John Public".
Proof. reflexivity. Qed.
Example ex_strptime :
  strptime (Some "2020-1-5") = Ok (mkDate 2020 1 5)
  /\ strptime (Some "2021-02-29") = Raise (ValueError "day is out of range for month")
  /\ strptime (Some "2020-02-29") = Ok (mkDate 2020 2 29)
  /\ strptime (Some "2020-13-01") = Raise (ValueError "time data '2020-13-01' does not match format '%Y-%m-%d'")
  /\ strptime (Some "2020-12-011") = Raise (ValueError "unconverted data remains: 1").
Proof. repeat split; reflexivity. Qed.
Example ex_strftime : strftime_ymd (mkClock (mkDate 2026 3 7) 12) = "2026-03-07".
Proof. reflexivity. Qed.
Example ex_parse :
  parse_callsign_data "<call>w1aw</call><fname>hiram p</fname><name>maxim, sr</name><class>E</class><expdate>2030-01-02 00:00:00</expdate><efdate>2020-01-15 00:00:00</efdate>"
  = Ok (mkCallsign (Some "w1aw") None "Hiram" "Maxim" None None None None None
          (Some "2020-01-15") (Some "2030-01-02") "Extra" None "Active").
Proof. reflexivity. Qed.
Example ex_without_trailing_suffix :
  without_trailing_suffix "KB7OUU/SK2025" = "KB7OUU"
  /\ without_trailing_suffix "W1AW/SK2020/P" = "W1AW/SK2020/P"
  /\ without_trailing_suffix "W1AW/SK" = "W1AW/SK".
Proof. repeat split; reflexivity. Qed.

(** ** Field extraction *)

Lemma find_from_range (sub s : string) (i : Z) :
  0 <= i -> Py.find_from i sub s = -1 \/ i <= Py.find_from i sub s.
Proof.
  revert i. induction s as [|c r IH]; intros i Hi; simpl.
  - destruct (Py.startswith sub EmptyString); lia.
  - destruct (Py.startswith sub (String c r)); [lia|].
    destruct (IH (i + 1)) as [H|H]; lia.
Qed.

Lemma len_app (a b : string) : Py.len (a +:+ b) = (Py.len a + Py.len b)%nat.
Proof. unfold Py.len. induction a as [|c a IH]; simpl; [reflexivity|]. now rewrite IH. Qed.

(** The test [start != -1] of [extract_xml_value] can never fail: [start] is
    the result of [find] plus the length of a marker of two characters or
    more. *)
Lemma extract_start_positive (xml_data field : string) :
  1 <= Py.find xml_data ("<" +:+ field +:+ ">")
       + Z.of_nat (Py.len ("<" +:+ field +:+ ">")).
Proof.
  unfold Py.find.
  assert (H0 : 0 <= 0) by lia.
  destruct (find_from_range ("<" +:+ field +:+ ">") xml_data 0 H0) as [H|H];
    rewrite !len_app; simpl Py.len; lia.
Qed.

(** X1.  So the function answers [None] exactly when the end marker is
    missing, whatever the start marker does. *)
Theorem extract_none_iff (xml_data field : string) :
  extract_xml_value xml_data field = None
  <-> Py.find xml_data ("</" +:+ field +:+ ">") = -1.
Proof.
  unfold extract_xml_value.
  pose proof (extract_start_positive xml_data field) as Hs.
  destruct (Z.eqb_spec (Py.find xml_data ("<" +:+ field +:+ ">")
                        + Z.of_nat (Py.len ("<" +:+ field +:+ ">"))) (-1)) as [E|_]; [lia|].
  destruct (Z.eqb_spec (Py.find xml_data ("</" +:+ field +:+ ">")) (-1)) as [E|E]; simpl.
  - tauto.
  - split; [discriminate | contradiction].
Qed.

(** C8, evaluated where the code departs from it: the text has the end marker
    of [call] and no start marker ([find] answers -1 for it), and the
    extractor returns a value, the text from index 5 to the end marker,
    where the claim asks for an absent value. *)
Theorem extract_xml_value_without_start_marker :
  Py.find "hello world</call>" "<call>" = -1
  /\ Py.find "hello world</call>" "</call>" = 11
  /\ extract_xml_value "hello world</call>" "call" = Some " world".
Proof. repeat split; reflexivity. Qed.

(** ** License class *)

Lemma class_map_other (k : string) :
  k <> "E" -> k <> "G" -> k <> "T" -> k <> "A" -> k <> "C" -> class_map !! k = None.
Proof.
  intros HE HG HT HA HC. unfold class_map.
  rewrite !lookup_insert_ne by congruence. apply lookup_empty.
Qed.

(** C9 as stated fails on the literal: an unrecognised or absent code is
    mapped to the text [Unknown Class], which is not [Unknown]. *)
Lemma map_license_class_not_unknown :
  String.eqb (map_license_class (Some "X")) "Unknown" = false
  /\ String.eqb (map_license_class None) "Unknown" = false
  /\ map_license_class (Some "X") = "Unknown Class"
  /\ map_license_class None = "Unknown Class".
Proof. repeat split; reflexivity. Qed.

(** C9, amended: the five letters map to Extra, General, Technician,
    Advanced and Club, every other code and the absent code map to
    [Unknown Class], and so the result is always one of six fixed values. *)
Theorem map_license_class_table :
  map_license_class (Some "E") = "Extra"
  /\ map_license_class (Some "G") = "General"
  /\ map_license_class (Some "T") = "Technician"
  /\ map_license_class (Some "A") = "Advanced"
  /\ map_license_class (Some "C") = "Club"
  /\ map_license_class None = "Unknown Class"
  /\ (forall k : string,
        k <> "E" -> k <> "G" -> k <> "T" -> k <> "A" -> k <> "C" ->
        map_license_class (Some k) = "Unknown Class")
  /\ (forall class_code : option string,
        In (map_license_class class_code)
           ["Extra"; "General"; "Technician"; "Advanced"; "Club"; "Unknown Class"]).
Proof.
  assert (Hother : forall k : string,
             k <> "E" -> k <> "G" -> k <> "T" -> k <> "A" -> k <> "C" ->
             map_license_class (Some k) = "Unknown Class").
  { intros k HE HG HT HA HC. unfold map_license_class, dict_get.
    now rewrite class_map_other. }
  repeat split; try reflexivity; [exact Hother|].
  intros [k|]; [|simpl; tauto].
  destruct (string_dec k "E") as [->|HE]; [simpl; tauto|].
  destruct (string_dec k "G") as [->|HG]; [simpl; tauto|].
  destruct (string_dec k "T") as [->|HT]; [simpl; tauto|].
  destruct (string_dec k "A") as [->|HA]; [simpl; tauto|].
  destruct (string_dec k "C") as [->|HC]; [simpl; tauto|].
  rewrite Hother by assumption. simpl; tauto.
Qed.

(** ** Identifier cleaning *)

(** The example of the specification. *)
Lemma clean_callsign_example : clean_callsign "KB7OUU/SK2025" = "KB7OUU".
Proof. reflexivity. Qed.

(** C7, evaluated where the code departs from it: the pattern is deleted
    wherever it occurs, not only at the end.  In the first identifier the
    tag is followed by [/P], so there is no trailing suffix to remove, and the
    code removes the tag from the middle; in the second, what is left after
    the deletion ends in the suffix pattern. *)
Theorem clean_callsign_removes_inner_tag :
  clean_callsign "w1aw/sk2020/p" = "W1AW/P"
  /\ without_trailing_suffix (Py.upper "w1aw/sk2020/p") = "W1AW/SK2020/P"
  /\ clean_callsign "/S/SK1K2" = "/SK2"
  /\ without_trailing_suffix "/SK2" = EmptyString.
Proof. repeat split; reflexivity. Qed.

(** ** Words, title case and joining *)

Ltac by_char c :=
  destruct c as [[] [] [] [] [] [] [] []]; vm_compute; try reflexivity; try discriminate.

Lemma space_is_uncased (c : ascii) : Py.is_space c = true -> Py.is_cased c = false.
Proof. by_char c. Qed.

Lemma space_to_upper (c : ascii) : Py.is_space (Py.to_upper c) = Py.is_space c.
Proof. by_char c. Qed.

Lemma space_to_lower (c : ascii) : Py.is_space (Py.to_lower c) = Py.is_space c.
Proof. by_char c. Qed.

Lemma space_title_char (prev : bool) (c : ascii) :
  Py.is_space (if prev then Py.to_lower c else Py.to_upper c) = Py.is_space c.
Proof. destruct prev; [apply space_to_lower | apply space_to_upper]. Qed.

Lemma pieces_not_nil (sep : ascii -> bool) (s : string) : Py.pieces sep s <> [].
Proof.
  destruct s as [|c r]; simpl; [discriminate|].
  destruct (sep c); [discriminate|]. destruct (Py.pieces sep r); discriminate.
Qed.

Lemma title_from_len (prev : bool) (s : string) : Py.len (Py.title_from prev s) = Py.len s.
Proof.
  unfold Py.len. revert prev. induction s as [|c r IH]; intros prev; simpl; [reflexivity|].
  now rewrite IH.
Qed.

Lemma title_len (s : string) : Py.len (Py.title s) = Py.len s.
Proof. apply title_from_len. Qed.

Lemma title_from_nonempty (prev : bool) (s : string) :
  Py.nonempty (Py.title_from prev s) = Py.nonempty s.
Proof. destruct s; reflexivity. Qed.

(** [title] works piece by piece: whitespace is uncased, so every piece
    starts afresh; only the first piece inherits the state [prev]. *)
Lemma pieces_title_from (prev : bool) (s : string) :
  Py.pieces Py.is_space (Py.title_from prev s)
  = match Py.pieces Py.is_space s with
    | w :: ws => Py.title_from prev w :: map Py.title ws
    | [] => []
    end.
Proof.
  revert prev. induction s as [|c r IH]; intros prev; simpl; [reflexivity|].
  rewrite space_title_char.
  destruct (Py.is_space c) eqn:Hc.
  - rewrite (space_is_uncased c Hc), IH.
    pose proof (pieces_not_nil Py.is_space r) as Hne.
    destruct (Py.pieces Py.is_space r) as [|w ws]; [contradiction|]. reflexivity.
  - rewrite IH.
    pose proof (pieces_not_nil Py.is_space r) as Hne.
    destruct (Py.pieces Py.is_space r) as [|w ws]; [contradiction|]. reflexivity.
Qed.

Lemma filter_nonempty_title (l : list string) :
  List.filter Py.nonempty (map Py.title l) = map Py.title (List.filter Py.nonempty l).
Proof.
  induction l as [|w l IH]; [reflexivity|].
  cbn [map List.filter]. replace (Py.nonempty (Py.title w)) with (Py.nonempty w)
    by (symmetry; apply title_from_nonempty).
  destruct (Py.nonempty w); cbn [map]; now rewrite IH.
Qed.

(** [s.title().split()] is [s.split()] with every word in title case. *)
Lemma split_title (s : string) : Py.split (Py.title s) = map Py.title (Py.split s).
Proof.
  unfold Py.split, Py.title at 1. rewrite pieces_title_from.
  pose proof (pieces_not_nil Py.is_space s) as Hne.
  destruct (Py.pieces Py.is_space s) as [|w ws]; [contradiction|].
  change (Py.title_from false w :: map Py.title ws) with (map Py.title (w :: ws)).
  apply filter_nonempty_title.
Qed.

Lemma title_from_app_space (prev : bool) (w r : string) :
  Py.title_from prev (w +:+ String " " r)
  = Py.title_from prev w +:+ String " " (Py.title r).
Proof.
  revert prev. induction w as [|c w IH]; intros prev; simpl.
  - destruct prev; reflexivity.
  - now rewrite IH.
Qed.

(** [' '.join(ws).title()] is the join of the words in title case. *)
Lemma title_join (ws : list string) :
  Py.title (Py.join " " ws) = Py.join " " (map Py.title ws).
Proof.
  induction ws as [|w ws IH]; [reflexivity|].
  destruct ws as [|w' ws]; [reflexivity|].
  change (Py.join " " (w :: w' :: ws)) with (w +:+ String " " (Py.join " " (w' :: ws))).
  unfold Py.title at 1. rewrite title_from_app_space, IH. reflexivity.
Qed.

Lemma pieces_no_sep (sep : ascii -> bool) (w : string) :
  all_chars (fun c => negb (sep c)) w = true -> Py.pieces sep w = [w].
Proof.
  induction w as [|c w IH]; simpl; [reflexivity|].
  intros H. apply andb_true_iff in H as [Hc Hw].
  destruct (sep c); [discriminate|]. now rewrite (IH Hw).
Qed.

Lemma pieces_app_sep (sep : ascii -> bool) (w : string) (c : ascii) (r : string) :
  all_chars (fun c => negb (sep c)) w = true -> sep c = true ->
  Py.pieces sep (w +:+ String c r) = w :: Py.pieces sep r.
Proof.
  intros Hw Hc. induction w as [|a w IH]; simpl.
  - now rewrite Hc.
  - simpl in Hw. apply andb_true_iff in Hw as [Ha Hw].
    destruct (sep a); [discriminate|]. now rewrite (IH Hw).
Qed.

(** Splitting a join gives the words back, for any separator class that
    holds the space and none of the characters of the words. *)
Lemma pieces_join (sep : ascii -> bool) (ws : list string) :
  sep " "%char = true -> ws <> [] ->
  Forall (fun w => all_chars (fun c => negb (sep c)) w = true) ws ->
  Py.pieces sep (Py.join " " ws) = ws.
Proof.
  intros Hsp Hne Hall.
  induction ws as [|w ws IH]; [contradiction|].
  inversion Hall as [|? ? Hw Hws]; subst.
  destruct ws as [|w' ws]; [now apply pieces_no_sep|].
  change (Py.join " " (w :: w' :: ws)) with (w +:+ String " " (Py.join " " (w' :: ws))).
  rewrite pieces_app_sep by assumption.
  now rewrite IH.
Qed.

Lemma all_chars_weaken (p q : ascii -> bool) (s : string) :
  (forall c, p c = true -> q c = true) -> all_chars p s = true -> all_chars q s = true.
Proof.
  intros Hpq. induction s as [|c r IH]; [reflexivity|]. cbn [all_chars].
  intros H. apply andb_true_iff in H as [Hc Hr].
  now rewrite (Hpq c Hc), (IH Hr).
Qed.

Lemma not_space_not_blank (c : ascii) :
  negb (Py.is_space c) = true -> negb (Ascii.eqb " " c) = true.
Proof. by_char c. Qed.

(** A piece between whitespace holds no whitespace. *)
Lemma pieces_space_free (s : string) :
  Forall (fun w => all_chars (fun c => negb (Py.is_space c)) w = true)
         (Py.pieces Py.is_space s).
Proof.
  induction s as [|c r IH]; simpl; [repeat constructor|].
  destruct (Py.is_space c) eqn:Hc.
  - constructor; [reflexivity | exact IH].
  - destruct (Py.pieces Py.is_space r) as [|w ws]; [repeat constructor; simpl; now rewrite Hc|].
    inversion IH as [|? ? Hw Hws]; subst.
    constructor; [simpl; now rewrite Hc, Hw | exact Hws].
Qed.

Lemma title_from_space_free (prev : bool) (w : string) :
  all_chars (fun c => negb (Py.is_space c)) w = true ->
  all_chars (fun c => negb (Py.is_space c)) (Py.title_from prev w) = true.
Proof.
  revert prev. induction w as [|c w IH]; intros prev H; [reflexivity|].
  cbn [all_chars Py.title_from] in *.
  apply andb_true_iff in H as [Hc Hw].
  now rewrite (IH _ Hw), andb_true_r, space_title_char.
Qed.

(** The words of a text, in title case: none is empty, none holds whitespace. *)
Lemma split_words_titled (s : string) :
  Forall (fun w => all_chars (fun c => negb (Py.is_space c)) w = true)
         (map Py.title (Py.split s)).
Proof.
  unfold Py.split. pose proof (pieces_space_free s) as H.
  induction H as [|w l Hw Hl IH]; simpl; [constructor|].
  destruct (Py.nonempty w); simpl; [|exact IH].
  constructor; [now apply title_from_space_free | exact IH].
Qed.

Lemma split_words_nonempty (s : string) :
  Forall (fun w => Py.nonempty w = true) (Py.split s).
Proof.
  unfold Py.split. induction (Py.pieces Py.is_space s) as [|w l IH]; simpl; [constructor|].
  destruct (Py.nonempty w) eqn:E; [constructor; assumption | exact IH].
Qed.

Lemma filter_all (A : Type) (p : A -> bool) (l : list A) :
  Forall (fun x => p x = true) l -> List.filter p l = l.
Proof.
  induction 1 as [|x l Hx Hl IH]; [reflexivity|]. cbn [List.filter]. now rewrite Hx, IH.
Qed.

(** [' '.join(ws).split()] gives the words back when none is empty and none
    holds whitespace. *)
Lemma split_join (ws : list string) :
  Forall (fun w => Py.nonempty w = true) ws ->
  Forall (fun w => all_chars (fun c => negb (Py.is_space c)) w = true) ws ->
  Py.split (Py.join " " ws) = ws.
Proof.
  intros Hne Hsf. unfold Py.split.
  destruct ws as [|w ws]; [reflexivity|].
  rewrite pieces_join by (reflexivity || discriminate || assumption).
  now apply filter_all.
Qed.

Lemma split_on_join (ws : list string) :
  ws <> [] ->
  Forall (fun w => all_chars (fun c => negb (Py.is_space c)) w = true) ws ->
  Py.split_on " " (Py.join " " ws) = ws.
Proof.
  intros Hne Hsf. unfold Py.split_on. apply pieces_join; [reflexivity | assumption |].
  eapply List.Forall_impl; [|exact Hsf].
  intros w Hw. cbv beta in *. revert Hw. apply all_chars_weaken, not_space_not_blank.
Qed.

(** The comparison form, in terms of the words of the input: the words in
    title case joined by single spaces, without the first one when it is a
    single letter and others follow. *)
Lemma normalize_first_name_words (name : string) :
  normalize_first_name name
  = match Py.split name with
    | w0 :: (_ :: _) as rest =>
        if (Py.len w0 =? 1)%nat then Py.join " " (map Py.title rest)
        else Py.join " " (map Py.title (w0 :: rest))
    | ws => Py.join " " (map Py.title ws)
    end.
Proof.
  unfold normalize_first_name. rewrite title_join.
  pose proof (split_words_titled name) as Hsp.
  destruct (Py.split name) as [|w0 rest] eqn:E; [reflexivity|].
  rewrite split_on_join by (assumption || discriminate).
  destruct rest as [|w1 rest]; simpl map; cbn [length tl Py.first Nat.ltb Nat.leb].
  - reflexivity.
  - rewrite title_len. simpl andb.
    destruct (Py.len w0 =? 1)%nat; reflexivity.
Qed.

(** The storage form, in terms of the words of the input. *)
Lemma storage_first_name_words (s : string) (w0 : string) (ws : list string) :
  Py.split s = w0 :: ws ->
  storage_first_name s
  = Py.join " " (map Py.title (w0 :: List.filter (fun w => negb (Py.len w =? 1)%nat) ws)).
Proof.
  intros E. unfold storage_first_name. rewrite split_title, E. simpl map.
  f_equal. f_equal.
  pose proof (split_words_nonempty s) as Hne. rewrite E in Hne.
  inversion Hne as [|? ? _ Hws]; subst. clear Hne E.
  induction Hws as [|w l Hw Hl IH]; simpl; [reflexivity|].
  rewrite title_len, IH.
  destruct w as [|c [|c' w]]; [discriminate | reflexivity | reflexivity].
Qed.

Lemma Forall_title_filter (P : string -> Prop) (q : string -> bool) (ws : list string) :
  Forall P (map Py.title ws) -> Forall P (map Py.title (List.filter q ws)).
Proof.
  induction ws as [|w ws IH]; [trivial|]. cbn [map List.filter].
  intros H. inversion H as [|? ? Hw Hws]; subst.
  destruct (q w); [constructor|]; auto.
Qed.

Lemma title_words_nonempty (ws : list string) :
  Forall (fun w => Py.nonempty w = true) ws ->
  Forall (fun w => Py.nonempty w = true) (map Py.title ws).
Proof.
  induction 1 as [|w l Hw Hl IH]; cbn [map]; constructor; [|exact IH].
  unfold Py.title. now rewrite title_from_nonempty.
Qed.

(** ** The two forms of a first name, on ASCII text *)

(** On ASCII text, where title case keeps the length of a word: let the
    first name have the words [w0 :: ws] (at least two), one of the later
    words being a single letter.  The storage form is the words in title
    case joined by single spaces, the first word kept and every later
    one-letter word dropped, and these are exactly its words.  The comparison
    form is the words in title case joined by single spaces (whitespace
    collapsed), without the first word when that is a single letter: one
    word is stripped, never more. *)
Lemma first_name_forms (s w0 : string) (ws : list string) :
  Py.split s = w0 :: ws ->
  Exists (fun w => Py.len w = 1%nat) ws ->
  storage_first_name s
  = Py.join " " (map Py.title (w0 :: List.filter (fun w => negb (Py.len w =? 1)%nat) ws))
  /\ Py.split (storage_first_name s)
     = map Py.title (w0 :: List.filter (fun w => negb (Py.len w =? 1)%nat) ws)
  /\ normalize_first_name s
     = Py.join " " (map Py.title (if (Py.len w0 =? 1)%nat then ws else w0 :: ws)).
Proof.
  intros E Hex.
  pose proof (storage_first_name_words s w0 ws E) as Hst.
  split; [exact Hst|]. split.
  - rewrite Hst.
    pose proof (split_words_titled s) as Hsf.
    pose proof (title_words_nonempty _ (split_words_nonempty s)) as Hne.
    rewrite E in Hsf, Hne. cbn [map] in *.
    inversion Hsf as [|? ? Hsf0 Hsfs]; inversion Hne as [|? ? Hne0 Hnes]; subst.
    apply split_join; constructor; try assumption; now apply Forall_title_filter.
  - rewrite normalize_first_name_words, E.
    destruct ws as [|w1 ws]; [inversion Hex|].
    destruct (Py.len w0 =? 1)%nat; reflexivity.
Qed.

Lemma first_name_forms_witness :
  (storage_first_name "john q  public" = "John Public"
   /\ Py.split (storage_first_name "john q  public") = ["John"; "Public"]
   /\ normalize_first_name "john q  public" = "John Q Public")
  /\ (storage_first_name "j robert q" = "J Robert"
      /\ Py.split (storage_first_name "j robert q") = ["J"; "Robert"]
      /\ normalize_first_name "j robert q" = "Robert Q").
Proof.
  split.
  - apply (first_name_forms "john q  public" "john" ["q"; "public"]);
      [reflexivity | apply Exists_cons_hd; reflexivity].
  - apply (first_name_forms "j robert q" "j" ["robert"; "q"]);
      [reflexivity | apply Exists_cons_tl, Exists_cons_hd; reflexivity].
Defined.

(** ** The match engine *)

Lemma driver_quiet (env : Env) (site : Site) (key : string) (op : DbOp) :
  fault env site key op = None -> driver env site key op = None.
Proof. unfold driver. now intros ->. Qed.

(** C2.  A record with a parseable license end whose identifier has no row is
    inserted, and the row carries the status [New], whatever the date says
    about the license (the status computed from the date is not used).  The
    driver is assumed not to fail; nothing else is written. *)
Theorem insert_forces_status_new (env : Env) (c : Callsign) (k : string) (d : Date)
    (debug : bool) (w : World) :
  call c = Some k ->
  strptime (license_end c) = Ok d ->
  db w !! k = None ->
  (forall op, fault env InInsertOrUpdate k op = None) ->
  snd (insert_or_update_callsign_in_db env c debug w) = None
  /\ db (fst (insert_or_update_callsign_in_db env c debug w))
     = <[k := row_of c "New" (strftime_ymd (now env))]> (db w)
  /\ col_Status (row_of c "New" (strftime_ymd (now env))) = Some "New"
  /\ mismatch_file (fst (insert_or_update_callsign_in_db env c debug w)) = mismatch_file w
  /\ status_file (fst (insert_or_update_callsign_in_db env c debug w)) = status_file w.
Proof.
  intros Hk Hd Hrow Hq.
  unfold insert_or_update_callsign_in_db, insert_or_update_try, commit.
  rewrite Hk, Hd, Hrow. cbn [Py.render].
  rewrite !driver_quiet by apply Hq.
  destruct debug; cbn; auto.
Qed.

Lemma insert_forces_status_new_witness :
  before_now (mkDate 2001 1 1) sample_now = true
  /\ (snd (insert_or_update_callsign_in_db (quiet_env (Raise (RequestError "unused")))
             (sample_record "Hiram" "Maxim" (Some "2001-01-01")) false (world_of ∅)) = None
      /\ db (fst (insert_or_update_callsign_in_db (quiet_env (Raise (RequestError "unused")))
                    (sample_record "Hiram" "Maxim" (Some "2001-01-01")) false (world_of ∅)))
         = <["W1AW" := row_of (sample_record "Hiram" "Maxim" (Some "2001-01-01")) "New"
                         "2026-11-03"]> ∅
      /\ col_Status (row_of (sample_record "Hiram" "Maxim" (Some "2001-01-01")) "New"
                       "2026-11-03") = Some "New"
      /\ mismatch_file (fst (insert_or_update_callsign_in_db
                               (quiet_env (Raise (RequestError "unused")))
                               (sample_record "Hiram" "Maxim" (Some "2001-01-01")) false
                               (world_of ∅))) = []
      /\ status_file (fst (insert_or_update_callsign_in_db
                             (quiet_env (Raise (RequestError "unused")))
                             (sample_record "Hiram" "Maxim" (Some "2001-01-01")) false
                             (world_of ∅))) = []).
Proof.
  split; [reflexivity|].
  apply (insert_forces_status_new (quiet_env (Raise (RequestError "unused")))
           (sample_record "Hiram" "Maxim" (Some "2001-01-01")) "W1AW" (mkDate 2001 1 1)
           false (world_of ∅)); reflexivity.
Defined.

(** ** Protected rows *)

Lemma keeps_protected_same (env : Env) (w w' : World) :
  db w' = db w -> keeps_protected env w w'.
Proof. intros E k r Hk _. now rewrite E. Qed.

Lemma keeps_protected_trans (env : Env) (w1 w2 w3 : World) :
  keeps_protected env w1 w2 -> keeps_protected env w2 w3 -> keeps_protected env w1 w3.
Proof. intros H12 H23 k r Hk Hp. apply H23; [apply H12|]; assumption. Qed.

(** A write to the row of [k'] keeps the protected rows if [k'] has no row
    or an unprotected one. *)
Lemma keeps_protected_write (env : Env) (w w' : World) (k' : string) (row : Row) :
  db w' = <[k' := row]> (db w) ->
  (forall r, db w !! k' = Some r -> protected env (col_Status r) = false) ->
  keeps_protected env w w'.
Proof.
  intros E Hfree k r Hk Hp. rewrite E.
  destruct (decide (k' = k)) as [->|Hne].
  - rewrite (Hfree r Hk) in Hp. discriminate.
  - now rewrite lookup_insert_ne.
Qed.

Lemma except_pyodbc_db (report : string -> string) (r : World * option Exn) :
  db (fst (except_pyodbc report r)) = db (fst r).
Proof. destruct r as [w [[]|]]; reflexivity. Qed.

(** The scrutinee of the outermost [match] of the goal is split into cases. *)
Ltac split_match :=
  match goal with
  | |- context [match ?x with _ => _ end] =>
      lazymatch x with
      | context [match _ with _ => _ end] => fail
      | _ => destruct x eqn:?
      end
  end.

Lemma insert_or_update_try_keeps (env : Env) (c : Callsign) (debug : bool) (w : World) :
  keeps_protected env w (fst (insert_or_update_try env c debug w)).
Proof.
  unfold insert_or_update_try, commit.
  repeat (split_match; cbn [fst snd]); try (apply keeps_protected_same; reflexivity).
  all: try (apply keeps_protected_same; destruct debug; reflexivity).
  all: destruct debug; (eapply keeps_protected_write; [reflexivity|]);
    intros r' Hr'; try congruence;
    (replace r' with r by congruence); now apply negb_true_iff.
Qed.

Lemma insert_or_update_keeps (env : Env) (c : Callsign) (debug : bool) (w : World) :
  keeps_protected env w (fst (insert_or_update_callsign_in_db env c debug w)).
Proof.
  intros k r Hk Hp. unfold insert_or_update_callsign_in_db.
  rewrite except_pyodbc_db. now apply insert_or_update_try_keeps.
Qed.

Lemma update_to_inactive_keeps (env : Env) (callsign : string) (debug : bool) (w : World) :
  keeps_protected env w
    (fst (update_callsign_status_to_inactive_if_needed env callsign debug w)).
Proof.
  intros k r Hk Hp. unfold update_callsign_status_to_inactive_if_needed.
  rewrite except_pyodbc_db. revert k r Hk Hp.
  change (keeps_protected env w (fst (update_to_inactive_try env callsign debug w))).
  unfold update_to_inactive_try, commit.
  repeat (split_match; cbn [fst snd]); try (apply keeps_protected_same; reflexivity).
  all: try (apply keeps_protected_same; destruct debug; reflexivity).
  all: destruct debug; (eapply keeps_protected_write; [reflexivity|]);
    intros r' Hr'; try congruence;
    (replace r' with r by congruence); now apply negb_true_iff.
Qed.

Lemma check_callsign_status_keeps (env : Env) (callsign : string) (parsed_data : Callsign)
    (update debug : bool) (w : World) :
  keeps_protected env w
    (fst (check_callsign_status env callsign parsed_data update debug w)).
Proof.
  intros k r Hk Hp. unfold check_callsign_status.
  rewrite except_pyodbc_db. revert k r Hk Hp.
  change (keeps_protected env w
            (fst (check_status_try env callsign parsed_data update debug w))).
  unfold check_status_try.
  repeat (split_match; cbn [fst snd]); try (apply keeps_protected_same; reflexivity).
  all: try (apply keeps_protected_same; destruct debug; reflexivity).
  all: (eapply keeps_protected_trans; [|apply insert_or_update_keeps]);
    apply keeps_protected_same; destruct debug; reflexivity.
Qed.

Lemma process_callsign_keeps (env : Env) (session_key callsign : string)
    (update checkstatus debug : bool) (w : World) :
  keeps_protected env w
    (process_callsign env session_key callsign update checkstatus debug w).
Proof.
  assert (Htry : keeps_protected env w
            (fst (process_try env session_key (clean_callsign callsign)
                    update checkstatus debug w))).
  { unfold process_try.
    destruct (get_callsign_data env session_key (clean_callsign callsign)) as [xml|e];
      [|apply keeps_protected_same; reflexivity].
    destruct (parse_callsign_data xml) as [parsed|e];
      [|apply keeps_protected_same; reflexivity].
    set (w1 := when_debug debug (trace "Fetched data") w).
    assert (H1 : keeps_protected env w w1)
      by (apply keeps_protected_same; subst w1; destruct debug; reflexivity).
    destruct checkstatus.
    - pose proof (check_callsign_status_keeps env (clean_callsign callsign)
                    (set_call (clean_callsign callsign) parsed) update debug w1) as H2.
      destruct (check_callsign_status env (clean_callsign callsign)
                  (set_call (clean_callsign callsign) parsed) update debug w1)
        as [w2 [e|]]; cbn [fst] in *.
      + eapply keeps_protected_trans; eassumption.
      + destruct update; cbn [fst].
        * eapply keeps_protected_trans; [|apply insert_or_update_keeps].
          eapply keeps_protected_trans; eassumption.
        * eapply keeps_protected_trans; eassumption.
    - destruct update; cbn [fst]; [|assumption].
      eapply keeps_protected_trans; [eassumption | apply insert_or_update_keeps]. }
  unfold process_callsign.
  destruct (process_try env session_key (clean_callsign callsign)
              update checkstatus debug w) as [w1 [e|]]; cbn [fst] in Htry; [|assumption].
  destruct (Py.contains "Not found" (str_exn e)).
  - pose proof (update_to_inactive_keeps env (clean_callsign callsign) debug w1) as H2.
    destruct (update_callsign_status_to_inactive_if_needed env
                (clean_callsign callsign) debug w1) as [w2 e2]; cbn [fst] in H2.
    eapply keeps_protected_trans; eassumption.
  - eapply keeps_protected_trans; [eassumption|]. now apply keeps_protected_same.
Qed.

Lemma process_all_keeps (env : Env) (session_key : string) (callsigns : list string)
    (update checkstatus debug : bool) (w : World) :
  keeps_protected env w
    (process_all env session_key callsigns update checkstatus debug w).
Proof.
  unfold process_all. revert w.
  induction callsigns as [|c cs IH]; intros w; cbn [fold_left].
  - now apply keeps_protected_same.
  - eapply keeps_protected_trans; [apply process_callsign_keeps | apply IH].
Qed.

Lemma set_db_same (w : World) : set_db (db w) w = w.
Proof. now destruct w. Qed.

(** With a protected row for the identifier of the record, the update path
    leaves the table as it is. *)
Lemma insert_or_update_protected_row (env : Env) (c : Callsign) (k : string) (r : Row)
    (debug : bool) (w : World) :
  call c = Some k -> db w !! k = Some r -> protected env (col_Status r) = true ->
  db (fst (insert_or_update_callsign_in_db env c debug w)) = db w.
Proof.
  intros Hk Hr Hp. unfold insert_or_update_callsign_in_db.
  rewrite except_pyodbc_db. unfold insert_or_update_try, commit.
  rewrite Hk, Hr, Hp. cbn [negb Py.render].
  repeat (split_match; cbn [fst snd]); reflexivity.
Qed.

(** Matching names and a protected status: nothing happens at all. *)
Lemma insert_or_update_protected_noop (env : Env) (c : Callsign) (k f : string) (r : Row)
    (d : Date) (debug : bool) (w : World) :
  call c = Some k -> db w !! k = Some r -> protected env (col_Status r) = true ->
  strptime (license_end c) = Ok d ->
  col_FirstName r = Some f ->
  names_match c (Py.rstrip_char "," f) (col_LastName r) = Ok true ->
  (forall op, fault env InInsertOrUpdate k op = None) ->
  insert_or_update_callsign_in_db env c debug w = (w, None).
Proof.
  intros Hk Hr Hp Hd Hf Hm Hq.
  unfold insert_or_update_callsign_in_db, insert_or_update_try, commit.
  rewrite Hk, Hr, Hp, Hd, Hf, Hm. cbn [negb Py.render].
  rewrite !driver_quiet by apply Hq. cbn. now rewrite set_db_same.
Qed.

Lemma update_to_inactive_protected_row (env : Env) (k : string) (r : Row)
    (debug : bool) (w : World) :
  db w !! k = Some r -> protected env (col_Status r) = true ->
  db (fst (update_callsign_status_to_inactive_if_needed env k debug w)) = db w.
Proof.
  intros Hr Hp. unfold update_callsign_status_to_inactive_if_needed.
  rewrite except_pyodbc_db. unfold update_to_inactive_try.
  rewrite Hr, Hp. cbn [negb].
  repeat (split_match; cbn [fst snd]); reflexivity.
Qed.

(** C3.  Let the table hold a row for [k] whose status is in the configured
    list.  Then (1) the update path for a record with this identifier leaves
    the table as it is, and with matching names and a working driver it does
    nothing at all; (2) the deactivation of [k] leaves the table as it is;
    (3) whatever identifier is processed, with whatever flags, lookup result
    and driver failures, the row of [k] is afterwards what it was; (4) the
    same after a whole batch. *)
Theorem protected_record_never_written (env : Env) (k : string) (r : Row) (w : World) :
  db w !! k = Some r ->
  protected env (col_Status r) = true ->
  (forall (c : Callsign) (debug : bool),
      call c = Some k ->
      db (fst (insert_or_update_callsign_in_db env c debug w)) = db w)
  /\ (forall (c : Callsign) (f : string) (d : Date) (debug : bool),
        call c = Some k ->
        strptime (license_end c) = Ok d ->
        col_FirstName r = Some f ->
        names_match c (Py.rstrip_char "," f) (col_LastName r) = Ok true ->
        (forall op, fault env InInsertOrUpdate k op = None) ->
        insert_or_update_callsign_in_db env c debug w = (w, None))
  /\ (forall debug : bool,
        db (fst (update_callsign_status_to_inactive_if_needed env k debug w)) = db w)
  /\ (forall (session_key callsign : string) (update checkstatus debug : bool),
        db (process_callsign env session_key callsign update checkstatus debug w) !! k
        = Some r)
  /\ (forall (session_key : string) (callsigns : list string)
             (update checkstatus debug : bool),
        db (process_all env session_key callsigns update checkstatus debug w) !! k
        = Some r).
Proof.
  intros Hr Hp. repeat split.
  - intros c debug Hk. now apply (insert_or_update_protected_row env c k r).
  - intros c f d debug Hk Hd Hf Hm Hq.
    now apply (insert_or_update_protected_noop env c k f r d).
  - intros debug. now apply (update_to_inactive_protected_row env k r).
  - intros. now apply process_callsign_keeps.
  - intros. now apply process_all_keeps.
Qed.

Lemma protected_record_never_written_witness :
  db (process_callsign (quiet_env (Ok sample_xml)) "key" "w1aw/sk2025" true true false
        (world_of {["W1AW" := sample_row "Hiram" "Maxim" "SK"]})) !! "W1AW"
  = Some (sample_row "Hiram" "Maxim" "SK")
  /\ db (process_callsign (quiet_env (Ok not_found_xml)) "key" "w1aw" true true false
           (world_of {["W1AW" := sample_row "Hiram" "Maxim" "SILENT KEY"]})) !! "W1AW"
     = Some (sample_row "Hiram" "Maxim" "SILENT KEY").
Proof.
  split.
  - refine (proj1 (proj2 (proj2 (proj2
              (protected_record_never_written (quiet_env (Ok sample_xml)) "W1AW"
                 (sample_row "Hiram" "Maxim" "SK")
                 (world_of {["W1AW" := sample_row "Hiram" "Maxim" "SK"]}) _ _))))
              "key" "w1aw/sk2025" true true false); vm_compute; reflexivity.
  - refine (proj1 (proj2 (proj2 (proj2
              (protected_record_never_written (quiet_env (Ok not_found_xml)) "W1AW"
                 (sample_row "Hiram" "Maxim" "SILENT KEY")
                 (world_of {["W1AW" := sample_row "Hiram" "Maxim" "SILENT KEY"]}) _ _))))
              "key" "w1aw" true true false); vm_compute; reflexivity.
Defined.

(** ** Lookup failures *)

(** C4.  Let the lookup of the cleaned identifier [k] fail with the exception
    [e].  If the text of [e] holds [Not found]: a row of [k] with an
    unprotected status gets the status [Inactive] and the date of the day in
    [Updated], the other columns and rows staying as they are (the driver
    assumed to work); without a row of [k] the table is left as it is, and
    with a working driver nothing happens at all.  If the text of [e] does not
    hold [Not found], the error is printed and nothing else changes. *)
Theorem lookup_failure_handling (env : Env) (session_key callsign : string)
    (update checkstatus debug : bool) (w : World) (e : Exn) :
  get_callsign_data env session_key (clean_callsign callsign) = Raise e ->
  (Py.contains "Not found" (str_exn e) = true ->
     (forall r : Row,
         db w !! clean_callsign callsign = Some r ->
         protected env (col_Status r) = false ->
         (forall op, fault env InDeactivate (clean_callsign callsign) op = None) ->
         db (process_callsign env session_key callsign update checkstatus debug w)
         = <[clean_callsign callsign := set_inactive (strftime_ymd (now env)) r]> (db w)
         /\ col_Status (set_inactive (strftime_ymd (now env)) r) = Some "Inactive"
         /\ col_Updated (set_inactive (strftime_ymd (now env)) r)
            = Some (strftime_ymd (now env)))
     /\ (db w !! clean_callsign callsign = None ->
         db (process_callsign env session_key callsign update checkstatus debug w) = db w
         /\ ((forall op, fault env InDeactivate (clean_callsign callsign) op = None) ->
             process_callsign env session_key callsign update checkstatus debug w = w)))
  /\ (Py.contains "Not found" (str_exn e) = false ->
      process_callsign env session_key callsign update checkstatus debug w
      = print ("Error fetching data for " +:+ clean_callsign callsign +:+ ": "
               +:+ str_exn e) w).
Proof.
  intros Hfail. unfold process_callsign, process_try. rewrite Hfail.
  split; intros Hnf; rewrite Hnf; [|reflexivity].
  unfold update_callsign_status_to_inactive_if_needed, update_to_inactive_try, commit.
  split.
  - intros r Hr Hp Hq. rewrite Hr, Hp. cbn [negb].
    rewrite !driver_quiet by apply Hq.
    destruct debug; cbn; auto.
  - intros Hr. rewrite Hr. split.
    + repeat (split_match; cbn [fst snd except_pyodbc] in *); subst;
        try reflexivity; try discriminate.
      all: match goal with H : (_, _) = (_, _) |- _ => inversion H; subst end;
        reflexivity.
    + intros Hq. rewrite !driver_quiet by apply Hq. reflexivity.
Qed.

Lemma lookup_failure_handling_witness :
  (db (process_callsign (quiet_env (Ok not_found_xml)) "key" "w1aw" true false false
         (world_of {["W1AW" := sample_row "Hiram" "Maxim" "Active"]}))
   = <["W1AW" := set_inactive "2026-11-03" (sample_row "Hiram" "Maxim" "Active")]>
       {["W1AW" := sample_row "Hiram" "Maxim" "Active"]}
   /\ col_Status (set_inactive "2026-11-03" (sample_row "Hiram" "Maxim" "Active"))
      = Some "Inactive"
   /\ col_Updated (set_inactive "2026-11-03" (sample_row "Hiram" "Maxim" "Active"))
      = Some "2026-11-03")
  /\ process_callsign (quiet_env (Ok not_found_xml)) "key" "w1aw" true false false
       (world_of ∅) = world_of ∅
  /\ process_callsign (quiet_env (Raise (RequestError "timed out"))) "key" "w1aw"
       true false false (world_of {["W1AW" := sample_row "Hiram" "Maxim" "Active"]})
     = print "Error fetching data for W1AW: timed out"
         (world_of {["W1AW" := sample_row "Hiram" "Maxim" "Active"]}).
Proof.
  split; [|split].
  - pose proof (proj1 (proj1 (lookup_failure_handling (quiet_env (Ok not_found_xml))
                           "key" "w1aw" true false false
                           (world_of {["W1AW" := sample_row "Hiram" "Maxim" "Active"]})
                           (LookupFailure "Error: Not found: W1AW") eq_refl) eq_refl)
             (sample_row "Hiram" "Maxim" "Active")) as H.
    specialize (H ltac:(vm_compute; reflexivity) ltac:(vm_compute; reflexivity)
                  ltac:(intros; reflexivity)).
    vm_compute in H |- *. exact H.
  - pose proof (proj2 (proj1 (lookup_failure_handling (quiet_env (Ok not_found_xml))
                           "key" "w1aw" true false false (world_of ∅)
                           (LookupFailure "Error: Not found: W1AW") eq_refl) eq_refl)) as H.
    specialize (H ltac:(vm_compute; reflexivity)).
    destruct H as [_ H]. specialize (H ltac:(intros; reflexivity)).
    vm_compute in H |- *. exact H.
  - pose proof (proj2 (lookup_failure_handling (quiet_env (Raise (RequestError "timed out")))
                    "key" "w1aw" true false false
                    (world_of {["W1AW" := sample_row "Hiram" "Maxim" "Active"]})
                    (RequestError "timed out") eq_refl)) as H.
    specialize (H ltac:(vm_compute; reflexivity)).
    vm_compute in H |- *. exact H.
Defined.

(** ** Records without a usable license end *)

(** X3.  The update path skips such a record without a trace: when the
    connection opens, the call returns with the world as it was (no insert,
    no update, no log entry, nothing printed). *)
Theorem insert_or_update_skips_invalid_date (env : Env) (c : Callsign) (e : Exn)
    (debug : bool) (w : World) :
  strptime (license_end c) = Raise e ->
  fault env InInsertOrUpdate (Py.render (call c)) Connect = None ->
  insert_or_update_callsign_in_db env c debug w = (w, None).
Proof.
  intros Hd Hq. unfold insert_or_update_callsign_in_db, insert_or_update_try.
  rewrite (driver_quiet _ _ _ _ Hq), Hd. reflexivity.
Qed.

(** C1, evaluated where the code departs from it.  The reply has no [expdate],
    so the record has no license end.  With the status audit requested and a
    row for the identifier, [check_callsign_status] parses the date outside
    any handler: the exception reaches [process_callsign] and is printed as an
    error.  Nothing is written.  Without the audit the same record is skipped
    in silence.  The same happens for a license end that does not parse. *)
Theorem status_audit_reports_missing_date :
  (exists c, parse_callsign_data undated_xml = Ok c /\ license_end c = None)
  /\ process_callsign (quiet_env (Ok undated_xml)) "key" "w1aw" true true false
       (world_of {["W1AW" := sample_row "Hiram" "Maxim" "Active"]})
     = print "Error fetching data for W1AW: strptime() argument 1 must be str, not None"
         (world_of {["W1AW" := sample_row "Hiram" "Maxim" "Active"]})
  /\ process_callsign (quiet_env (Ok undated_xml)) "key" "w1aw" true false false
       (world_of {["W1AW" := sample_row "Hiram" "Maxim" "Active"]})
     = world_of {["W1AW" := sample_row "Hiram" "Maxim" "Active"]}
  /\ process_callsign (quiet_env (Ok zero_date_xml)) "key" "w1aw" true true false
       (world_of {["W1AW" := sample_row "Hiram" "Maxim" "Active"]})
     = print "Error fetching data for W1AW: time data '0000-00-00' does not match format '%Y-%m-%d'"
         (world_of {["W1AW" := sample_row "Hiram" "Maxim" "Active"]}).
Proof.
  split; [eexists; split; reflexivity|].
  repeat split; vm_compute; reflexivity.
Qed.

(** ** Name mismatches *)

(** C5, evaluated where the code departs from it.  The decision compares the
    comparison forms ([normalize_first_name]); the report compares the first
    words of the lowered names ([normalize_name]).  First case: the comparison
    forms of the first names differ, the last names agree; the record is
    flagged and the report names no pair at all.  Second case: the comparison
    forms of the first names agree, the last names differ; the report holds
    the first-name pair as well. *)
Theorem mismatch_report_pairs_disagree_with_decision :
  (String.eqb (normalize_first_name "John Paul") (normalize_first_name "John Peter") = false
   /\ names_match (sample_record "John Peter" "Smith" (Some "2030-01-02"))
        "John Paul" (Some "Smith") = Ok false
   /\ insert_or_update_callsign_in_db (quiet_env (Ok sample_xml))
        (sample_record "John Peter" "Smith" (Some "2030-01-02")) false
        (world_of {["W1AW" := sample_row "John Paul" "Smith" "Active"]})
      = (mkWorld {["W1AW" := sample_row "John Paul" "Smith" "Active"]}
           [Print ("No update performed for callsign W1AW due to mismatch in first or last name." +:+ nl)]
           ["No update performed for callsign W1AW due to mismatch in first or last name." +:+ nl]
           [],
         None))
  /\ (String.eqb (normalize_first_name "J John") (normalize_first_name "John") = true
      /\ mismatch_message (sample_record "John" "Smith" (Some "2030-01-02"))
           "J John" (Some "Smyth")
         = Ok ("No update performed for callsign W1AW due to mismatch in first or last name."
               +:+ nl +:+ "First name mismatch: DB = J John, QRZ = John"
               +:+ nl +:+ "Last name mismatch: DB = Smyth, QRZ = Smith" +:+ nl)).
Proof. repeat split; vm_compute; reflexivity. Qed.

(** ** Failures of the database driver *)

(** C10, evaluated where the code departs from it.  The UPDATE of the
    deactivation fails: the report does not hold the identifier (the text of
    the driver's error is all that follows the fixed words), the table is
    left as it was.  The same failure on the update path is reported with the
    identifier. *)
Theorem deactivation_error_omits_identifier :
  process_callsign (failing_env InDeactivate Execute "[HY000] database is locked"
                      (Ok not_found_xml)) "key" "w1aw" true false false
    (world_of {["W1AW" := sample_row "Hiram" "Maxim" "Active"]})
  = print "Error updating callsign status in database: [HY000] database is locked"
      (world_of {["W1AW" := sample_row "Hiram" "Maxim" "Active"]})
  /\ Py.contains "W1AW"
       "Error updating callsign status in database: [HY000] database is locked" = false
  /\ process_callsign (failing_env InInsertOrUpdate Execute "[HY000] database is locked"
                         (Ok sample_xml)) "key" "w1aw" true false false
       (world_of {["W1AW" := sample_row "Hiram" "Maxim" "Active"]})
     = print "Error inserting or updating callsign W1AW in database: [HY000] database is locked"
         (world_of {["W1AW" := sample_row "Hiram" "Maxim" "Active"]}).
Proof. repeat split; vm_compute; reflexivity. Qed.

(** ** Further properties of the extractor *)

Lemma str_app_assoc (a b c : string) : (a +:+ b) +:+ c = a +:+ b +:+ c.
Proof.
  induction a as [|x a IH]; [reflexivity|].
  change (String x ((a +:+ b) +:+ c) = String x (a +:+ b +:+ c)). now rewrite IH.
Qed.

Lemma substring_whole_prefix (v r : string) :
  String.substring 0 (Py.len v) (v +:+ r) = v.
Proof.
  unfold Py.len. induction v as [|c v IH]; simpl.
  - now destruct r.
  - now rewrite IH.
Qed.

Lemma substring_after_prefix (p v r : string) :
  String.substring (Py.len p) (Py.len v) (p +:+ v +:+ r) = v.
Proof.
  induction p as [|c p IH]; [exact (substring_whole_prefix v r)|]. exact IH.
Qed.

(** X2.  When the first start marker is followed by the first end marker,
    the value is the text between them. *)
Theorem extract_between_markers (field a v b : string) :
  Py.find (a +:+ ("<" +:+ field +:+ ">") +:+ v +:+ ("</" +:+ field +:+ ">") +:+ b)
          ("<" +:+ field +:+ ">") = Z.of_nat (Py.len a) ->
  Py.find (a +:+ ("<" +:+ field +:+ ">") +:+ v +:+ ("</" +:+ field +:+ ">") +:+ b)
          ("</" +:+ field +:+ ">")
  = Z.of_nat (Py.len a + Py.len ("<" +:+ field +:+ ">") + Py.len v) ->
  extract_xml_value
    (a +:+ ("<" +:+ field +:+ ">") +:+ v +:+ ("</" +:+ field +:+ ">") +:+ b) field
  = Some v.
Proof.
  intros Hs He. unfold extract_xml_value. rewrite Hs, He.
  set (op := "<" +:+ field +:+ ">") in *. set (cl := "</" +:+ field +:+ ">") in *.
  destruct (Z.eqb_spec (Z.of_nat (Py.len a) + Z.of_nat (Py.len op)) (-1)) as [E|_]; [lia|].
  destruct (Z.eqb_spec (Z.of_nat (Py.len a + Py.len op + Py.len v)) (-1)) as [E|_]; [lia|].
  cbn [negb andb]. f_equal. unfold Py.slice.
  rewrite !len_app.
  destruct (Z.ltb_spec (Z.of_nat (Py.len a) + Z.of_nat (Py.len op)) 0) as [E|_]; [lia|].
  destruct (Z.ltb_spec (Z.of_nat (Py.len a + Py.len op + Py.len v)) 0) as [E|_]; [lia|].
  replace (Z.to_nat (Z.min (Z.of_nat (Py.len a) + Z.of_nat (Py.len op)) _))
    with (Py.len (a +:+ op)) by (rewrite len_app; lia).
  match goal with
  | |- String.substring _ (Z.to_nat ?n) _ = _ =>
      replace (Z.to_nat n) with (Py.len v) by lia
  end.
  replace (a +:+ op +:+ v +:+ cl +:+ b) with ((a +:+ op) +:+ v +:+ cl +:+ b).
  - apply substring_after_prefix.
  - apply str_app_assoc.
Qed.

Lemma extract_between_markers_witness :
  extract_xml_value ("<Callsign>" +:+ ("<" +:+ "call" +:+ ">") +:+ "W1AW"
                     +:+ ("</" +:+ "call" +:+ ">") +:+ "</Callsign>") "call"
  = Some "W1AW".
Proof. apply (extract_between_markers "call" "<Callsign>" "W1AW" "</Callsign>"); reflexivity. Defined.

(** ** Further properties of the writes *)

(** X4.  Whichever call into the driver is set to fail on the update path,
    the table is afterwards what it was: nothing is committed. *)
Theorem update_path_failure_commits_nothing (env : Env) (c : Callsign) (debug : bool)
    (w : World) (op : DbOp) (msg : string) :
  fault env InInsertOrUpdate (Py.render (call c)) op = Some msg ->
  db (fst (insert_or_update_callsign_in_db env c debug w)) = db w.
Proof.
  intros Hf. unfold insert_or_update_callsign_in_db.
  rewrite except_pyodbc_db. unfold insert_or_update_try, commit, driver.
  destruct op; rewrite ?Hf;
    repeat (split_match; cbn [fst snd]); try reflexivity;
    try (destruct debug; reflexivity); congruence.
Qed.

Lemma update_path_failure_commits_nothing_witness :
  db (fst (insert_or_update_callsign_in_db
             (failing_env InInsertOrUpdate Commit "[08S01] link failure" (Ok sample_xml))
             (sample_record "Hiram" "Maxim" (Some "2030-01-02")) false
             (world_of {["W1AW" := sample_row "Hiram" "Maxim" "Active"]})))
  = db (world_of {["W1AW" := sample_row "Hiram" "Maxim" "Active"]}).
Proof.
  apply (update_path_failure_commits_nothing _ _ _ _ Commit "[08S01] link failure").
  reflexivity.
Defined.

(** X5.  The same for the deactivation: with a failing driver call the table
    is afterwards what it was. *)
Theorem deactivation_failure_commits_nothing (env : Env) (k : string) (debug : bool)
    (w : World) (op : DbOp) (msg : string) :
  fault env InDeactivate k op = Some msg ->
  db (fst (update_callsign_status_to_inactive_if_needed env k debug w)) = db w.
Proof.
  intros Hf. unfold update_callsign_status_to_inactive_if_needed.
  rewrite except_pyodbc_db. unfold update_to_inactive_try, commit, driver.
  destruct op; rewrite ?Hf;
    repeat (split_match; cbn [fst snd]); try reflexivity;
    try (destruct debug; reflexivity); congruence.
Qed.

Lemma deactivation_failure_commits_nothing_witness :
  db (fst (update_callsign_status_to_inactive_if_needed
             (failing_env InDeactivate Commit "[08S01] link failure" (Ok not_found_xml))
             "W1AW" false
             (world_of {["W1AW" := sample_row "Hiram" "Maxim" "Active"]})))
  = db (world_of {["W1AW" := sample_row "Hiram" "Maxim" "Active"]}).
Proof.
  apply (deactivation_failure_commits_nothing _ _ _ _ Commit "[08S01] link failure").
  reflexivity.
Defined.

(** A failure to connect on the update path is reported with the identifier,
    and the function returns normally. *)
Theorem update_path_connect_failure_report (env : Env) (c : Callsign) (debug : bool)
    (w : World) (msg : string) :
  fault env InInsertOrUpdate (Py.render (call c)) Connect = Some msg ->
  insert_or_update_callsign_in_db env c debug w
  = (print ("Error inserting or updating callsign " +:+ Py.render (call c)
            +:+ " in database: " +:+ msg) w, None).
Proof.
  intros Hf. unfold insert_or_update_callsign_in_db, insert_or_update_try, driver.
  now rewrite Hf.
Qed.

Lemma update_path_connect_failure_report_witness :
  insert_or_update_callsign_in_db
    (failing_env InInsertOrUpdate Connect "[08001] cannot connect" (Ok sample_xml))
    (sample_record "Hiram" "Maxim" (Some "2030-01-02")) false (world_of ∅)
  = (print "Error inserting or updating callsign W1AW in database: [08001] cannot connect"
       (world_of ∅), None).
Proof.
  apply (update_path_connect_failure_report
           (failing_env InInsertOrUpdate Connect "[08001] cannot connect" (Ok sample_xml))
           (sample_record "Hiram" "Maxim" (Some "2030-01-02")) false (world_of ∅)
           "[08001] cannot connect").
  reflexivity.
Defined.

(** Every identifier of a batch is processed, in order, on the world the
    earlier ones left: no outcome of one stops the loop. *)
Theorem process_all_step (env : Env) (session_key k : string) (rest : list string)
    (update checkstatus debug : bool) (w : World) :
  process_all env session_key (k :: rest) update checkstatus debug w
  = process_all env session_key rest update checkstatus debug
      (process_callsign env session_key k update checkstatus debug w).
Proof. reflexivity. Qed.

(** X6.  The flagged record: its names do not pass the test of line 228.  With a
    working driver the table is left as it is, and one message is printed and
    appended to the mismatch log.  The message starts with the identifier's
    line; the first-name pair follows when the first words of the lowered
    first names differ, the last-name pair when the lowered last names do. *)
Theorem mismatch_is_flagged_not_written (env : Env) (c : Callsign) (k f l : string)
    (r : Row) (d : Date) (debug : bool) (w : World) :
  call c = Some k ->
  strptime (license_end c) = Ok d ->
  db w !! k = Some r ->
  col_FirstName r = Some f ->
  col_LastName r = Some l ->
  names_match c (Py.rstrip_char "," f) (Some l) = Ok false ->
  (forall op, fault env InInsertOrUpdate k op = None) ->
  exists m : string,
    mismatch_message c (Py.rstrip_char "," f) (Some l) = Ok m
    /\ insert_or_update_callsign_in_db env c debug w
       = (append_mismatch m (print m w), None)
    /\ db (append_mismatch m (print m w)) = db w
    /\ m = (("No update performed for callsign " +:+ k
             +:+ " due to mismatch in first or last name." +:+ nl)
            +:+ (if String.eqb (normalize_name (Py.lower (Py.rstrip_char "," f)))
                               (normalize_name (Py.lower (first_name c)))
                 then EmptyString
                 else "First name mismatch: DB = " +:+ Py.rstrip_char "," f
                      +:+ ", QRZ = " +:+ first_name c +:+ nl))
           +:+ (if String.eqb (Py.lower l) (Py.lower (last_name c))
                then EmptyString
                else "Last name mismatch: DB = " +:+ l +:+ ", QRZ = "
                     +:+ last_name c +:+ nl).
Proof.
  intros Hk Hd Hr Hf Hl Hm Hq.
  assert (Hnil : forall s : string, s +:+ EmptyString = s).
  { induction s as [|x s IH]; [reflexivity|].
    change (String x (s +:+ EmptyString) = String x s). now rewrite IH. }
  destruct (mismatch_message c (Py.rstrip_char "," f) (Some l)) as [m|e] eqn:Em;
    [|unfold mismatch_message in Em; discriminate].
  exists m. split; [reflexivity|]. split; [|split; [reflexivity|]].
  - unfold insert_or_update_callsign_in_db, insert_or_update_try, commit.
    rewrite Hk, Hd, Hr, Hf, Hl, Hm, Em. cbn [Py.render].
    rewrite !driver_quiet by apply Hq. cbn [except_pyodbc].
    now rewrite set_db_same.
  - unfold mismatch_message in Em. rewrite Hk in Em. cbn [Py.render] in Em.
    injection Em as <-.
    destruct (String.eqb (normalize_name (Py.lower (Py.rstrip_char "," f)))
                (normalize_name (Py.lower (first_name c))));
      destruct (String.eqb (Py.lower l) (Py.lower (last_name c)));
      cbn [negb]; rewrite ?Hnil; reflexivity.
Qed.

Lemma mismatch_is_flagged_not_written_witness :
  exists m : string,
    mismatch_message (sample_record "Hiram" "Maxim" (Some "2030-01-02"))
      (Py.rstrip_char "," "Hiram,") (Some "Percy") = Ok m
    /\ insert_or_update_callsign_in_db (quiet_env (Ok sample_xml))
         (sample_record "Hiram" "Maxim" (Some "2030-01-02")) false
         (world_of {["W1AW" := sample_row "Hiram," "Percy" "Active"]})
       = (append_mismatch m
            (print m (world_of {["W1AW" := sample_row "Hiram," "Percy" "Active"]})), None)
    /\ m = "No update performed for callsign W1AW due to mismatch in first or last name."
           +:+ nl +:+ "Last name mismatch: DB = Percy, QRZ = Maxim" +:+ nl.
Proof.
  assert (Hr : db (world_of {["W1AW" := sample_row "Hiram," "Percy" "Active"]}) !! "W1AW"
               = Some (sample_row "Hiram," "Percy" "Active")) by (vm_compute; reflexivity).
  assert (Hn : names_match (sample_record "Hiram" "Maxim" (Some "2030-01-02"))
                 (Py.rstrip_char "," "Hiram,") (Some "Percy") = Ok false)
    by (vm_compute; reflexivity).
  destruct (mismatch_is_flagged_not_written (quiet_env (Ok sample_xml))
              (sample_record "Hiram" "Maxim" (Some "2030-01-02")) "W1AW" "Hiram," "Percy"
              (sample_row "Hiram," "Percy" "Active") (mkDate 2030 1 2) false
              (world_of {["W1AW" := sample_row "Hiram," "Percy" "Active"]})
              eq_refl eq_refl Hr eq_refl eq_refl Hn (fun _ => eq_refl))
    as (m & Hm & Hrun & _ & Htext).
  exists m. split; [exact Hm|]. split; [exact Hrun|].
  rewrite Htext. vm_compute. reflexivity.
Defined.

(** ** Further properties of the identifier cleaning *)

Ltac only_char c := destruct c as [[] [] [] [] [] [] [] []]; try reflexivity; try discriminate.

Lemma sk_match_some (s r' : string) :
  sk_match s = Some r' ->
  exists d, s = String "/" (String "S" (String "K" (String d r'))) /\ Py.is_digit d = true.
Proof.
  unfold sk_match. intros H.
  destruct s as [|c1 s]; [discriminate|]. only_char c1.
  destruct s as [|c2 s]; [discriminate|]. only_char c2.
  destruct s as [|c3 s]; [discriminate|]. only_char c3.
  destruct s as [|d s]; [discriminate|].
  destruct (Py.is_digit d) eqn:Hd; [|discriminate].
  injection H as <-. now exists d.
Qed.

(** One step of the scan. *)
Lemma re_sub_sk_from_step (in_digits : bool) (c : ascii) (r : string) :
  re_sub_sk_from in_digits (String c r)
  = if in_digits && Py.is_digit c then re_sub_sk_from true r
    else match sk_match (String c r) with
         | Some r' => re_sub_sk_from true r'
         | None => String c (re_sub_sk_from false r)
         end.
Proof.
  cbn [re_sub_sk_from]. destruct (in_digits && Py.is_digit c); [reflexivity|].
  unfold sk_match.
  only_char c. destruct r as [|c2 r]; [reflexivity|].
  only_char c2. destruct r as [|c3 r]; [reflexivity|].
  only_char c3. destruct r as [|d r]; [reflexivity|].
  destruct (Py.is_digit d); reflexivity.
Qed.

Lemma re_sub_sk_digits (ds : string) :
  all_chars Py.is_digit ds = true -> re_sub_sk_from true ds = EmptyString.
Proof.
  induction ds as [|c r IH]; [reflexivity|]. cbn [all_chars].
  intros H. apply andb_true_iff in H as [Hc Hr].
  rewrite re_sub_sk_from_step, Hc. cbn [andb]. auto.
Qed.

Lemma sk_match_needs_slash (c : ascii) (r : string) :
  negb (Ascii.eqb "/" c) = true -> sk_match (String c r) = None.
Proof.
  intros H. destruct (sk_match (String c r)) as [r'|] eqn:E; [|reflexivity].
  apply sk_match_some in E as (d & E & _). injection E as -> _. discriminate.
Qed.

Lemma re_sub_sk_slash_free (p r : string) :
  all_chars (fun c => negb (Ascii.eqb "/" c)) p = true ->
  re_sub_sk_from false (p +:+ r) = p +:+ re_sub_sk_from false r.
Proof.
  induction p as [|c p IH]; [reflexivity|]. cbn [all_chars].
  intros H. apply andb_true_iff in H as [Hc Hp].
  change (String c p +:+ r) with (String c (p +:+ r)).
  rewrite re_sub_sk_from_step. cbn [andb].
  rewrite (sk_match_needs_slash _ _ Hc), (IH Hp). reflexivity.
Qed.

(** X7.  An identifier whose upper-case form is a text without [/] followed
    by [/SK] and digits is cleaned to that text: the case of the
    specification's example. *)
Theorem clean_callsign_trailing_suffix (s p ds : string) :
  Py.upper s = p +:+ "/SK" +:+ ds ->
  all_chars (fun c => negb (Ascii.eqb "/" c)) p = true ->
  Py.nonempty ds = true ->
  all_chars Py.is_digit ds = true ->
  clean_callsign s = p.
Proof.
  intros Hu Hp Hne Hds. unfold clean_callsign, re_sub_sk. rewrite Hu.
  rewrite re_sub_sk_slash_free by assumption.
  destruct ds as [|d ds]; [discriminate|]. cbn [all_chars] in Hds.
  apply andb_true_iff in Hds as [Hd Hds].
  change ("/SK" +:+ String d ds) with (String "/" (String "S" (String "K" (String d ds)))).
  rewrite re_sub_sk_from_step. cbn [andb]. unfold sk_match. rewrite Hd.
  rewrite (re_sub_sk_digits _ Hds).
  clear. induction p as [|c p IH]; [reflexivity|].
  change (String c (p +:+ EmptyString) = String c p). now rewrite IH.
Qed.

Lemma clean_callsign_trailing_suffix_witness : clean_callsign "kb7ouu/sk2025" = "KB7OUU".
Proof.
  apply (clean_callsign_trailing_suffix "kb7ouu/sk2025" "KB7OUU" "2025"); reflexivity.
Defined.

Lemma to_upper_not_lower (c : ascii) : negb (Py.is_lower (Py.to_upper c)) = true.
Proof. by_char c. Qed.

Lemma upper_has_no_lower (s : string) :
  all_chars (fun c => negb (Py.is_lower c)) (Py.upper s) = true.
Proof.
  induction s as [|c r IH]; [reflexivity|]. cbn [Py.upper all_chars].
  now rewrite to_upper_not_lower, IH.
Qed.

(** The scan only deletes: what holds of every character of the text holds
    of every character of the result. *)
Lemma re_sub_sk_keeps_all (q : ascii -> bool) (n : nat) :
  forall (s : string) (in_digits : bool),
    (Py.len s <= n)%nat -> all_chars q s = true ->
    all_chars q (re_sub_sk_from in_digits s) = true.
Proof.
  induction n as [|n IH]; intros s b Hlen Hall.
  - destruct s; [reflexivity | simpl in Hlen; lia].
  - destruct s as [|c r]; [reflexivity|].
    cbn [all_chars] in Hall. apply andb_true_iff in Hall as [Hc Hr].
    assert (Hlr : (Py.len r <= n)%nat) by (simpl in Hlen; lia).
    rewrite re_sub_sk_from_step.
    destruct (b && Py.is_digit c); [now apply IH|].
    destruct (sk_match (String c r)) as [r'|] eqn:E.
    + apply sk_match_some in E as (d & E & _). injection E as -> ->.
      cbn [all_chars] in Hr. simpl in Hlr.
      repeat (apply andb_true_iff in Hr as [_ Hr]).
      apply IH; [lia | assumption].
    + cbn [all_chars]. rewrite Hc. cbn [andb]. now apply IH.
Qed.

(** X8.  The cleaned identifier holds no lower-case letter. *)
Theorem clean_callsign_is_upper (callsign : string) :
  all_chars (fun c => negb (Py.is_lower c)) (clean_callsign callsign) = true.
Proof.
  unfold clean_callsign, re_sub_sk.
  apply (re_sub_sk_keeps_all _ (Py.len (Py.upper callsign))); [lia|].
  apply upper_has_no_lower.
Qed.

Lemma insert_or_update_skips_invalid_date_witness :
  insert_or_update_callsign_in_db (quiet_env (Ok sample_xml))
    (sample_record "Hiram" "Maxim" (Some "2030-02-30")) true (world_of ∅)
  = (world_of ∅, None)
  /\ insert_or_update_callsign_in_db (quiet_env (Ok sample_xml))
       (sample_record "Hiram" "Maxim" None) true (world_of ∅)
     = (world_of ∅, None).
Proof.
  split.
  - apply (insert_or_update_skips_invalid_date (quiet_env (Ok sample_xml))
             (sample_record "Hiram" "Maxim" (Some "2030-02-30"))
             (ValueError "day is out of range for month")); reflexivity.
  - apply (insert_or_update_skips_invalid_date (quiet_env (Ok sample_xml))
             (sample_record "Hiram" "Maxim" None)
             (TypeError "strptime() argument 1 must be str, not None")); reflexivity.
Defined.

(** ** Which rows a call can touch *)

Lemma writes_at_most_same (k : string) (w w' : World) :
  db w' = db w -> writes_at_most k w w'.
Proof. intros E k'. rewrite E. auto. Qed.

Lemma writes_at_most_trans (k : string) (w1 w2 w3 : World) :
  writes_at_most k w1 w2 -> writes_at_most k w2 w3 -> writes_at_most k w1 w3.
Proof.
  intros H12 H23 k'. destruct (H12 k') as [Ha Hb], (H23 k') as [Hc Hd]. split.
  - intros Hne. now rewrite Hc, Ha.
  - auto.
Qed.

Lemma writes_at_most_insert (k : string) (row : Row) (w w' : World) :
  db w' = <[k := row]> (db w) -> writes_at_most k w w'.
Proof.
  intros E k'. rewrite E. split.
  - intros Hne. now rewrite lookup_insert_ne.
  - intros Hs. destruct (decide (k = k')) as [->|Hne].
    + rewrite lookup_insert_eq. eauto.
    + now rewrite lookup_insert_ne.
Qed.

Lemma insert_or_update_writes_at_most (env : Env) (c : Callsign) (k : string)
    (debug : bool) (w : World) :
  call c = Some k ->
  writes_at_most k w (fst (insert_or_update_callsign_in_db env c debug w)).
Proof.
  intros Hk. unfold insert_or_update_callsign_in_db.
  assert (H : writes_at_most k w (fst (insert_or_update_try env c debug w))).
  { unfold insert_or_update_try, commit. rewrite Hk.
    repeat (split_match; cbn [fst snd]); try (apply writes_at_most_same; reflexivity).
    all: try (apply writes_at_most_same; destruct debug; reflexivity).
    all: destruct debug; eapply writes_at_most_insert; reflexivity. }
  intros k'. rewrite except_pyodbc_db. apply H.
Qed.

Lemma update_to_inactive_writes_at_most (env : Env) (k : string) (debug : bool) (w : World) :
  writes_at_most k w (fst (update_callsign_status_to_inactive_if_needed env k debug w)).
Proof.
  unfold update_callsign_status_to_inactive_if_needed.
  assert (H : writes_at_most k w (fst (update_to_inactive_try env k debug w))).
  { unfold update_to_inactive_try, commit.
    repeat (split_match; cbn [fst snd]); try (apply writes_at_most_same; reflexivity).
    all: try (apply writes_at_most_same; destruct debug; reflexivity).
    all: destruct debug; eapply writes_at_most_insert; reflexivity. }
  intros k'. rewrite except_pyodbc_db. apply H.
Qed.

Lemma check_callsign_status_writes_at_most (env : Env) (k : string) (c : Callsign)
    (update debug : bool) (w : World) :
  call c = Some k ->
  writes_at_most k w (fst (check_callsign_status env k c update debug w)).
Proof.
  intros Hk. unfold check_callsign_status.
  assert (H : writes_at_most k w (fst (check_status_try env k c update debug w))).
  { unfold check_status_try.
    repeat (split_match; cbn [fst snd]); try (apply writes_at_most_same; reflexivity).
    all: try (apply writes_at_most_same; destruct debug; reflexivity).
    all: (eapply writes_at_most_trans;
          [|apply insert_or_update_writes_at_most; exact Hk]);
      apply writes_at_most_same; destruct debug; reflexivity. }
  intros k'. rewrite except_pyodbc_db. apply H.
Qed.

Lemma process_callsign_writes_at_most (env : Env) (session_key callsign : string)
    (update checkstatus debug : bool) (w : World) :
  writes_at_most (clean_callsign callsign) w
    (process_callsign env session_key callsign update checkstatus debug w).
Proof.
  set (k := clean_callsign callsign).
  assert (Htry : writes_at_most k w
            (fst (process_try env session_key k update checkstatus debug w))).
  { unfold process_try.
    destruct (get_callsign_data env session_key k) as [xml|e];
      [|apply writes_at_most_same; reflexivity].
    destruct (parse_callsign_data xml) as [parsed|e];
      [|apply writes_at_most_same; reflexivity].
    set (w1 := when_debug debug (trace "Fetched data") w).
    assert (H1 : writes_at_most k w w1)
      by (apply writes_at_most_same; subst w1; destruct debug; reflexivity).
    assert (Hc : call (set_call k parsed) = Some k) by reflexivity.
    destruct checkstatus.
    - pose proof (check_callsign_status_writes_at_most env k (set_call k parsed)
                    update debug w1 Hc) as H2.
      destruct (check_callsign_status env k (set_call k parsed) update debug w1)
        as [w2 [e|]]; cbn [fst] in *.
      + eapply writes_at_most_trans; eassumption.
      + destruct update; cbn [fst].
        * eapply writes_at_most_trans;
            [|apply insert_or_update_writes_at_most; exact Hc].
          eapply writes_at_most_trans; eassumption.
        * eapply writes_at_most_trans; eassumption.
    - destruct update; cbn [fst]; [|assumption].
      eapply writes_at_most_trans;
        [eassumption | apply insert_or_update_writes_at_most; exact Hc]. }
  unfold process_callsign. fold k.
  destruct (process_try env session_key k update checkstatus debug w) as [w1 [e|]];
    cbn [fst] in Htry; [|assumption].
  destruct (Py.contains "Not found" (str_exn e)).
  - pose proof (update_to_inactive_writes_at_most env k debug w1) as H2.
    destruct (update_callsign_status_to_inactive_if_needed env k debug w1) as [w2 e2];
      cbn [fst] in H2.
    eapply writes_at_most_trans; eassumption.
  - eapply writes_at_most_trans; [eassumption|]. now apply writes_at_most_same.
Qed.

(** X9.  Processing an identifier touches at most one row, that of the
    cleaned identifier: every other row is afterwards what it was, a row
    that appears has the cleaned identifier as its key (which holds no
    lower-case letter), and no row disappears.  This holds for every reply
    of the lookup service, every flag and every failure of the driver. *)
Theorem process_callsign_touches_one_row (env : Env) (session_key callsign : string)
    (update checkstatus debug : bool) (w : World) (k : string) :
  (k <> clean_callsign callsign ->
   db (process_callsign env session_key callsign update checkstatus debug w) !! k
   = db w !! k)
  /\ (db w !! k = None ->
      is_Some (db (process_callsign env session_key callsign update checkstatus debug w)
               !! k) ->
      k = clean_callsign callsign
      /\ all_chars (fun c => negb (Py.is_lower c)) k = true)
  /\ (is_Some (db w !! k) ->
      is_Some (db (process_callsign env session_key callsign update checkstatus debug w)
               !! k)).
Proof.
  destruct (process_callsign_writes_at_most env session_key callsign
              update checkstatus debug w k) as [Hother Hstay].
  split; [exact Hother|]. split; [|exact Hstay].
  intros Hnone Hsome.
  destruct (decide (k = clean_callsign callsign)) as [->|Hne].
  - split; [reflexivity|].
    unfold clean_callsign, re_sub_sk.
    apply (re_sub_sk_keeps_all _ (Py.len (Py.upper callsign))); [lia|].
    apply upper_has_no_lower.
  - rewrite (Hother Hne), Hnone in Hsome. destruct Hsome as [? ?]. discriminate.
Qed.

Lemma process_all_rows (env : Env) (session_key : string) (callsigns : list string)
    (update checkstatus debug : bool) (w : World) (k : string) :
  ((forall c, In c callsigns -> clean_callsign c <> k) ->
   db (process_all env session_key callsigns update checkstatus debug w) !! k
   = db w !! k)
  /\ (is_Some (db w !! k) ->
      is_Some (db (process_all env session_key callsigns update checkstatus debug w)
               !! k)).
Proof.
  unfold process_all. revert w.
  induction callsigns as [|c cs IH]; intros w; cbn [fold_left]; [auto|].
  destruct (process_callsign_writes_at_most env session_key c update checkstatus debug
              w k) as [Hother Hstay].
  destruct (IH (process_callsign env session_key c update checkstatus debug w))
    as [IH1 IH2].
  split.
  - intros Hno. rewrite IH1 by (intros c' Hc'; apply Hno; now right).
    apply Hother. intros ->. now apply (Hno c); [left|].
  - auto.
Qed.

(** X10.  A batch never deletes a row, and it leaves every row alone whose
    key is not the cleaned form of one of the identifiers of the batch. *)
Theorem process_all_touches_cleaned_rows_only (env : Env) (session_key : string)
    (callsigns : list string) (update checkstatus debug : bool) (w : World)
    (k : string) (r : Row) :
  db w !! k = Some r ->
  is_Some (db (process_all env session_key callsigns update checkstatus debug w) !! k)
  /\ ((forall c, In c callsigns -> clean_callsign c <> k) ->
      db (process_all env session_key callsigns update checkstatus debug w) !! k
      = Some r).
Proof.
  intros Hr.
  destruct (process_all_rows env session_key callsigns update checkstatus debug w k)
    as [Hother Hstay].
  split; [apply Hstay; eauto|].
  intros Hno. now rewrite (Hother Hno).
Qed.

Lemma process_all_touches_cleaned_rows_only_witness :
  is_Some (db (process_all (quiet_env (Ok sample_xml)) "key" ["kb7ouu/sk2025"]
                 true true false
                 (world_of {["KB7OUU/SK2025" := sample_row "Hiram" "Maxim" "Active"]}))
           !! "KB7OUU/SK2025")
  /\ db (process_all (quiet_env (Ok sample_xml)) "key" ["kb7ouu/sk2025"]
           true true false
           (world_of {["KB7OUU/SK2025" := sample_row "Hiram" "Maxim" "Active"]}))
        !! "KB7OUU/SK2025"
     = Some (sample_row "Hiram" "Maxim" "Active").
Proof.
  assert (Hr : db (world_of {["KB7OUU/SK2025" := sample_row "Hiram" "Maxim" "Active"]})
               !! "KB7OUU/SK2025" = Some (sample_row "Hiram" "Maxim" "Active"))
    by (vm_compute; reflexivity).
  destruct (process_all_touches_cleaned_rows_only (quiet_env (Ok sample_xml)) "key"
              ["kb7ouu/sk2025"] true true false _ _ _ Hr) as [H1 H2].
  split; [exact H1|]. apply H2.
  intros c [<-|[]]. vm_compute. discriminate.
Defined.

(** ** Refreshing the table *)

Lemma stored_keys_spec (t : gmap string Row) (c : string) :
  In c (stored_keys t) <-> is_Some (t !! c).
Proof.
  unfold stored_keys. rewrite in_map_iff. split.
  - intros [[k r] [<- Hin]]. apply list_elem_of_In, elem_of_map_to_list in Hin.
    cbn [fst]. eauto.
  - intros [r Hr]. exists (c, r). split; [reflexivity|].
    now apply list_elem_of_In, elem_of_map_to_list.
Qed.

(** X11.  A refresh of the table, whatever the session request, the driver
    and the lookups do: no stored row disappears; a row with a protected
    status is left as it is; and, the listing holding stored identifiers
    only, a row is left as it is when no stored identifier is cleaned to its
    key, as the row of a key that carries a silent-key tag itself. *)
Theorem refresh_database_rows (env : Env) (username password agent : string)
    (refresh_fault : DbOp -> option string) (fetchall : gmap string Row -> list string)
    (update checkstatus debug : bool) (w : World) (k : string) (r : Row) :
  db w !! k = Some r ->
  is_Some (db (fst (refresh_database env username password agent refresh_fault
                      fetchall update checkstatus debug w)) !! k)
  /\ (protected env (col_Status r) = true ->
      db (fst (refresh_database env username password agent refresh_fault
                 fetchall update checkstatus debug w)) !! k = Some r)
  /\ ((forall c, In c (fetchall (db w)) -> is_Some (db w !! c)) ->
      (forall c, is_Some (db w !! c) -> clean_callsign c <> k) ->
      db (fst (refresh_database env username password agent refresh_fault
                 fetchall update checkstatus debug w)) !! k = Some r).
Proof.
  intros Hr. unfold refresh_database. rewrite except_pyodbc_db.
  destruct (get_qrz_session_key env username password agent) as [key|e];
    [|cbn [fst]; eauto].
  destruct (refresh_fault Connect); [cbn [fst]; eauto|].
  destruct (refresh_fault Select); [cbn [fst]; eauto|].
  cbn [fst].
  set (w1 := when_debug debug (trace "Total records to process") w).
  assert (E : db w1 = db w) by (subst w1; destruct debug; reflexivity).
  assert (Hr1 : db w1 !! k = Some r) by now rewrite E.
  destruct (process_all_rows env (Py.render key) (fetchall (db w)) update checkstatus
              debug w1 k) as [Hother Hstay].
  split; [apply Hstay; eauto|]. split.
  - intros Hp. now apply process_all_keeps.
  - intros Hlist Hno. rewrite Hother; [assumption|].
    intros c Hc. apply Hno, Hlist, Hc.
Qed.

Lemma refresh_database_rows_witness :
  is_Some (db (fst (refresh_database (quiet_env (Ok sample_xml)) "user" "secret" "agent"
                      (fun _ => None) stored_keys true true false
                      (world_of {["KB7OUU/SK2025" := sample_row "Hiram" "Maxim" "Active"]})))
           !! "KB7OUU/SK2025")
  /\ db (fst (refresh_database (quiet_env (Ok sample_xml)) "user" "secret" "agent"
                (fun _ => None) stored_keys true true false
                (world_of {["KB7OUU/SK2025" := sample_row "Hiram" "Maxim" "Active"]})))
        !! "KB7OUU/SK2025"
     = Some (sample_row "Hiram" "Maxim" "Active").
Proof.
  assert (Hr : db (world_of {["KB7OUU/SK2025" := sample_row "Hiram" "Maxim" "Active"]})
               !! "KB7OUU/SK2025" = Some (sample_row "Hiram" "Maxim" "Active"))
    by (vm_compute; reflexivity).
  destruct (refresh_database_rows (quiet_env (Ok sample_xml)) "user" "secret" "agent"
              (fun _ => None) stored_keys true true false _ _ _ Hr) as (H1 & _ & H3).
  split; [exact H1|]. apply H3.
  - intros c Hc. now apply stored_keys_spec.
  - intros c [r' Hc]. cbn [db world_of] in Hc.
    apply lookup_singleton_Some in Hc as [<- _]. vm_compute. discriminate.
Defined.

(** ** Exceptions that cannot be taken for a missing callsign *)

Lemma find_from_found_shift (sub s : string) (i : Z) :
  0 <= i -> (Py.find_from i sub s =? -1) = (Py.find_from 0 sub s =? -1).
Proof.
  revert i. induction s as [|c r IH]; intros i Hi; cbn [Py.find_from].
  - destruct (Py.startswith sub EmptyString); [|reflexivity].
    destruct (Z.eqb_spec i (-1)); [lia | reflexivity].
  - destruct (Py.startswith sub (String c r)).
    + destruct (Z.eqb_spec i (-1)); [lia | reflexivity].
    + rewrite (IH (i + 1)), (IH (0 + 1)) by lia. reflexivity.
Qed.

Lemma contains_cons (sub : string) (c : ascii) (r : string) :
  Py.contains sub (String c r) = Py.startswith sub (String c r) || Py.contains sub r.
Proof.
  unfold Py.contains, Py.find. cbn [Py.find_from].
  destruct (Py.startswith sub (String c r)); [reflexivity|].
  cbn [orb]. now rewrite (find_from_found_shift sub r (0 + 1)) by lia.
Qed.

(** Text without the letter N before [x] adds no occurrence of [Not found]. *)
Lemma not_found_after_prefix (a x : string) :
  all_chars (fun c => negb (Ascii.eqb "N" c)) a = true ->
  Py.contains "Not found" (a +:+ x) = Py.contains "Not found" x.
Proof.
  induction a as [|c a IH]; [reflexivity|]. cbn [all_chars].
  intros H. apply andb_true_iff in H as [Hc Ha].
  change (String c a +:+ x) with (String c (a +:+ x)).
  rewrite contains_cons, (IH Ha). cbn [Py.startswith].
  apply negb_true_iff in Hc. now rewrite Hc.
Qed.

(** Text without a space before [y] adds no occurrence either, unless [y]
    starts with the rest of the words. *)
Lemma not_found_after_spaceless (s y : string) :
  all_chars (fun c => negb (Ascii.eqb " " c)) s = true ->
  Py.startswith "ot found" y = false ->
  Py.startswith "t found" y = false ->
  Py.startswith " found" y = false ->
  Py.contains "Not found" (s +:+ y) = Py.contains "Not found" y.
Proof.
  intros Hs H1 H2 H3. induction s as [|c s IH]; [reflexivity|].
  cbn [all_chars] in Hs. apply andb_true_iff in Hs as [Hc Hs].
  change (String c s +:+ y) with (String c (s +:+ y)).
  rewrite contains_cons, (IH Hs).
  replace (Py.startswith "Not found" (String c (s +:+ y))) with false; [reflexivity|].
  symmetry. cbn [Py.startswith].
  destruct (Ascii.eqb "N" c); [|reflexivity].
  destruct s as [|c2 s]; [exact H1|].
  change (String c2 s +:+ y) with (String c2 (s +:+ y)). cbn [Py.startswith].
  destruct (Ascii.eqb "o" c2); [|reflexivity].
  destruct s as [|c3 s]; [exact H2|].
  change (String c3 s +:+ y) with (String c3 (s +:+ y)). cbn [Py.startswith].
  destruct (Ascii.eqb "t" c3); [|reflexivity].
  destruct s as [|c4 s]; [exact H3|].
  change (String c4 s +:+ y) with (String c4 (s +:+ y)). cbn [Py.startswith].
  cbn [all_chars] in Hs.
  apply andb_true_iff in Hs as [_ Hs]. apply andb_true_iff in Hs as [_ Hs].
  apply andb_true_iff in Hs as [H4 _]. apply negb_true_iff in H4. now rewrite H4.
Qed.

Lemma first_success_some (A B : Type) (k : A -> option B) (alts : list A) (b : B) :
  first_success k alts = Some b -> exists a, In a alts /\ k a = Some b.
Proof.
  induction alts as [|a rest IH]; [discriminate|]. cbn [first_success].
  destruct (k a) as [b'|] eqn:E.
  - intros [= <-]. exists a. split; [now left | assumption].
  - intros H. destruct (IH H) as (a' & Hin & Ha'). exists a'. split; [now right | assumption].
Qed.

Lemma in_app_singleton (A : Type) (x : A) (b : bool) (y : A) : In x (if b then [y] else []) -> x = y.
Proof. destruct b; [intros [<-|[]]; reflexivity | intros []]. Qed.

Lemma month_alts_rest (p : ascii -> bool) (s rest : string) (v : Z) :
  all_chars p s = true -> In (v, rest) (month_alts s) -> all_chars p rest = true.
Proof.
  intros Hs Hin. unfold month_alts in Hin.
  destruct s as [|a r]; [destruct Hin|].
  cbn [all_chars] in Hs. apply andb_true_iff in Hs as [_ Hr].
  apply in_app_or in Hin as [Hin|Hin].
  - destruct r as [|b r']; [destruct Hin|].
    cbn [all_chars] in Hr. apply andb_true_iff in Hr as [_ Hr'].
    apply in_app_or in Hin as [Hin|Hin];
      apply in_app_singleton in Hin; injection Hin as _ ->; exact Hr'.
  - apply in_app_singleton in Hin. injection Hin as _ ->. exact Hr.
Qed.

Lemma day_alts_rest (p : ascii -> bool) (s rest : string) (v : Z) :
  all_chars p s = true -> In (v, rest) (day_alts s) -> all_chars p rest = true.
Proof.
  intros Hs Hin. unfold day_alts in Hin.
  destruct s as [|a r]; [destruct Hin|].
  cbn [all_chars] in Hs. apply andb_true_iff in Hs as [_ Hr].
  apply in_app_or in Hin as [Hin|Hin]; [|apply in_app_or in Hin as [Hin|Hin]].
  - destruct r as [|b r']; [destruct Hin|].
    cbn [all_chars] in Hr. apply andb_true_iff in Hr as [_ Hr'].
    apply in_app_or in Hin as [Hin|Hin]; [|apply in_app_or in Hin as [Hin|Hin]];
      apply in_app_singleton in Hin; injection Hin as _ ->; exact Hr'.
  - apply in_app_singleton in Hin. injection Hin as _ ->. exact Hr.
  - destruct r as [|b r']; [destruct Hin|].
    cbn [all_chars] in Hr. apply andb_true_iff in Hr as [_ Hr'].
    apply in_app_singleton in Hin. injection Hin as _ ->. exact Hr'.
Qed.

(** What [strptime] leaves unconverted is a part of the text. *)
Lemma match_ymd_rest (p : ascii -> bool) (s rest : string) (y m d : Z) :
  all_chars p s = true -> match_ymd s = Some (y, m, d, rest) -> all_chars p rest = true.
Proof.
  intros Hs H. unfold match_ymd in H.
  destruct s as [|y1 [|y2 [|y3 [|y4 [|dash r]]]]]; try discriminate.
  assert (Hr : all_chars p r = true).
  { cbn [all_chars] in Hs. repeat (apply andb_true_iff in Hs as [_ Hs]). exact Hs. }
  clear Hs.
  destruct (Ascii.eqb_spec dash "-") as [->|Hne];
    [|destruct dash as [[] [] [] [] [] [] [] []]; try discriminate; now contradiction Hne].
  destruct (Py.is_digit y1 && Py.is_digit y2 && Py.is_digit y3 && Py.is_digit y4);
    [|discriminate].
  apply first_success_some in H as ([mv r1] & Hin1 & H).
  pose proof (month_alts_rest p r r1 mv Hr Hin1) as Hr1.
  destruct r1 as [|dash r2]; [discriminate|].
  destruct (Ascii.eqb_spec dash "-") as [->|Hne];
    [|destruct dash as [[] [] [] [] [] [] [] []]; try discriminate; now contradiction Hne].
  cbn [all_chars] in Hr1. apply andb_true_iff in Hr1 as [_ Hr2].
  apply first_success_some in H as ([dv r3] & Hin3 & H).
  injection H as _ _ _ <-.
  exact (day_alts_rest p r2 r3 dv Hr2 Hin3).
Qed.

(** The text of an exception of [strptime] holds [Not found] for no value
    without a space, and not for [None]. *)
Lemma strptime_error_text (value : option string) (e : Exn) :
  match value with
  | Some s => all_chars (fun c => negb (Ascii.eqb " " c)) s = true
  | None => True
  end ->
  strptime value = Raise e ->
  Py.contains "Not found" (str_exn e) = false.
Proof.
  intros Hv H. unfold strptime in H.
  destruct value as [s|]; [|injection H as <-; reflexivity].
  destruct (match_ymd s) as [[[[y m] d] rest]|] eqn:Em.
  - destruct (Py.nonempty rest).
    + injection H as <-. cbn [str_exn].
      rewrite not_found_after_prefix by reflexivity.
      pose proof (match_ymd_rest _ s rest y m d Hv Em) as Hrest.
      replace rest with (rest +:+ EmptyString).
      * now rewrite not_found_after_spaceless.
      * clear. induction rest as [|c r IH]; [reflexivity|].
        change (String c (r +:+ EmptyString) = String c r). now rewrite IH.
    + destruct (y <? 1); [injection H as <-; reflexivity|].
      destruct (days_in_month y m <? d); [injection H as <-; reflexivity | discriminate].
  - injection H as <-. cbn [str_exn].
    change ("time data '" +:+ s +:+ "' does not match format '%Y-%m-%d'")
      with ("time data '" +:+ (s +:+ "' does not match format '%Y-%m-%d'")).
    rewrite not_found_after_prefix by reflexivity.
    now rewrite not_found_after_spaceless.
Qed.

(** ** The record of a reply *)

Lemma pieces_sep_free (sep : ascii -> bool) (s : string) :
  Forall (fun w => all_chars (fun c => negb (sep c)) w = true) (Py.pieces sep s).
Proof.
  induction s as [|c r IH]; cbn [Py.pieces]; [repeat constructor|].
  destruct (sep c) eqn:Hc.
  - constructor; [reflexivity | exact IH].
  - destruct (Py.pieces sep r) as [|w ws];
      [repeat constructor; cbn [all_chars]; now rewrite Hc|].
    inversion IH as [|? ? Hw Hws]; subst.
    constructor; [cbn [all_chars]; now rewrite Hc, Hw | exact Hws].
Qed.

Lemma pieces_keep_all (p sep : ascii -> bool) (s : string) :
  all_chars p s = true -> Forall (fun w => all_chars p w = true) (Py.pieces sep s).
Proof.
  induction s as [|c r IH]; cbn [Py.pieces all_chars]; [repeat constructor|].
  intros H. apply andb_true_iff in H as [Hc Hr]. specialize (IH Hr).
  destruct (sep c); [constructor; [reflexivity | exact IH]|].
  destruct (Py.pieces sep r) as [|w ws];
    [repeat constructor; cbn [all_chars]; now rewrite Hc|].
  inversion IH as [|? ? Hw Hws]; subst.
  constructor; [cbn [all_chars]; now rewrite Hc, Hw | exact Hws].
Qed.

Lemma first_keeps_all (p : ascii -> bool) (ws : list string) :
  Forall (fun w => all_chars p w = true) ws -> all_chars p (Py.first ws) = true.
Proof. destruct 1; [reflexivity | assumption]. Qed.

Lemma all_chars_app (p : ascii -> bool) (a b : string) :
  all_chars p (a +:+ b) = all_chars p a && all_chars p b.
Proof.
  induction a as [|c a IH]; [reflexivity|].
  change (String c a +:+ b) with (String c (a +:+ b)). cbn [all_chars].
  now rewrite IH, andb_assoc.
Qed.

Lemma join_keeps_all (p : ascii -> bool) (ws : list string) :
  p " "%char = true ->
  Forall (fun w => all_chars p w = true) ws -> all_chars p (Py.join " " ws) = true.
Proof.
  intros Hsp. induction 1 as [|w l Hw Hl IH]; [reflexivity|].
  destruct l as [|w' l]; [exact Hw|].
  change (Py.join " " (w :: w' :: l)) with (w +:+ String " " (Py.join " " (w' :: l))).
  rewrite all_chars_app, Hw. cbn [all_chars andb]. now rewrite Hsp, IH.
Qed.

Lemma lstrip_keeps_all (p q : ascii -> bool) (s : string) :
  all_chars p s = true -> all_chars p (Py.lstrip_by q s) = true.
Proof.
  induction s as [|c r IH]; [reflexivity|]. cbn [Py.lstrip_by all_chars].
  intros H. destruct (q c); [|exact H].
  apply andb_true_iff in H as [_ Hr]. auto.
Qed.

Lemma rstrip_keeps_all (p q : ascii -> bool) (s : string) :
  all_chars p s = true -> all_chars p (Py.rstrip_by q s) = true.
Proof.
  induction s as [|c r IH]; [reflexivity|]. cbn [Py.rstrip_by all_chars].
  intros H. apply andb_true_iff in H as [Hc Hr]. specialize (IH Hr).
  destruct (Py.rstrip_by q r) as [|c' r'].
  - destruct (q c); [reflexivity|]. cbn [all_chars]. now rewrite Hc.
  - cbn [all_chars] in *. now rewrite Hc, IH.
Qed.

Lemma strip_keeps_all (p : ascii -> bool) (s : string) :
  all_chars p s = true -> all_chars p (Py.strip s) = true.
Proof. intros H. unfold Py.strip. now apply rstrip_keeps_all, lstrip_keeps_all. Qed.

Lemma title_char_comma (prev : bool) (c : ascii) :
  Ascii.eqb "," (if prev then Py.to_lower c else Py.to_upper c) = Ascii.eqb "," c.
Proof. destruct prev; by_char c. Qed.

Lemma title_from_comma_free (prev : bool) (s : string) :
  all_chars (fun c => negb (Ascii.eqb "," c)) s = true ->
  all_chars (fun c => negb (Ascii.eqb "," c)) (Py.title_from prev s) = true.
Proof.
  revert prev. induction s as [|c r IH]; intros prev H; [reflexivity|].
  cbn [all_chars Py.title_from] in *.
  apply andb_true_iff in H as [Hc Hr].
  now rewrite title_char_comma, Hc, (IH _ Hr).
Qed.

Lemma date_part_spaceless (v : option string) :
  match date_part v with
  | Some s => all_chars (fun c => negb (Ascii.eqb " " c)) s = true
  | None => True
  end.
Proof.
  destruct v as [s|]; [|exact I]. unfold date_part.
  destruct (Py.nonempty s) eqn:E.
  - apply first_keeps_all, pieces_sep_free.
  - now destruct s.
Qed.

(** The fields of a parsed record other than the names. *)
Lemma parse_callsign_data_fields (xml_data : string) (c : Callsign) :
  parse_callsign_data xml_data = Ok c ->
  call c = extract_xml_value xml_data "call"
  /\ license_start c = date_part (extract_xml_value xml_data "efdate")
  /\ license_end c = date_part (extract_xml_value xml_data "expdate")
  /\ license_class c = map_license_class (extract_xml_value xml_data "class")
  /\ status c = "Active".
Proof.
  unfold parse_callsign_data. cbv zeta. intros H.
  match type of H with
  | match ?names with Ok _ => _ | Raise _ => _ end = _ =>
      destruct names as [[fn ln]|e]; [|discriminate]
  end.
  injection H as <-. repeat split; reflexivity.
Qed.

(** The cleaned last name of a reply: the text before the first comma,
    stripped; an empty name is left as it is. *)
Lemma cleaned_name_comma_free (l : string) :
  all_chars (fun c => negb (Ascii.eqb "," c))
    (if Py.nonempty l then Py.strip (Py.first (Py.split_on "," l)) else l) = true.
Proof.
  destruct (Py.nonempty l) eqn:E; [|now destruct l].
  apply strip_keeps_all, first_keeps_all. unfold Py.split_on. apply pieces_sep_free.
Qed.

(** X12.  Whatever the reply holds, a record that is parsed from it has a
    last name without a comma, a license start and a license end without a
    space, one of the six class names, and the status [Active]. *)
Theorem parse_callsign_data_invariants (xml_data : string) (c : Callsign) :
  parse_callsign_data xml_data = Ok c ->
  all_chars (fun ch => negb (Ascii.eqb "," ch)) (last_name c) = true
  /\ match license_start c with
     | Some s => all_chars (fun ch => negb (Ascii.eqb " " ch)) s = true
     | None => True
     end
  /\ match license_end c with
     | Some s => all_chars (fun ch => negb (Ascii.eqb " " ch)) s = true
     | None => True
     end
  /\ In (license_class c)
        ["Extra"; "General"; "Technician"; "Advanced"; "Club"; "Unknown Class"]
  /\ status c = "Active".
Proof.
  intros H.
  destruct (parse_callsign_data_fields xml_data c H) as (_ & Hs & He & Hc & Hst).
  rewrite Hs, He, Hc, Hst.
  split; [|repeat split; try apply date_part_spaceless].
  - unfold parse_callsign_data in H.
    destruct (extract_xml_value xml_data "name") as [l|] eqn:El.
    + pose proof (cleaned_name_comma_free l) as Hl.
      destruct (Py.nonempty l) eqn:Enl;
        (destruct (extract_xml_value xml_data "fname") as [f|] eqn:Ef;
         [destruct (Py.nonempty f) eqn:Enf|]); cbn [Py.truthy negb] in H;
        rewrite ?Enf in H; cbn [negb] in H.
      all: injection H as <-; cbn [last_name].
      all: try (now apply title_from_comma_free).
      all: try (destruct (1 <? length _)%nat;
                [apply join_keeps_all; [reflexivity|];
                 match goal with
                 | |- Forall _ (tl ?l) =>
                     assert (Hall : Forall (fun w => all_chars
                               (fun ch => negb (Ascii.eqb "," ch)) w = true) l)
                       by (now apply pieces_keep_all);
                     destruct l; [constructor | now inversion Hall]
                 end
                | apply first_keeps_all; now apply pieces_keep_all]).
    + destruct (extract_xml_value xml_data "fname") as [f|]; cbn [Py.truthy negb] in H;
        [destruct (Py.nonempty f); cbn [negb] in H|]; discriminate.
  - clear. unfold map_license_class, dict_get.
    destruct (extract_xml_value xml_data "class") as [k|]; [|simpl; tauto].
    destruct (string_dec k "E") as [->|HE]; [simpl; tauto|].
    destruct (string_dec k "G") as [->|HG]; [simpl; tauto|].
    destruct (string_dec k "T") as [->|HT]; [simpl; tauto|].
    destruct (string_dec k "A") as [->|HA]; [simpl; tauto|].
    destruct (string_dec k "C") as [->|HC]; [simpl; tauto|].
    rewrite class_map_other by assumption. simpl; tauto.
Qed.

Lemma parse_callsign_data_invariants_witness :
  all_chars (fun ch => negb (Ascii.eqb "," ch)) "Smith" = true
  /\ True
  /\ all_chars (fun ch => negb (Ascii.eqb " " ch)) "2030-01-02" = true
  /\ In "Unknown Class"
        ["Extra"; "General"; "Technician"; "Advanced"; "Club"; "Unknown Class"]
  /\ "Active" = "Active".
Proof.
  exact (parse_callsign_data_invariants
           "<fname>bob</fname><name>smith, jr</name><expdate>2030-01-02 10:00:00</expdate>"
           (mkCallsign None None "Bob" "Smith" None None None None None None
              (Some "2030-01-02") "Unknown Class" None "Active")
           eq_refl).
Defined.

Lemma extract_none_iff_name (xml_data : string) :
  extract_xml_value xml_data "name" = None
  <-> Py.find xml_data ("</" +:+ "name" +:+ ">") = -1.
Proof.
  unfold extract_xml_value.
  pose proof (extract_start_positive xml_data "name") as Hs.
  destruct (Z.eqb_spec (Py.find xml_data ("<" +:+ "name" +:+ ">")
                        + Z.of_nat (Py.len ("<" +:+ "name" +:+ ">"))) (-1)) as [E|_]; [lia|].
  destruct (Z.eqb_spec (Py.find xml_data ("</" +:+ "name" +:+ ">")) (-1)) as [E|E];
    cbn [negb andb]; [tauto|].
  split; [discriminate | contradiction].
Qed.

(** X13.  A reply is parsed into a record exactly when it holds the end marker
    of the [name] element: without it the parser raises [AttributeError],
    whatever else the reply holds; with it the parser returns a record. *)
Theorem parse_callsign_data_needs_name (xml_data : string) :
  (extract_xml_value xml_data "name" = None ->
   exists msg, parse_callsign_data xml_data = Raise (AttributeError msg))
  /\ (forall l, extract_xml_value xml_data "name" = Some l ->
      exists c, parse_callsign_data xml_data = Ok c)
  /\ (Py.find xml_data "</name>" = -1 <-> exists e, parse_callsign_data xml_data = Raise e).
Proof.
  assert (H1 : extract_xml_value xml_data "name" = None ->
               exists msg, parse_callsign_data xml_data = Raise (AttributeError msg)).
  { intros E. unfold parse_callsign_data. rewrite E.
    destruct (extract_xml_value xml_data "fname") as [f|]; cbn [Py.truthy negb];
      [destruct (Py.nonempty f); cbn [negb]|]; eauto. }
  assert (H2 : forall l, extract_xml_value xml_data "name" = Some l ->
               exists c, parse_callsign_data xml_data = Ok c).
  { intros l E. unfold parse_callsign_data. rewrite E.
    destruct (Py.nonempty l);
      (destruct (extract_xml_value xml_data "fname") as [f|]; cbn [Py.truthy negb];
       [destruct (Py.nonempty f); cbn [negb]|]); eauto. }
  split; [exact H1|]. split; [exact H2|].
  change "</name>" with ("</" +:+ "name" +:+ ">"). rewrite <- extract_none_iff_name.
  split.
  - intros E. destruct (H1 E) as [msg Hm]. eauto.
  - intros [e He]. destruct (extract_xml_value xml_data "name") as [l|] eqn:E;
      [|reflexivity].
    destruct (H2 l eq_refl) as [c Hc]. congruence.
Qed.

Lemma parse_callsign_data_needs_name_example :
  exists msg,
    parse_callsign_data "<call>W1AW</call><fname>Hiram</fname>" = Raise (AttributeError msg).
Proof. eexists. reflexivity. Qed.

(** Joining the pieces of a text with the separator gives the text back. *)
Lemma join_pieces (s : string) : Py.join " " (Py.split_on " " s) = s.
Proof.
  unfold Py.split_on. induction s as [|c r IH]; [reflexivity|]. cbn [Py.pieces].
  pose proof (pieces_not_nil (Ascii.eqb " ") r) as Hne.
  destruct (Ascii.eqb_spec " " c) as [<-|_].
  - destruct (Py.pieces (Ascii.eqb " ") r) as [|w ws]; [contradiction|].
    change (Py.join " " (EmptyString :: w :: ws)) with (String " " (Py.join " " (w :: ws))).
    now rewrite IH.
  - destruct (Py.pieces (Ascii.eqb " ") r) as [|w ws]; [contradiction|].
    destruct ws as [|w' ws].
    + change (String c (Py.join " " [w]) = String c r). now rewrite IH.
    + change (String c (Py.join " " (w :: w' :: ws)) = String c r). now rewrite IH.
Qed.

Lemma several_pieces_iff_space (s : string) :
  (1 <? length (Py.split_on " " s))%nat = Py.contains " " s.
Proof.
  unfold Py.split_on. induction s as [|c r IH]; [reflexivity|].
  rewrite contains_cons. cbn [Py.pieces Py.startswith].
  pose proof (pieces_not_nil (Ascii.eqb " ") r) as Hne.
  destruct (Ascii.eqb " " c).
  - destruct (Py.pieces (Ascii.eqb " ") r); [contradiction | reflexivity].
  - cbn [orb]. rewrite <- IH.
    destruct (Py.pieces (Ascii.eqb " ") r); [contradiction | reflexivity].
Qed.

(** X14.  A reply without a first name (no [fname] element, or an empty one)
    and with a [name] element [l]: the name is cut at its first comma and
    stripped, and the result is divided at its first space.  The first name
    is the part before that space and holds no space; the first name, a
    space and the last name give the stripped name back.  Without a space
    both names are the stripped name. *)
Theorem parse_splits_name_without_first_name (xml_data l : string) :
  Py.truthy (extract_xml_value xml_data "fname") = false ->
  extract_xml_value xml_data "name" = Some l ->
  exists c,
    parse_callsign_data xml_data = Ok c
    /\ all_chars (fun ch => negb (Ascii.eqb " " ch)) (first_name c) = true
    /\ (if Py.contains " "
             (if Py.nonempty l then Py.strip (Py.first (Py.split_on "," l)) else l)
        then first_name c +:+ " " +:+ last_name c
             = (if Py.nonempty l then Py.strip (Py.first (Py.split_on "," l)) else l)
        else first_name c
             = (if Py.nonempty l then Py.strip (Py.first (Py.split_on "," l)) else l)
             /\ last_name c
                = (if Py.nonempty l then Py.strip (Py.first (Py.split_on "," l)) else l)).
Proof.
  intros Hf Hl. unfold parse_callsign_data. rewrite Hf, Hl. cbn [negb].
  set (l' := if Py.nonempty l then Py.strip (Py.first (Py.split_on "," l)) else l).
  assert (E : match (if Py.nonempty l
                     then Some (Py.strip (Py.first (Py.split_on "," l)))
                     else Some l) with
              | Some x => x = l'
              | None => False
              end) by (subst l'; destruct (Py.nonempty l); reflexivity).
  destruct (if Py.nonempty l then Some (Py.strip (Py.first (Py.split_on "," l)))
            else Some l) as [x|]; [subst x | contradiction].
  eexists. split; [reflexivity|]. cbn [first_name last_name].
  split.
  - apply first_keeps_all. unfold Py.split_on. apply pieces_sep_free.
  - rewrite several_pieces_iff_space.
    pose proof (join_pieces l') as Hj. pose proof (several_pieces_iff_space l') as Hn.
    destruct (Py.split_on " " l') as [|w [|w' ws]]; cbn [length Py.first tl] in *.
    + rewrite <- Hn. cbn. now subst.
    + rewrite <- Hn. cbn. cbn in Hj. now subst.
    + rewrite <- Hn. cbn [Nat.ltb Nat.leb]. exact Hj.
Qed.

Lemma parse_splits_name_without_first_name_witness :
  exists c,
    parse_callsign_data "<call>W1AW</call><name>  john q smith, jr </name>" = Ok c
    /\ all_chars (fun ch => negb (Ascii.eqb " " ch)) (first_name c) = true
    /\ first_name c +:+ " " +:+ last_name c = "john q smith".
Proof.
  exact (parse_splits_name_without_first_name
           "<call>W1AW</call><name>  john q smith, jr </name>" "  john q smith, jr "
           eq_refl eq_refl).
Defined.

(** ** What a lookup that succeeds cannot do *)

Lemma parse_error_text (xml_data : string) (e : Exn) :
  parse_callsign_data xml_data = Raise e -> Py.contains "Not found" (str_exn e) = false.
Proof.
  unfold parse_callsign_data. cbv zeta. intros H.
  match type of H with
  | match ?names with Ok _ => _ | Raise _ => _ end = _ =>
      destruct names as [[fn ln]|e'] eqn:En; [discriminate|]
  end.
  injection H as ->.
  repeat match type of En with
         | context [match ?x with _ => _ end] => destruct x
         | context [if ?b then _ else _] => destruct b
         end; try discriminate; injection En as <-; reflexivity.
Qed.

Lemma parsed_license_end_spaceless (xml_data : string) (c : Callsign) :
  parse_callsign_data xml_data = Ok c ->
  match license_end c with
  | Some s => all_chars (fun ch => negb (Ascii.eqb " " ch)) s = true
  | None => True
  end.
Proof.
  intros H. destruct (parse_callsign_data_fields xml_data c H) as (_ & _ & He & _).
  rewrite He. apply date_part_spaceless.
Qed.

Lemma strptime_no_pyodbc (value : option string) (e : Exn)
    (report : string -> string) (w : World) :
  strptime value = Raise e -> except_pyodbc report (w, Some e) = (w, Some e).
Proof.
  unfold strptime. intros H.
  repeat match type of H with
         | context [match ?x with _ => _ end] => destruct x
         | context [if ?b then _ else _] => destruct b
         end; try discriminate; injection H as <-; reflexivity.
Qed.

(** The end of [process_callsign] for an exception that is not taken for a
    missing callsign. *)
Lemma process_callsign_reports (env : Env) (session_key callsign : string)
    (update checkstatus debug : bool) (w w1 : World) (oe : option Exn) :
  process_try env session_key (clean_callsign callsign) update checkstatus debug w
  = (w1, oe) ->
  (forall e, oe = Some e -> Py.contains "Not found" (str_exn e) = false) ->
  same_store w1 (process_callsign env session_key callsign update checkstatus debug w).
Proof.
  intros Htry Hnf. unfold process_callsign. rewrite Htry.
  destruct oe as [e|]; [|repeat split].
  rewrite (Hnf e eq_refl). repeat split.
Qed.

Lemma same_store_trans (w1 w2 w3 : World) :
  same_store w1 w2 -> same_store w2 w3 -> same_store w1 w3.
Proof. intros (A & B & C) (D & E & F). repeat split; congruence. Qed.

Lemma same_store_debug (debug : bool) (f : World -> World) (w : World) :
  (forall v, same_store v (f v)) -> same_store w (when_debug debug f w).
Proof. intros H. destruct debug; [apply H | repeat split]. Qed.

Lemma insert_or_update_invalid_date (env : Env) (c : Callsign) (e : Exn)
    (debug : bool) (w : World) :
  strptime (license_end c) = Raise e ->
  same_store w (fst (insert_or_update_callsign_in_db env c debug w))
  /\ snd (insert_or_update_callsign_in_db env c debug w) = None.
Proof.
  intros Hd. unfold insert_or_update_callsign_in_db, insert_or_update_try, driver.
  rewrite Hd. destruct (fault env InInsertOrUpdate (Py.render (call c)) Connect);
    repeat split.
Qed.

Lemma check_callsign_status_invalid_date (env : Env) (k : string) (c : Callsign)
    (e : Exn) (update debug : bool) (w : World) :
  strptime (license_end c) = Raise e ->
  same_store w (fst (check_callsign_status env k c update debug w))
  /\ (forall e', snd (check_callsign_status env k c update debug w) = Some e' -> e' = e).
Proof.
  intros Hd. unfold check_callsign_status, check_status_try, driver. rewrite Hd.
  destruct (fault env InCheckStatus k Connect); [repeat split; discriminate|].
  destruct (fault env InCheckStatus k Select); [repeat split; discriminate|].
  destruct (db w !! k); [|repeat split; discriminate].
  rewrite (strptime_no_pyodbc _ _ _ _ Hd). repeat split. now intros e' [= <-].
Qed.

(** X15.  A reply that is parsed into a record whose license end is missing
    or does not parse changes neither the table nor the two log files,
    whatever the flags and the driver do: no insert, no update, no
    deactivation, no log entry.  (What the run may add is console output.) *)
Theorem unusable_date_changes_nothing (env : Env) (session_key callsign xml_data : string)
    (c : Callsign) (e : Exn) (update checkstatus debug : bool) (w : World) :
  get_callsign_data env session_key (clean_callsign callsign) = Ok xml_data ->
  parse_callsign_data xml_data = Ok c ->
  strptime (license_end c) = Raise e ->
  same_store w (process_callsign env session_key callsign update checkstatus debug w).
Proof.
  intros Hget Hparse Hd.
  set (k := clean_callsign callsign) in *.
  assert (Hd' : strptime (license_end (set_call k c)) = Raise e) by exact Hd.
  assert (Hnf : Py.contains "Not found" (str_exn e) = false).
  { apply (strptime_error_text (license_end c)); [|exact Hd].
    exact (parsed_license_end_spaceless xml_data c Hparse). }
  destruct (process_try env session_key k update checkstatus debug w) as [w1 oe] eqn:Etry.
  assert (H : same_store w w1 /\ (forall e', oe = Some e' -> e' = e)).
  { unfold process_try in Etry. rewrite Hget, Hparse in Etry.
    set (w0 := when_debug debug (trace "Fetched data") w) in *.
    assert (H0 : same_store w w0)
      by (apply same_store_debug; intros v; repeat split).
    destruct checkstatus.
    - destruct (check_callsign_status_invalid_date env k (set_call k c) e update debug
                  w0 Hd') as [Hs He].
      destruct (check_callsign_status env k (set_call k c) update debug w0)
        as [w2 [e2|]]; cbn [fst snd] in *.
      + injection Etry as <- <-. split; [eapply same_store_trans; eassumption|].
        intros e' [= <-]. now apply He.
      + destruct update.
        * destruct (insert_or_update_invalid_date env (set_call k c) e debug w2 Hd')
            as [Hs2 Hn2].
          destruct (insert_or_update_callsign_in_db env (set_call k c) debug w2)
            as [w3 o3]; cbn [fst snd] in *. injection Etry as <- <-. subst o3.
          split; [|discriminate].
          eapply same_store_trans; [|exact Hs2]. eapply same_store_trans; eassumption.
        * injection Etry as <- <-. split; [|discriminate].
          eapply same_store_trans; eassumption.
    - destruct update.
      + destruct (insert_or_update_invalid_date env (set_call k c) e debug w0 Hd')
          as [Hs2 Hn2].
        destruct (insert_or_update_callsign_in_db env (set_call k c) debug w0)
          as [w3 o3]; cbn [fst snd] in *. injection Etry as <- <-. subst o3.
        split; [|discriminate]. eapply same_store_trans; eassumption.
      + injection Etry as <- <-. split; [assumption | discriminate]. }
  destruct H as [Hs He].
  eapply same_store_trans; [exact Hs|].
  apply (process_callsign_reports env session_key callsign update checkstatus debug w w1 oe
           Etry).
  intros e' He'. now rewrite (He e' He').
Qed.

Lemma unusable_date_changes_nothing_witness :
  same_store (world_of {["W1AW" := sample_row "Hiram" "Maxim" "Active"]})
    (process_callsign (quiet_env (Ok zero_date_xml)) "key" "w1aw" true true true
       (world_of {["W1AW" := sample_row "Hiram" "Maxim" "Active"]})).
Proof.
  apply (unusable_date_changes_nothing (quiet_env (Ok zero_date_xml)) "key" "w1aw"
           zero_date_xml
           (mkCallsign (Some "W1AW") None "Hiram" "Maxim" None None None None None None
              (Some "0000-00-00") "Extra" None "Active")
           (ValueError "time data '0000-00-00' does not match format '%Y-%m-%d'"));
    reflexivity.
Defined.

Lemma check_callsign_status_no_update (env : Env) (k : string) (c : Callsign)
    (debug : bool) (w : World) :
  db (fst (check_callsign_status env k c false debug w)) = db w
  /\ mismatch_file (fst (check_callsign_status env k c false debug w)) = mismatch_file w
  /\ (forall e, snd (check_callsign_status env k c false debug w) = Some e ->
      strptime (license_end c) = Raise e).
Proof.
  unfold check_callsign_status, check_status_try, driver.
  destruct (fault env InCheckStatus k Connect); [repeat split; discriminate|].
  destruct (fault env InCheckStatus k Select); [repeat split; discriminate|].
  destruct (db w !! k) as [r|]; [|repeat split; discriminate].
  destruct (strptime (license_end c)) as [d|e] eqn:Hd.
  - cbn [andb].
    destruct (negb _); [destruct debug|]; repeat split; discriminate.
  - rewrite (strptime_no_pyodbc _ _ _ _ Hd). repeat split. now intros e' [= <-].
Qed.

(** X16.  Without the update flag, a lookup that succeeds never changes the
    table and never writes to the mismatch log, whatever the reply holds and
    the driver does; without the audit flag it does not write to the status
    log either.  (The one write that needs no update flag is the deactivation
    after a failed lookup.) *)
Theorem lookup_without_update_leaves_table (env : Env)
    (session_key callsign xml_data : string) (checkstatus debug : bool) (w : World) :
  get_callsign_data env session_key (clean_callsign callsign) = Ok xml_data ->
  db (process_callsign env session_key callsign false checkstatus debug w) = db w
  /\ mismatch_file (process_callsign env session_key callsign false checkstatus debug w)
     = mismatch_file w
  /\ (checkstatus = false ->
      status_file (process_callsign env session_key callsign false checkstatus debug w)
      = status_file w).
Proof.
  intros Hget. set (k := clean_callsign callsign) in *.
  destruct (process_try env session_key k false checkstatus debug w) as [w1 oe] eqn:Etry.
  assert (H : db w1 = db w /\ mismatch_file w1 = mismatch_file w
              /\ (checkstatus = false -> status_file w1 = status_file w)
              /\ (forall e, oe = Some e -> Py.contains "Not found" (str_exn e) = false)).
  { unfold process_try in Etry. rewrite Hget in Etry.
    destruct (parse_callsign_data xml_data) as [c|e] eqn:Hparse.
    - set (w0 := when_debug debug (trace "Fetched data") w) in *.
      assert (H0 : same_store w w0)
        by (apply same_store_debug; intros v; repeat split).
      destruct H0 as (A & B & C).
      destruct checkstatus.
      + destruct (check_callsign_status_no_update env k (set_call k c) debug w0)
          as (Hdb & Hmm & He).
        destruct (check_callsign_status env k (set_call k c) false debug w0)
          as [w2 [e2|]]; cbn [fst snd] in *; injection Etry as <- <-.
        * repeat split; try congruence.
          intros e [= <-].
          apply (strptime_error_text (license_end c)); [|now apply He].
          exact (parsed_license_end_spaceless xml_data c Hparse).
        * repeat split; try congruence; discriminate.
      + injection Etry as <- <-. repeat split; try congruence; discriminate.
    - injection Etry as <- <-. repeat split.
      intros e' [= <-]. exact (parse_error_text xml_data e Hparse). }
  destruct H as (Hdb & Hmm & Hst & Hnf).
  destruct (process_callsign_reports env session_key callsign false checkstatus debug
              w w1 oe Etry Hnf) as (A & B & C).
  repeat split; try congruence. intros Hc. rewrite C. auto.
Qed.

Lemma lookup_without_update_leaves_table_witness :
  db (process_callsign (quiet_env (Ok sample_xml)) "key" "w1aw" false true true
        (world_of {["W1AW" := sample_row "Hiram" "Maxim" "New"]}))
  = db (world_of {["W1AW" := sample_row "Hiram" "Maxim" "New"]})
  /\ mismatch_file (process_callsign (quiet_env (Ok sample_xml)) "key" "w1aw" false true true
                      (world_of {["W1AW" := sample_row "Hiram" "Maxim" "New"]}))
     = mismatch_file (world_of {["W1AW" := sample_row "Hiram" "Maxim" "New"]})
  /\ (true = false ->
      status_file (process_callsign (quiet_env (Ok sample_xml)) "key" "w1aw" false true true
                     (world_of {["W1AW" := sample_row "Hiram" "Maxim" "New"]}))
      = status_file (world_of {["W1AW" := sample_row "Hiram" "Maxim" "New"]})).
Proof.
  apply (lookup_without_update_leaves_table (quiet_env (Ok sample_xml)) "key" "w1aw"
           sample_xml true true). reflexivity.
Defined.

(** ** Two passes over one record *)

Lemma string_eqb_refl (s : string) : String.eqb s s = true.
Proof. induction s as [|c r IH]; [reflexivity|]. cbn. now rewrite Ascii.eqb_refl. Qed.

(** X17.  A record inserted by one call is recognised by the next: when the
    first name does not end in a comma and [New] is not a protected status,
    the second call with the same record finds the names matching and
    replaces the row by the record with the status the date implies
    ([License Expired] for a past license end, the record's status
    otherwise).  The driver is assumed to work. *)
Theorem second_pass_replaces_new (env : Env) (c : Callsign) (k : string) (d : Date)
    (debug : bool) (w : World) :
  call c = Some k ->
  strptime (license_end c) = Ok d ->
  db w !! k = None ->
  (forall op, fault env InInsertOrUpdate k op = None) ->
  Py.rstrip_char "," (first_name c) = first_name c ->
  protected env (Some "New") = false ->
  db (fst (insert_or_update_callsign_in_db env c debug
             (fst (insert_or_update_callsign_in_db env c debug w))))
  = <[k := row_of c (natural_status env c d) (strftime_ymd (now env))]> (db w)
  /\ mismatch_file (fst (insert_or_update_callsign_in_db env c debug
                           (fst (insert_or_update_callsign_in_db env c debug w))))
     = mismatch_file w.
Proof.
  intros Hk Hd Hrow Hq Hcomma Hnew.
  assert (H1 : exists w1, insert_or_update_callsign_in_db env c debug w = (w1, None)
                 /\ db w1 = <[k := row_of c "New" (strftime_ymd (now env))]> (db w)
                 /\ mismatch_file w1 = mismatch_file w).
  { unfold insert_or_update_callsign_in_db, insert_or_update_try, commit.
    rewrite Hk, Hd, Hrow. cbn [Py.render].
    rewrite !driver_quiet by apply Hq.
    destruct debug; eexists; repeat split. }
  destruct H1 as (w1 & -> & Hdb1 & Hmm1). cbn [fst].
  unfold insert_or_update_callsign_in_db, insert_or_update_try, commit, names_match.
  rewrite Hk, Hd, Hdb1, lookup_insert_eq. cbn [Py.render row_of col_FirstName
    col_LastName col_Status].
  rewrite !driver_quiet by apply Hq.
  rewrite Hcomma, !string_eqb_refl, Hnew. cbn [negb].
  unfold natural_status.
  destruct debug; cbn; rewrite Hdb1, insert_insert_eq; auto.
Qed.

Lemma second_pass_replaces_new_witness :
  db (fst (insert_or_update_callsign_in_db (quiet_env (Ok sample_xml))
             (sample_record "Hiram" "Maxim" (Some "2001-01-01")) false
             (fst (insert_or_update_callsign_in_db (quiet_env (Ok sample_xml))
                     (sample_record "Hiram" "Maxim" (Some "2001-01-01")) false
                     (world_of ∅)))))
  = <["W1AW" := row_of (sample_record "Hiram" "Maxim" (Some "2001-01-01"))
                  "License Expired" "2026-11-03"]> ∅
  /\ mismatch_file (fst (insert_or_update_callsign_in_db (quiet_env (Ok sample_xml))
             (sample_record "Hiram" "Maxim" (Some "2001-01-01")) false
             (fst (insert_or_update_callsign_in_db (quiet_env (Ok sample_xml))
                     (sample_record "Hiram" "Maxim" (Some "2001-01-01")) false
                     (world_of ∅))))) = [].
Proof.
  apply (second_pass_replaces_new (quiet_env (Ok sample_xml))
           (sample_record "Hiram" "Maxim" (Some "2001-01-01")) "W1AW" (mkDate 2001 1 1)
           false (world_of ∅)); reflexivity.
Defined.

(** ** The status audit *)

(** X18.  The audit with the update flag, with or without debug output: when
    the stored status differs from the status the audit expects
    ([License Expired] for a past license end, [Active] otherwise), is not
    protected, and the names match, the audit appends one line to the status
    log and the row is replaced: its columns hold the fields of the record,
    its status is [License Expired] for a past license end and the status of
    the record otherwise, and its date of update is today.  The mismatch log
    is not written.  With debug output the console shows the line, the two
    traces of the statement and the confirmation; without, nothing.  The
    driver is assumed to work. *)
Theorem status_audit_corrects_status (env : Env) (c : Callsign) (k f : string) (r : Row)
    (d : Date) (debug : bool) (w : World) :
  call c = Some k ->
  db w !! k = Some r ->
  strptime (license_end c) = Ok d ->
  col_Status r <> Some (if before_now d (now env) then "License Expired" else "Active") ->
  protected env (col_Status r) = false ->
  col_FirstName r = Some f ->
  names_match c (Py.rstrip_char "," f) (col_LastName r) = Ok true ->
  (forall op, fault env InCheckStatus k op = None) ->
  (forall op, fault env InInsertOrUpdate k op = None) ->
  snd (check_callsign_status env k c true debug w) = None
  /\ db (fst (check_callsign_status env k c true debug w))
     = <[k := mkRow (Some (first_name c)) (Some (last_name c)) (address c) (town c)
                (state c) (zip_code c) (license_start c) (license_end c)
                (Some (license_class c)) (email c)
                (Some (if before_now d (now env) then "License Expired" else status c))
                (Some (strftime_ymd (now env)))]> (db w)
  /\ status_file (fst (check_callsign_status env k c true debug w))
     = status_file w
       ++ [(k +:+ ": Expected status "
            +:+ (if before_now d (now env) then "License Expired" else "Active")
            +:+ ", found " +:+ Py.render (col_Status r)) +:+ nl]
  /\ mismatch_file (fst (check_callsign_status env k c true debug w)) = mismatch_file w
  /\ stdout (fst (check_callsign_status env k c true debug w))
     = stdout w
       ++ (if debug
           then [Print (k +:+ ": Expected status "
                        +:+ (if before_now d (now env) then "License Expired" else "Active")
                        +:+ ", found " +:+ Py.render (col_Status r));
                 Trace "Executing SQL"; Trace "Parameters";
                 Print ("Updated " +:+ k +:+ " in the database.")]
           else []).
Proof.
  intros Hk Hr Hd Hne Hp Hf Hm Hq1 Hq2.
  unfold check_callsign_status, check_status_try.
  rewrite !driver_quiet by apply Hq1. rewrite Hr, Hd, Hp.
  assert (E : match col_Status r with
              | Some s => String.eqb s
                            (if before_now d (now env) then "License Expired" else "Active")
              | None => false
              end = false).
  { destruct (col_Status r) as [s|]; [|reflexivity].
    destruct (String.eqb_spec s
                (if before_now d (now env) then "License Expired" else "Active"));
      [subst; now contradiction Hne | reflexivity]. }
  rewrite E. cbn [negb andb].
  unfold insert_or_update_callsign_in_db, insert_or_update_try, commit.
  rewrite Hk, Hd. cbn [Py.render]. rewrite !driver_quiet by apply Hq2.
  destruct debug; cbn [when_debug db append_status print trace];
    rewrite Hr, Hf, Hm, Hp; cbn [negb when_debug];
    rewrite ?driver_quiet by apply Hq2; cbn; unfold row_of;
    rewrite <- ?app_assoc; cbn [app]; rewrite ?app_nil_r; auto.
Qed.

Lemma status_audit_corrects_status_witness :
  snd (check_callsign_status (quiet_env (Ok sample_xml)) "W1AW"
         (sample_record "Hiram" "Maxim" (Some "2030-01-02")) true true
         (world_of {["W1AW" := sample_row "H Hiram," "MAXIM" "New"]})) = None
  /\ db (fst (check_callsign_status (quiet_env (Ok sample_xml)) "W1AW"
                (sample_record "Hiram" "Maxim" (Some "2030-01-02")) true true
                (world_of {["W1AW" := sample_row "H Hiram," "MAXIM" "New"]})))
     = <["W1AW" := row_of (sample_record "Hiram" "Maxim" (Some "2030-01-02"))
                     "Active" "2026-11-03"]>
         {["W1AW" := sample_row "H Hiram," "MAXIM" "New"]}
  /\ status_file (fst (check_callsign_status (quiet_env (Ok sample_xml)) "W1AW"
                         (sample_record "Hiram" "Maxim" (Some "2030-01-02")) true true
                         (world_of {["W1AW" := sample_row "H Hiram," "MAXIM" "New"]})))
     = ["W1AW: Expected status Active, found New" +:+ nl]
  /\ mismatch_file (fst (check_callsign_status (quiet_env (Ok sample_xml)) "W1AW"
                           (sample_record "Hiram" "Maxim" (Some "2030-01-02")) true true
                           (world_of {["W1AW" := sample_row "H Hiram," "MAXIM" "New"]})))
     = []
  /\ stdout (fst (check_callsign_status (quiet_env (Ok sample_xml)) "W1AW"
                    (sample_record "Hiram" "Maxim" (Some "2030-01-02")) true true
                    (world_of {["W1AW" := sample_row "H Hiram," "MAXIM" "New"]})))
     = [Print "W1AW: Expected status Active, found New";
        Trace "Executing SQL"; Trace "Parameters";
        Print "Updated W1AW in the database."].
Proof.
  assert (Hr : db (world_of {["W1AW" := sample_row "H Hiram," "MAXIM" "New"]}) !! "W1AW"
               = Some (sample_row "H Hiram," "MAXIM" "New")) by (vm_compute; reflexivity).
  assert (Hm : names_match (sample_record "Hiram" "Maxim" (Some "2030-01-02"))
                 (Py.rstrip_char "," "H Hiram,") (Some "MAXIM") = Ok true)
    by (vm_compute; reflexivity).
  pose proof (status_audit_corrects_status (quiet_env (Ok sample_xml))
                (sample_record "Hiram" "Maxim" (Some "2030-01-02")) "W1AW" "H Hiram,"
                (sample_row "H Hiram," "MAXIM" "New") (mkDate 2030 1 2) true _
                eq_refl Hr eq_refl ltac:(discriminate) eq_refl eq_refl Hm
                (fun _ => eq_refl) (fun _ => eq_refl)) as H.
  vm_compute in H |- *. exact H.
Defined.

(** ** Error replies of the lookup service *)

(** X19.  A reply that holds [<Error>] is never parsed, whatever else it
    holds.  The callsign is deactivated exactly when the text of the [Error]
    element holds [Not found]; any other error text, and an [Error] element
    without its end marker, are printed and change nothing. *)
Theorem error_reply_handling (env : Env) (session_key callsign xml_data : string)
    (update checkstatus debug : bool) (w : World) :
  http_get env ("https://xmldata.qrz.com/xml/current/?s=" +:+ session_key
                +:+ ";callsign=" +:+ clean_callsign callsign) = Ok xml_data ->
  Py.contains "<Error>" xml_data = true ->
  process_callsign env session_key callsign update checkstatus debug w
  = match extract_xml_value xml_data "Error" with
    | Some text =>
        if Py.contains "Not found" text
        then fst (update_callsign_status_to_inactive_if_needed env
                    (clean_callsign callsign) debug w)
        else print ("Error fetching data for " +:+ clean_callsign callsign
                    +:+ ": Error: " +:+ text) w
    | None =>
        print ("Error fetching data for " +:+ clean_callsign callsign
               +:+ ": Error: None") w
    end.
Proof.
  intros Hget Herr. unfold process_callsign, process_try, get_callsign_data.
  rewrite Hget, Herr. cbn [str_exn].
  destruct (extract_xml_value xml_data "Error") as [text|]; cbn [Py.render].
  - rewrite (not_found_after_prefix "Error: " text) by reflexivity.
    destruct (Py.contains "Not found" text); [|reflexivity].
    now destruct (update_callsign_status_to_inactive_if_needed env
                    (clean_callsign callsign) debug w).
  - reflexivity.
Qed.

Lemma error_reply_handling_witness :
  process_callsign (quiet_env (Ok not_found_xml)) "key" "w1aw" false false false
    (world_of {["W1AW" := sample_row "Hiram" "Maxim" "Active"]})
  = fst (update_callsign_status_to_inactive_if_needed (quiet_env (Ok not_found_xml))
           "W1AW" false (world_of {["W1AW" := sample_row "Hiram" "Maxim" "Active"]})).
Proof.
  exact (error_reply_handling (quiet_env (Ok not_found_xml)) "key" "w1aw" not_found_xml
           false false false _ eq_refl eq_refl).
Defined.

(** ** Identifiers read from a file *)

Lemma to_upper_idempotent (c : ascii) : Py.to_upper (Py.to_upper c) = Py.to_upper c.
Proof. by_char c. Qed.

Lemma upper_idempotent (s : string) : Py.upper (Py.upper s) = Py.upper s.
Proof.
  induction s as [|c r IH]; [reflexivity|]. cbn [Py.upper].
  now rewrite to_upper_idempotent, IH.
Qed.

Lemma lstrip_upper (s : string) :
  Py.lstrip_by Py.is_space (Py.upper s) = Py.upper (Py.lstrip_by Py.is_space s).
Proof.
  induction s as [|c r IH]; [reflexivity|]. cbn [Py.upper Py.lstrip_by].
  rewrite space_to_upper. destruct (Py.is_space c); [exact IH | reflexivity].
Qed.

Lemma rstrip_upper (s : string) :
  Py.rstrip_by Py.is_space (Py.upper s) = Py.upper (Py.rstrip_by Py.is_space s).
Proof.
  induction s as [|c r IH]; [reflexivity|]. cbn [Py.upper Py.rstrip_by].
  rewrite IH, space_to_upper.
  destruct (Py.rstrip_by Py.is_space r) as [|c' r']; cbn [Py.upper];
    [destruct (Py.is_space c)|]; reflexivity.
Qed.

Lemma rstrip_cons (p : ascii -> bool) (c : ascii) (r : string) :
  Py.rstrip_by p (String c r)
  = match Py.rstrip_by p r with
    | EmptyString => if p c then EmptyString else String c EmptyString
    | String a b => String c (String a b)
    end.
Proof. reflexivity. Qed.

Lemma rstrip_idempotent (p : ascii -> bool) (s : string) :
  Py.rstrip_by p (Py.rstrip_by p s) = Py.rstrip_by p s.
Proof.
  induction s as [|c r IH]; [reflexivity|]. rewrite (rstrip_cons p c r).
  destruct (Py.rstrip_by p r) as [|a b] eqn:E.
  - destruct (p c) eqn:Hc; [reflexivity|]. rewrite rstrip_cons. cbn [Py.rstrip_by].
    now rewrite Hc.
  - rewrite (rstrip_cons p c (String a b)), IH. reflexivity.
Qed.

Lemma rstrip_keeps_head (p : ascii -> bool) (s : string) :
  Py.lstrip_by p s = s -> Py.lstrip_by p (Py.rstrip_by p s) = Py.rstrip_by p s.
Proof.
  destruct s as [|c r]; [reflexivity|]. cbn [Py.lstrip_by Py.rstrip_by].
  destruct (p c) eqn:Hc.
  - intros H. exfalso.
    assert (Hl : forall t, (Py.len (Py.lstrip_by p t) <= Py.len t)%nat).
    { induction t as [|a t IHt]; [reflexivity|]. cbn [Py.lstrip_by].
      destruct (p a); simpl in *; lia. }
    specialize (Hl r). rewrite H in Hl. simpl in Hl. lia.
  - intros _. destruct (Py.rstrip_by p r); cbn [Py.lstrip_by]; now rewrite Hc.
Qed.

Lemma lstrip_idempotent (p : ascii -> bool) (s : string) :
  Py.lstrip_by p (Py.lstrip_by p s) = Py.lstrip_by p s.
Proof.
  induction s as [|c r IH]; [reflexivity|]. cbn [Py.lstrip_by].
  destruct (p c) eqn:Hc; [exact IH|]. cbn [Py.lstrip_by]. now rewrite Hc.
Qed.

Lemma strip_idempotent (s : string) : Py.strip (Py.strip s) = Py.strip s.
Proof.
  unfold Py.strip.
  rewrite (rstrip_keeps_head Py.is_space (Py.lstrip_by Py.is_space s))
    by apply lstrip_idempotent.
  apply rstrip_idempotent.
Qed.

Lemma strip_upper (s : string) : Py.strip (Py.upper s) = Py.upper (Py.strip s).
Proof. unfold Py.strip. now rewrite lstrip_upper, rstrip_upper. Qed.

(** X20.  The identifiers taken from the lines of a file: each one comes from
    a line that is not blank, is not empty, has no whitespace at either end
    and holds no lower-case letter; and raising an identifier to upper case
    before it is processed, as [main] does, does not change the identifier
    that is looked up. *)
Theorem file_callsigns_are_clean (lines : list string) :
  Forall (fun c => Py.nonempty c = true
                   /\ Py.strip c = c
                   /\ all_chars (fun ch => negb (Py.is_lower ch)) c = true
                   /\ clean_callsign (Py.upper c) = clean_callsign c
                   /\ exists l, In l lines /\ c = Py.upper (Py.strip l))
         (file_callsigns lines).
Proof.
  unfold file_callsigns. apply List.Forall_forall. intros c Hc.
  apply in_map_iff in Hc as (l & <- & Hl). apply filter_In in Hl as [Hin Hne].
  split; [|split; [|split; [|split]]].
  - destruct (Py.strip l); [discriminate | reflexivity].
  - now rewrite strip_upper, strip_idempotent.
  - apply upper_has_no_lower.
  - unfold clean_callsign. now rewrite upper_idempotent.
  - eauto.
Qed.

Lemma file_callsigns_example :
  file_callsigns ["  w1aw " +:+ nl; nl; "kb7ouu/sk2025" +:+ nl; "   "]
  = ["W1AW"; "KB7OUU/SK2025"].
Proof. reflexivity. Qed.

(** ** The two forms of a first name, over Unicode text *)

Lemma uni_pieces_not_nil (sep : N -> bool) (s : list N) : Uni.pieces sep s <> [].
Proof.
  destruct s as [|c r]; cbn [Uni.pieces]; [discriminate|].
  destruct (sep c); [discriminate|]. destruct (Uni.pieces sep r); discriminate.
Qed.

Lemma uni_pieces_app_word (sep : N -> bool) (b x : list N) :
  Forall (fun c => sep c = false) b ->
  Uni.pieces sep (b ++ x)
  = match Uni.pieces sep x with
    | t :: ts => (b ++ t) :: ts
    | [] => [b]
    end.
Proof.
  intros Hb. pose proof (uni_pieces_not_nil sep x) as Hne.
  induction Hb as [|c b Hc Hb IH]; cbn [app Uni.pieces].
  - destruct (Uni.pieces sep x); [contradiction | reflexivity].
  - rewrite Hc, IH. destruct (Uni.pieces sep x); [contradiction | reflexivity].
Qed.

(** Replacing every character by a text that can stand for it keeps the
    pieces in step: as many, each standing for its original. *)
Lemma uni_pieces_blocks (sep : N -> bool) (one : N -> Prop) (s : list N)
    (bs : list (list N)) :
  Forall2 (Uni.block_ok sep one) s bs ->
  Forall2 (Uni.word_ok sep one) (Uni.pieces sep s) (Uni.pieces sep (concat bs)).
Proof.
  induction 1 as [|c b s bs [Hb Hone] Hs IH]; cbn [Uni.pieces concat].
  - repeat constructor.
  - pose proof (uni_pieces_not_nil sep s) as Hn1.
    destruct (sep c) eqn:Hc.
    + subst b. cbn [app Uni.pieces]. rewrite Hc.
      constructor; [repeat constructor | exact IH].
    + destruct Hb as [Hne Hb]. rewrite (uni_pieces_app_word sep b _ Hb).
      destruct (Uni.pieces sep s) as [|w ws]; [contradiction|].
      inversion IH as [|? t ? ts (Ht & _ & Hlen & Hsame) Hrest E1 E2]; subst.
      constructor; [|exact Hrest].
      repeat split.
      * apply Forall_app. now split.
      * destruct b; [contradiction | reflexivity].
      * rewrite length_app. destruct b; [contradiction|]. cbn [length]. lia.
      * intros Hcw. inversion Hcw as [|? ? Hc1 Hw1]; subst.
        rewrite length_app, (Hone Hc1), (Hsame Hw1). reflexivity.
Qed.

Lemma uni_title_go_blocks (db : Uni.CharDb) (whole : list N) (i : nat) (prev : bool)
    (rest : list N) :
  Uni.title_go db whole i prev rest = concat (Uni.title_blocks db whole i prev rest).
Proof.
  revert i prev. induction rest as [|c r IH]; intros i prev; [reflexivity|].
  cbn [Uni.title_go Uni.title_blocks concat]. now rewrite IH.
Qed.

Lemma uni_case_form_plain (db : Uni.CharDb) (whole : list N) (i : nat) (prev : bool)
    (c : N) :
  Uni.plain db c ->
  length (if prev then Uni.lower_at db whole i c else Uni.to_title db c) = 1%nat.
Proof. intros [Ht Hl]. destruct prev; [apply Hl | apply Ht]. Qed.

(** In a text cut at whitespace, the case forms stand for the characters. *)
Lemma uni_title_blocks_space (db : Uni.CharDb) (whole : list N) (i : nat) (prev : bool)
    (rest : list N) :
  Uni.lawful db ->
  Forall2 (Uni.block_ok (Uni.is_space db) (Uni.plain db)) rest
    (Uni.title_blocks db whole i prev rest).
Proof.
  intros Hlaw. revert i prev.
  induction rest as [|c r IH]; intros i prev; cbn [Uni.title_blocks]; constructor;
    [|apply IH].
  split; [|apply uni_case_form_plain].
  destruct (Uni.is_space db c) eqn:Hc; destruct prev.
  - now apply (Uni.lower_of_space db Hlaw).
  - now apply (Uni.title_of_space db Hlaw).
  - now apply (Uni.lower_of_letter db Hlaw).
  - now apply (Uni.title_of_letter db Hlaw).
Qed.

(** The same in a text cut at the space, when the text holds no other
    whitespace. *)
Lemma uni_title_blocks_blank (db : Uni.CharDb) (whole : list N) (i : nat) (prev : bool)
    (rest : list N) :
  Uni.lawful db ->
  Forall (fun c => c = 32%N \/ Uni.is_space db c = false) rest ->
  Forall2 (Uni.block_ok (N.eqb 32) (Uni.plain db)) rest
    (Uni.title_blocks db whole i prev rest).
Proof.
  intros Hlaw Hrest. revert i prev.
  induction Hrest as [|c r Hc Hr IH]; intros i prev; cbn [Uni.title_blocks]; constructor;
    [|apply IH].
  assert (Hfree : forall b, Forall (fun x => Uni.is_space db x = false) b ->
                            Forall (fun x => N.eqb 32 x = false) b).
  { intros b Hb. eapply List.Forall_impl; [|exact Hb]. intros x Hx. cbv beta in Hx.
    destruct (N.eqb_spec 32 x) as [<-|_]; [|reflexivity].
    rewrite (Uni.space_is_space db Hlaw) in Hx. discriminate. }
  split; [|apply uni_case_form_plain].
  destruct Hc as [->|Hc].
  - rewrite N.eqb_refl. pose proof (Uni.space_is_space db Hlaw) as Hsp.
    destruct prev; [now apply (Uni.lower_of_space db Hlaw)
                   | now apply (Uni.title_of_space db Hlaw)].
  - destruct (N.eqb_spec 32 c) as [<-|_].
    + rewrite (Uni.space_is_space db Hlaw) in Hc. discriminate.
    + destruct prev.
      * destruct (Uni.lower_of_letter db Hlaw whole i c Hc) as [Hn Hf]. auto.
      * destruct (Uni.title_of_letter db Hlaw c Hc) as [Hn Hf]. auto.
Qed.

Lemma uni_filter_nonempty (R : list N -> list N -> Prop) (ws ts : list (list N)) :
  (forall w t, R w t -> Uni.nonempty w = Uni.nonempty t) ->
  Forall2 R ws ts ->
  Forall2 R (List.filter Uni.nonempty ws) (List.filter Uni.nonempty ts).
Proof.
  intros HR. induction 1 as [|w t ws ts Hwt Hrest IH]; cbn [List.filter]; [constructor|].
  rewrite <- (HR w t Hwt). destruct (Uni.nonempty w); [constructor|]; assumption.
Qed.

Lemma uni_pieces_sep_free (sep : N -> bool) (s : list N) :
  Forall (fun w => Forall (fun x => sep x = false) w) (Uni.pieces sep s).
Proof.
  induction s as [|c r IH]; cbn [Uni.pieces]; [repeat constructor|].
  destruct (sep c) eqn:Hc; [constructor; [constructor | exact IH]|].
  destruct (Uni.pieces sep r) as [|w ws]; [repeat constructor; exact Hc|].
  inversion IH; subst. constructor; [constructor|]; assumption.
Qed.

(** Splitting a join at a separator class that holds the space gives the
    words back. *)
Lemma uni_pieces_join (sep : N -> bool) (ws : list (list N)) :
  sep 32%N = true -> ws <> [] ->
  Forall (fun w => Forall (fun x => sep x = false) w) ws ->
  Uni.pieces sep (Uni.join ws) = ws.
Proof.
  intros Hsp Hne Hall. induction Hall as [|w ws Hw Hws IH]; [contradiction|].
  destruct ws as [|w' ws].
  - cbn [Uni.join]. rewrite <- (app_nil_r w) at 1.
    rewrite (uni_pieces_app_word sep w [] Hw). cbn [Uni.pieces]. now rewrite app_nil_r.
  - change (Uni.join (w :: w' :: ws)) with (w ++ 32%N :: Uni.join (w' :: ws)).
    rewrite (uni_pieces_app_word sep w _ Hw). cbn [Uni.pieces]. rewrite Hsp.
    rewrite IH by discriminate. now rewrite app_nil_r.
Qed.

Lemma uni_filter_all (ws : list (list N)) :
  Forall (fun w => Uni.nonempty w = true) ws -> List.filter Uni.nonempty ws = ws.
Proof.
  induction 1 as [|w ws Hw Hws IH]; [reflexivity|]. cbn [List.filter]. now rewrite Hw, IH.
Qed.

Lemma uni_split_join (db : Uni.CharDb) (ws : list (list N)) :
  Uni.is_space db 32%N = true ->
  Forall (fun w => Uni.nonempty w = true) ws ->
  Forall (fun w => Forall (fun x => Uni.is_space db x = false) w) ws ->
  Uni.split db (Uni.join ws) = ws.
Proof.
  intros Hsp Hne Hfree. unfold Uni.split. destruct ws as [|w ws]; [reflexivity|].
  rewrite uni_pieces_join by (assumption || discriminate). now apply uni_filter_all.
Qed.

(** Joining the pieces of a text that was cut at the space gives it back. *)
Lemma uni_join_pieces (s : list N) : Uni.join (Uni.split_on_space s) = s.
Proof.
  unfold Uni.split_on_space. induction s as [|c r IH]; [reflexivity|]. cbn [Uni.pieces].
  pose proof (uni_pieces_not_nil (N.eqb 32) r) as Hne.
  destruct (N.eqb_spec 32 c) as [<-|_].
  - destruct (Uni.pieces (N.eqb 32) r) as [|w ws]; [contradiction|].
    change (Uni.join ([] :: w :: ws)) with (32%N :: Uni.join (w :: ws)). now rewrite IH.
  - destruct (Uni.pieces (N.eqb 32) r) as [|w [|w' ws]]; [contradiction| |].
    + change (Uni.join [c :: w]) with (c :: Uni.join [w]). now rewrite IH.
    + change (Uni.join ((c :: w) :: w' :: ws)) with (c :: Uni.join (w :: w' :: ws)).
      now rewrite IH.
Qed.

(** The words of a text: none is empty, none holds whitespace. *)
Lemma uni_split_words (db : Uni.CharDb) (s : list N) :
  Forall (fun w => Uni.nonempty w = true) (Uni.split db s)
  /\ Forall (fun w => Forall (fun x => Uni.is_space db x = false) w) (Uni.split db s).
Proof.
  unfold Uni.split. pose proof (uni_pieces_sep_free (Uni.is_space db) s) as H.
  induction H as [|w ws Hw Hws [IH1 IH2]]; cbn [List.filter]; [split; constructor|].
  destruct (Uni.nonempty w) eqn:E; [|split; assumption].
  split; constructor; assumption.
Qed.

(** The words of the title-cased text stand for the words of the text. *)
Lemma uni_split_title (db : Uni.CharDb) (s : list N) :
  Uni.lawful db ->
  Forall2 (Uni.word_ok (Uni.is_space db) (Uni.plain db))
    (Uni.split db s) (Uni.split db (Uni.title db s)).
Proof.
  intros Hlaw. unfold Uni.split, Uni.title. rewrite uni_title_go_blocks.
  apply uni_filter_nonempty; [now intros w t (_ & E & _)|].
  apply uni_pieces_blocks. now apply uni_title_blocks_space.
Qed.

Lemma uni_join_chars (db : Uni.CharDb) (ws : list (list N)) :
  Forall (fun w => Forall (fun x => Uni.is_space db x = false) w) ws ->
  Forall (fun c => c = 32%N \/ Uni.is_space db c = false) (Uni.join ws).
Proof.
  induction 1 as [|w ws Hw Hws IH]; [constructor|].
  assert (Hw' : Forall (fun c => c = 32%N \/ Uni.is_space db c = false) w)
    by (eapply List.Forall_impl; [|exact Hw]; intros; now right).
  destruct ws as [|w' ws]; [exact Hw'|].
  change (Uni.join (w :: w' :: ws)) with (w ++ 32%N :: Uni.join (w' :: ws)).
  apply Forall_app. split; [exact Hw'|]. constructor; [now left | exact IH].
Qed.

(** The pieces of the title-cased join of words stand for the words. *)
Lemma uni_parts_of_join (db : Uni.CharDb) (ws : list (list N)) :
  Uni.lawful db -> ws <> [] ->
  Forall (fun w => Forall (fun x => Uni.is_space db x = false) w) ws ->
  Forall2 (Uni.word_ok (N.eqb 32) (Uni.plain db)) ws
    (Uni.split_on_space (Uni.title db (Uni.join ws))).
Proof.
  intros Hlaw Hne Hfree.
  assert (Hws : Uni.pieces (N.eqb 32) (Uni.join ws) = ws).
  { apply uni_pieces_join; [reflexivity | assumption |].
    eapply List.Forall_impl; [|exact Hfree]. intros w Hw. cbv beta in *.
    eapply List.Forall_impl; [|exact Hw]. intros x Hx. cbv beta in Hx.
    destruct (N.eqb_spec 32 x) as [<-|_]; [|reflexivity].
    rewrite (Uni.space_is_space db Hlaw) in Hx. discriminate. }
  unfold Uni.split_on_space, Uni.title. rewrite uni_title_go_blocks.
  rewrite <- Hws at 1. apply uni_pieces_blocks.
  apply uni_title_blocks_blank; [exact Hlaw|]. now apply uni_join_chars.
Qed.

Lemma uni_filter_long (ts : list (list N)) :
  Forall (fun t => Uni.nonempty t = true) ts ->
  List.filter (fun t => (1 <? length t)%nat) ts
  = List.filter (fun t => negb (length t =? 1)%nat) ts.
Proof.
  induction 1 as [|t ts Ht Hts IH]; [reflexivity|]. cbn [List.filter]. rewrite IH.
  destruct t as [|a [|b t]]; [discriminate | reflexivity | reflexivity].
Qed.

Lemma uni_forall2_weaken (P Q : list N -> list N -> Prop) (ws ts : list (list N)) :
  (forall w t, P w t -> Q w t) -> Forall2 P ws ts -> Forall2 Q ws ts.
Proof. intros H. induction 1; constructor; auto. Qed.

Lemma uni_filter_keeps (P : list N -> Prop) (q : list N -> bool) (ts : list (list N)) :
  Forall P ts -> Forall P (List.filter q ts).
Proof.
  induction 1 as [|t ts Ht Hts IH]; [constructor|]. cbn [List.filter].
  destruct (q t); [constructor|]; assumption.
Qed.

(** What stands for words that are not empty is not empty and holds no
    whitespace. *)
Lemma uni_words_stand (sep : N -> bool) (one : N -> Prop) (ws ts : list (list N)) :
  Forall (fun w => Uni.nonempty w = true) ws ->
  Forall2 (Uni.word_ok sep one) ws ts ->
  Forall (fun t => Uni.nonempty t = true) ts
  /\ Forall (fun t => Forall (fun x => sep x = false) t) ts.
Proof.
  intros Hne H. induction H as [|w t ws ts (Hf & E & _) Hrest IH]; [split; constructor|].
  inversion Hne as [|? ? Hw Hws]; subst. destruct (IH Hws) as [IH1 IH2].
  split; constructor; try assumption. congruence.
Qed.

Lemma uni_lookup_in (c : N) (table : list (N * Uni.Entry)) (e : Uni.Entry) :
  Uni.lookup c table = Some e -> In (c, e) table.
Proof.
  induction table as [|[k e'] rest IH]; cbn [Uni.lookup]; [discriminate|].
  destruct (N.eqb_spec k c) as [->|_].
  - intros [= ->]. now left.
  - intros H. right. auto.
Qed.

Lemma uni_entry_free (l : list N) :
  forallb (fun x => negb (Uni.e_space (Uni.entry_of x))) l = true ->
  Forall (fun x => Uni.is_space Uni.latin1 x = false) l.
Proof.
  induction l as [|x l IH]; cbn [forallb]; [constructor|].
  intros [Hx Hl]%andb_prop. constructor; [|auto].
  cbn [Uni.is_space Uni.latin1]. now destruct (Uni.e_space (Uni.entry_of x)).
Qed.

(** The laws, for every character. *)
Lemma uni_entry_lawful (c : N) :
  if Uni.e_space (Uni.entry_of c)
  then Uni.e_title (Uni.entry_of c) = [c] /\ Uni.e_lower (Uni.entry_of c) = [c]
  else (Uni.e_title (Uni.entry_of c) <> []
        /\ Forall (fun x => Uni.is_space Uni.latin1 x = false)
             (Uni.e_title (Uni.entry_of c)))
       /\ (Uni.e_lower (Uni.entry_of c) <> []
           /\ Forall (fun x => Uni.is_space Uni.latin1 x = false)
                (Uni.e_lower (Uni.entry_of c))).
Proof.
  assert (Hall : forallb Uni.row_lawful Uni.latin1_table = true)
    by (vm_compute; reflexivity).
  assert (Hdef : Uni.lookup c Uni.latin1_table = None ->
                 Uni.is_space Uni.latin1 c = false).
  { intros E. cbn [Uni.is_space Uni.latin1]. unfold Uni.entry_of. now rewrite E. }
  unfold Uni.entry_of in *. destruct (Uni.lookup c Uni.latin1_table) as [e|] eqn:E.
  - apply uni_lookup_in in E.
    pose proof (proj1 (forallb_forall _ _) Hall _ E) as Hrow.
    unfold Uni.row_lawful in Hrow. destruct (Uni.e_space e).
    + destruct (Uni.e_title e) as [|x [|]]; try discriminate.
      destruct (Uni.e_lower e) as [|y [|]]; try discriminate.
      apply andb_prop in Hrow as [->%N.eqb_eq ->%N.eqb_eq]. now split.
    + apply andb_prop in Hrow as [Hrow H4]. apply andb_prop in Hrow as [Hrow H3].
      apply andb_prop in Hrow as [H1 H2].
      repeat split.
      * destruct (Uni.e_title e); [discriminate | discriminate].
      * now apply uni_entry_free.
      * destruct (Uni.e_lower e); [discriminate | discriminate].
      * now apply uni_entry_free.
  - cbn [Uni.e_space Uni.e_title Uni.e_lower].
    repeat split; try discriminate; constructor; auto.
Qed.

(** The database of CPython on Latin-1 text satisfies the laws. *)
Lemma latin1_lawful : Uni.lawful Uni.latin1.
Proof.
  constructor.
  - vm_compute; reflexivity.
  - intros c Hc. pose proof (uni_entry_lawful c) as H.
    cbn [Uni.is_space Uni.to_title Uni.latin1] in *. rewrite Hc in H. tauto.
  - intros s i c Hc. pose proof (uni_entry_lawful c) as H.
    cbn [Uni.is_space Uni.lower_at Uni.latin1] in *. rewrite Hc in H. tauto.
  - intros c Hc. pose proof (uni_entry_lawful c) as H.
    cbn [Uni.is_space Uni.to_title Uni.latin1] in Hc |- *. rewrite Hc in H. tauto.
  - intros s i c Hc. pose proof (uni_entry_lawful c) as H.
    cbn [Uni.is_space Uni.lower_at Uni.latin1] in Hc |- *. rewrite Hc in H. tauto.
Qed.

(** ** C6: the two forms of a first name *)

(** C6, amended.  Let the first name have the words [w0 :: ws], one of the
    later words being one character long, and let [t0 :: ts] be the words of
    the name in title case: as many, none shorter than the word it stands
    for, and of the same length when the case forms of the characters of the
    word are one character long (as for every ASCII word).  The storage form
    is [t0] and the later words of [ts] that are not one character long,
    joined by single spaces, and these are exactly its words.  The
    comparison form is cut from the title case of the words joined by single
    spaces (whitespace collapsed): with [p0 :: ps] the pieces of that text
    between spaces, which stand for [w0 :: ws] in the same way, it is [ps]
    joined by single spaces when [p0] is one character long and the whole
    text otherwise: one word is stripped, never more.  Lengths are those of
    the words in title case. *)
Theorem first_name_forms_by_title_length (db : Uni.CharDb) (s w0 : list N)
    (ws : list (list N)) :
  Uni.lawful db ->
  Uni.split db s = w0 :: ws ->
  Exists (fun w => length w = 1%nat) ws ->
  exists t0 ts p0 ps,
    Uni.split db (Uni.title db s) = t0 :: ts
    /\ Forall2 (fun w t => (length w <= length t)%nat
                          /\ (Forall (Uni.plain db) w -> length t = length w))
         (w0 :: ws) (t0 :: ts)
    /\ Uni.storage_first_name db s
       = Uni.join (t0 :: List.filter (fun t => negb (length t =? 1)%nat) ts)
    /\ Uni.split db (Uni.storage_first_name db s)
       = t0 :: List.filter (fun t => negb (length t =? 1)%nat) ts
    /\ Uni.split_on_space (Uni.title db (Uni.join (w0 :: ws))) = p0 :: ps
    /\ Forall2 (fun w p => (length w <= length p)%nat
                          /\ (Forall (Uni.plain db) w -> length p = length w))
         (w0 :: ws) (p0 :: ps)
    /\ Uni.normalize_first_name db s
       = Uni.join (if (length p0 =? 1)%nat then ps else p0 :: ps).
Proof.
  intros Hlaw E Hex.
  pose proof (uni_split_words db s) as [Hne Hfree]. rewrite E in Hne, Hfree.
  pose proof (uni_split_title db s Hlaw) as HT. rewrite E in HT.
  pose proof (uni_parts_of_join db (w0 :: ws) Hlaw ltac:(discriminate) Hfree) as HP.
  pose proof (uni_join_pieces (Uni.title db (Uni.join (w0 :: ws)))) as HJ.
  unfold Uni.storage_first_name, Uni.normalize_first_name. rewrite E.
  destruct (Uni.split db (Uni.title db s)) as [|t0 ts] eqn:ET; [inversion HT|].
  destruct (Uni.split_on_space (Uni.title db (Uni.join (w0 :: ws)))) as [|p0 ps] eqn:EP;
    [inversion HP|].
  destruct (uni_words_stand _ _ _ _ Hne HT) as [HTne HTfree].
  inversion HTne as [|? ? Ht0 Hts]; inversion HTfree as [|? ? Hf0 Hfs]; subst.
  rewrite (uni_filter_long ts Hts).
  exists t0, ts, p0, ps. repeat split.
  - eapply uni_forall2_weaken; [|exact HT]. now intros w t (_ & _ & H1 & H2).
  - apply uni_split_join; [apply (Uni.space_is_space db Hlaw) | |];
      (constructor; [assumption | now apply uni_filter_keeps]).
  - eapply uni_forall2_weaken; [|exact HP]. now intros w t (_ & _ & H1 & H2).
  - inversion HP as [|? ? ? ? _ Hps]; subst.
    destruct Hps as [|w1 p1 ws' ps' _ _]; [inversion Hex|].
    cbn [length hd tl Nat.ltb Nat.leb andb].
    destruct (length p0 =? 1)%nat; [reflexivity | now symmetry].
Qed.

Lemma first_name_forms_by_title_length_witness :
  exists t0 ts p0 ps,
    Uni.split Uni.latin1 (Uni.title Uni.latin1 sample_accented_name) = t0 :: ts
    /\ Forall2 (fun w t => (length w <= length t)%nat
                          /\ (Forall (Uni.plain Uni.latin1) w -> length t = length w))
         ([233%N] :: [Uni.codes "john"; Uni.codes "q"]) (t0 :: ts)
    /\ Uni.storage_first_name Uni.latin1 sample_accented_name
       = Uni.join (t0 :: List.filter (fun t => negb (length t =? 1)%nat) ts)
    /\ Uni.split Uni.latin1 (Uni.storage_first_name Uni.latin1 sample_accented_name)
       = t0 :: List.filter (fun t => negb (length t =? 1)%nat) ts
    /\ Uni.split_on_space
         (Uni.title Uni.latin1 (Uni.join ([233%N] :: [Uni.codes "john"; Uni.codes "q"])))
       = p0 :: ps
    /\ Forall2 (fun w p => (length w <= length p)%nat
                          /\ (Forall (Uni.plain Uni.latin1) w -> length p = length w))
         ([233%N] :: [Uni.codes "john"; Uni.codes "q"]) (p0 :: ps)
    /\ Uni.normalize_first_name Uni.latin1 sample_accented_name
       = Uni.join (if (length p0 =? 1)%nat then ps else p0 :: ps).
Proof.
  apply (first_name_forms_by_title_length Uni.latin1 sample_accented_name
           [233%N] [Uni.codes "john"; Uni.codes "q"] latin1_lawful).
  - vm_compute; reflexivity.
  - apply Exists_cons_tl, Exists_cons_hd. reflexivity.
Defined.

(** The forms of [é john q]: stored as [É John], compared as [John Q]. *)
Example first_name_forms_accented :
  Uni.storage_first_name Uni.latin1 sample_accented_name = 201%N :: Uni.codes " John"
  /\ Uni.normalize_first_name Uni.latin1 sample_accented_name = Uni.codes "John Q".
Proof. vm_compute. split; reflexivity. Qed.

(** C6 as stated fails where title case changes the length of a word.  The
    name [anna ß] has two words, the later one (U+00DF) one character long;
    its title case is [Anna Ss], so the storage form keeps the later word:
    the stored name is [Anna Ss], of two words.  The name [ß john] has a
    leading word of one character and a second word; its comparison form is
    [Ss John], the leading word is not stripped. *)
Lemma first_name_sharp_s_is_kept :
  Uni.split Uni.latin1 sample_sharp_s_last = [Uni.codes "anna"; [223%N]]
  /\ length [223%N] = 1%nat
  /\ Uni.storage_first_name Uni.latin1 sample_sharp_s_last = Uni.codes "Anna Ss"
  /\ Uni.split Uni.latin1 (Uni.storage_first_name Uni.latin1 sample_sharp_s_last)
     = [Uni.codes "Anna"; Uni.codes "Ss"]
  /\ Uni.split Uni.latin1 sample_sharp_s_first = [[223%N]; Uni.codes "john"]
  /\ Uni.normalize_first_name Uni.latin1 sample_sharp_s_first = Uni.codes "Ss John".
Proof. vm_compute. repeat split; reflexivity. Qed.

(** ** The two models of text agree on ASCII names *)

Lemma uni_char_agrees (c : ascii) :
  (N_of_ascii c <? 128)%N = true ->
  Uni.e_space (Uni.entry_of (N_of_ascii c)) = Py.is_space c
  /\ Uni.e_cased (Uni.entry_of (N_of_ascii c)) = Py.is_cased c
  /\ Uni.e_title (Uni.entry_of (N_of_ascii c)) = [N_of_ascii (Py.to_upper c)]
  /\ Uni.e_lower (Uni.entry_of (N_of_ascii c)) = [N_of_ascii (Py.to_lower c)]
  /\ (N_of_ascii (Py.to_upper c) <? 128)%N = true
  /\ (N_of_ascii (Py.to_lower c) <? 128)%N = true.
Proof.
  destruct c as [[] [] [] [] [] [] [] []]; vm_compute; intros H;
    try discriminate H; repeat split.
Qed.

Lemma uni_blank_agrees (c : ascii) : N.eqb 32 (N_of_ascii c) = Ascii.eqb " " c.
Proof. destruct c as [[] [] [] [] [] [] [] []]; vm_compute; reflexivity. Qed.

Lemma codes_app (a b : string) : Uni.codes (a +:+ b) = Uni.codes a ++ Uni.codes b.
Proof.
  induction a as [|c a IH]; [reflexivity|].
  change (String c a +:+ b) with (String c (a +:+ b)). cbn [Uni.codes app]. now rewrite IH.
Qed.

Lemma is_ascii_app (a b : string) :
  is_ascii a = true -> is_ascii b = true -> is_ascii (a +:+ b) = true.
Proof.
  intros Ha Hb. induction a as [|c a IH]; [exact Hb|].
  change (String c a +:+ b) with (String c (a +:+ b)). cbn [is_ascii] in *.
  apply andb_prop in Ha as [Hc Ha]. now rewrite Hc, IH.
Qed.

Lemma codes_length (w : string) : length (Uni.codes w) = Py.len w.
Proof. induction w as [|c w IH]; [reflexivity|]. cbn [Uni.codes length]. now rewrite IH. Qed.

Lemma codes_nonempty (w : string) : Uni.nonempty (Uni.codes w) = Py.nonempty w.
Proof. now destruct w. Qed.

Lemma codes_title_from (whole : list N) (i : nat) (prev : bool) (s : string) :
  is_ascii s = true ->
  Uni.title_go Uni.latin1 whole i prev (Uni.codes s) = Uni.codes (Py.title_from prev s)
  /\ is_ascii (Py.title_from prev s) = true.
Proof.
  revert i prev. induction s as [|c s IH]; intros i prev Hs; [split; reflexivity|].
  cbn [is_ascii] in Hs. apply andb_prop in Hs as [Hc Hs].
  destruct (uni_char_agrees c Hc) as (_ & Hcased & Ht & Hl & Hu1 & Hl1).
  cbn [Uni.codes Uni.title_go Py.title_from is_ascii
       Uni.lower_at Uni.to_title Uni.is_cased Uni.latin1].
  rewrite Hcased, Ht, Hl.
  destruct (IH (S i) (Py.is_cased c) Hs) as [IH1 IH2].
  cbn [Uni.latin1] in IH1. rewrite IH1, IH2.
  destruct prev; cbn [app]; rewrite ?Hu1, ?Hl1; split; reflexivity.
Qed.

Lemma codes_pieces (sepN : N -> bool) (sepA : ascii -> bool) (s : string) :
  (forall c, (N_of_ascii c <? 128)%N = true -> sepN (N_of_ascii c) = sepA c) ->
  is_ascii s = true ->
  Uni.pieces sepN (Uni.codes s) = map Uni.codes (Py.pieces sepA s)
  /\ Forall (fun w => is_ascii w = true) (Py.pieces sepA s).
Proof.
  intros Hsep. induction s as [|c s IH]; intros Hs; [split; repeat constructor|].
  cbn [is_ascii] in Hs. apply andb_prop in Hs as [Hc Hs]. destruct (IH Hs) as [IH1 IH2].
  cbn [Uni.codes Uni.pieces Py.pieces]. rewrite (Hsep c Hc), IH1.
  destruct (sepA c); [split; [reflexivity | now constructor]|].
  destruct (Py.pieces sepA s) as [|w ws]; cbn [map].
  - split; [reflexivity|]. repeat constructor. cbn [is_ascii]. now rewrite Hc.
  - inversion IH2; subst. split; [reflexivity|]. constructor; [|assumption].
    cbn [is_ascii]. now rewrite Hc.
Qed.

Lemma codes_filter (p : list N -> bool) (q : string -> bool) (ws : list string) :
  (forall w, p (Uni.codes w) = q w) ->
  List.filter p (map Uni.codes ws) = map Uni.codes (List.filter q ws).
Proof.
  intros H. induction ws as [|w ws IH]; [reflexivity|]. cbn [map List.filter].
  rewrite H, IH. now destruct (q w).
Qed.

Lemma is_ascii_filter (q : string -> bool) (ws : list string) :
  Forall (fun w => is_ascii w = true) ws ->
  Forall (fun w => is_ascii w = true) (List.filter q ws).
Proof.
  induction 1 as [|w ws Hw Hws IH]; [constructor|]. cbn [List.filter].
  destruct (q w); [constructor|]; assumption.
Qed.

Lemma codes_split (s : string) :
  is_ascii s = true ->
  Uni.split Uni.latin1 (Uni.codes s) = map Uni.codes (Py.split s)
  /\ Forall (fun w => is_ascii w = true) (Py.split s).
Proof.
  intros Hs. unfold Uni.split, Py.split.
  destruct (codes_pieces (Uni.is_space Uni.latin1) Py.is_space s) as [E H];
    [intros c Hc; apply (uni_char_agrees c Hc) | exact Hs |].
  rewrite E. split; [apply codes_filter, codes_nonempty | now apply is_ascii_filter].
Qed.

Lemma codes_join (ws : list string) :
  Uni.codes (Py.join " " ws) = Uni.join (map Uni.codes ws).
Proof.
  induction ws as [|w [|w' ws] IH]; [reflexivity | reflexivity |].
  change (Py.join " " (w :: w' :: ws)) with (w +:+ " " +:+ Py.join " " (w' :: ws)).
  change (Uni.join (map Uni.codes (w :: w' :: ws)))
    with (Uni.codes w ++ 32%N :: Uni.join (map Uni.codes (w' :: ws))).
  rewrite !codes_app, IH. reflexivity.
Qed.

Lemma is_ascii_join (ws : list string) :
  Forall (fun w => is_ascii w = true) ws -> is_ascii (Py.join " " ws) = true.
Proof.
  induction 1 as [|w ws Hw Hws IH]; [reflexivity|].
  destruct ws as [|w' ws]; [exact Hw|].
  change (Py.join " " (w :: w' :: ws)) with (w +:+ " " +:+ Py.join " " (w' :: ws)).
  apply is_ascii_app; [exact Hw|]. now apply is_ascii_app.
Qed.

(** On an ASCII name, the storage form over code points, with the database
    of CPython, is the storage form of the byte model. *)
Lemma storage_first_name_agrees (s : string) :
  is_ascii s = true ->
  Uni.storage_first_name Uni.latin1 (Uni.codes s) = Uni.codes (storage_first_name s).
Proof.
  intros Hs. unfold Uni.storage_first_name, storage_first_name, Uni.title, Py.title.
  destruct (codes_title_from (Uni.codes s) 0 false s Hs) as [Et Ha]. rewrite Et.
  destruct (codes_split _ Ha) as [Es _]. rewrite Es.
  destruct (Py.split (Py.title_from false s)) as [|w0 rest]; [reflexivity|].
  cbn [map]. rewrite codes_join. cbn [map]. f_equal. f_equal.
  apply codes_filter. intros w. now rewrite codes_length.
Qed.

(** The same for the comparison form. *)
Lemma normalize_first_name_agrees (s : string) :
  is_ascii s = true ->
  Uni.normalize_first_name Uni.latin1 (Uni.codes s) = Uni.codes (normalize_first_name s).
Proof.
  intros Hs.
  unfold Uni.normalize_first_name, normalize_first_name, Uni.title, Py.title,
    Uni.split_on_space, Py.split_on.
  destruct (codes_split s Hs) as [Es Hw]. rewrite Es, <- codes_join.
  pose proof (is_ascii_join _ Hw) as Hj.
  destruct (codes_title_from (Uni.codes (Py.join " " (Py.split s))) 0 false _ Hj)
    as [Et Ha].
  rewrite Et.
  destruct (codes_pieces (N.eqb 32) (Ascii.eqb " ") _
              (fun c _ => uni_blank_agrees c) Ha) as [Ep _].
  rewrite Ep, length_map.
  destruct (Py.pieces (Ascii.eqb " ") (Py.title_from false (Py.join " " (Py.split s))))
    as [|p0 ps]; [reflexivity|].
  cbn [map hd tl Py.first]. rewrite codes_length.
  destruct ((1 <? length (p0 :: ps))%nat && (Py.len p0 =? 1)%nat);
    [now rewrite codes_join | reflexivity].
Qed.
